(** * GCP resource portal: the recommendation and cost engine of backend/server.js

    A shallow embedding of the pure part of the backend (ratio validation,
    time-series reduction, recommendation synthesis, efficiency, cost and
    savings, and the per-workload loop of POST /api/metrics), followed by the
    properties checked against it.

    Numbers.  JavaScript numbers are modelled as exact rationals [Q]: every
    arithmetic operation of the source is the corresponding operation on
    [Q], [Math.round], [Math.ceil] and [Math.floor] are the exact integer
    roundings ([Qfloor], [Qceiling]), and comparisons are exact.  Rounding
    error, overflow and the two infinities are outside the model.  Where the
    source can meet [undefined] or [NaN] in a numeric position the model
    says so with the type [num].

    Upstream.  The reads of Cloud Monitoring (with their cache) are a record
    of functions, [Upstream]; getVPARecommendations is modelled on top of it
    for a cache miss.  The bodies of getResourceRequestsFromMonitoring and
    getRunningReplicaCount are modelled as functions of the outcome of their
    queries.

    Dashboard.  The cost totals of frontend/src/App.js are modelled at the
    end of the definitions. *)

From Stdlib Require Import QArith Qround Qabs ZArith List String Ascii Bool Lia Lqa.
From Stdlib Require Import NArith Decimal DecimalString DecimalN Permutation Sorted.
Import ListNotations.

Local Open Scope string_scope.
Local Open Scope list_scope.
Local Open Scope Q_scope.

(* ================================================================== *)
(** ** Numbers *)

Definition Qltb (x y : Q) : bool := negb (Qle_bool y x).
Definition Qgtb (x y : Q) : bool := Qltb y x.
Definition Qzerob (x : Q) : bool := Qeq_bool x 0.

(** [Math.ceil], [Math.round] (halves go up), [Math.max], [Math.min] and
    [Math.abs] on finite numbers. *)
Definition Math_ceil (x : Q) : Q := inject_Z (Qceiling x).
Definition Math_round (x : Q) : Q := inject_Z (Qfloor (x + (1 # 2))).
Definition Math_max (x y : Q) : Q := if Qle_bool x y then y else x.
Definition Math_min (x y : Q) : Q := if Qle_bool x y then x else y.
Definition Math_abs (x : Q) : Q := Qabs x.

(** A number that may be [NaN].  [undefined] in a numeric position is read
    as [NaN] too: arithmetic turns it into [NaN], and both are falsy. *)
Inductive num : Type :=
| Fin (q : Q)
| NaN.

(** [x || d] for a number [x] and a finite default [d]: 0 and NaN are falsy. *)
Definition num_or (x : num) (d : Q) : Q :=
  match x with
  | Fin q => if Qzerob q then d else q
  | NaN => d
  end.

(** [x || d] on a finite number. *)
Definition Q_or (x d : Q) : Q := if Qzerob x then d else x.

(** The JavaScript values a property read can produce here. *)
Inductive jsval : Type :=
| JUndefined
| JNull
| JBool (b : bool)
| JNum (q : Q)
| JStr (s : string).

Definition truthy (v : jsval) : bool :=
  match v with
  | JUndefined | JNull => false
  | JBool b => b
  | JNum q => negb (Qzerob q)
  | JStr s => negb (String.eqb s "")
  end.

(* ================================================================== *)
(** ** RatioValidator: validateAndAdjustCPUMemoryRatio *)

(** The object returned by [validateAndAdjustCPUMemoryRatio]:
    [{cpu, memory, adjusted, reason}]. *)
Record RatioResult : Type := mkRatioResult {
  rv_cpu : Q;
  rv_memory : Q;
  rv_adjusted : bool;
  rv_reason : option string
}.

Definition reason_min : string :=
  "Memory increased to maintain minimum 1:1 vCPU:GiB ratio".
Definition reason_max : string :=
  "CPU increased to maintain maximum 1:6.5 vCPU:GiB ratio".

(** [!!adjustmentReason] for a reason that is [null] or one of the two
    non-empty texts. *)
Definition reason_truthy (r : option string) : bool :=
  match r with
  | Some s => negb (String.eqb s "")
  | None => false
  end.

Definition validateAndAdjustCPUMemoryRatio (cpuCores memoryBytes : Q) : RatioResult :=
  let memoryGiB := memoryBytes / (1024 * 1024 * 1024) in
  let ratio := memoryGiB / cpuCores in
  let '(adjustedCpu, adjustedMemory, adjustmentReason) :=
    if Qltb ratio 1 then
      (cpuCores, cpuCores * 1024 * 1024 * 1024, Some reason_min)
    else if Qgtb ratio (13 # 2) then
      (memoryGiB / (13 # 2), memoryBytes, Some reason_max)
    else
      (cpuCores, memoryBytes, None) in
  {| rv_cpu := adjustedCpu;
     rv_memory := adjustedMemory;
     rv_adjusted := reason_truthy adjustmentReason;
     rv_reason := adjustmentReason |}.

(** Reading a property of the returned object by name; a name the object
    does not have reads as [undefined]. *)
Definition ratio_prop (r : RatioResult) (key : string) : jsval :=
  if String.eqb key "cpu" then JNum (rv_cpu r)
  else if String.eqb key "memory" then JNum (rv_memory r)
  else if String.eqb key "adjusted" then JBool (rv_adjusted r)
  else if String.eqb key "reason" then
    match rv_reason r with Some s => JStr s | None => JNull end
  else JUndefined.

(** The ratio the validator bounds: GiB of memory per vCPU. *)
Definition memoryGiBPerCpu (cpuCores memoryBytes : Q) : Q :=
  (memoryBytes / (1024 * 1024 * 1024)) / cpuCores.

(* ================================================================== *)
(** ** Time series as returned by the telemetry API *)

(** A point: [interval.endTime.seconds] (absent reads as 0 through
    [parseInt(... || 0)]) and [value.doubleValue] (may be absent). *)
Record Point : Type := mkPoint {
  endTime_seconds : option Z;
  doubleValue : option Q
}.

(** A series: the container label under [metric.labels] and under
    [resource.labels], and its points.  An absent [points] array is read by
    every function below exactly as an empty one, so it is modelled as []. *)
Record Series : Type := mkSeries {
  metric_container_name : option string;
  resource_container_name : option string;
  points : list Point
}.

Definition point_timestamp (point : Point) : Z :=
  match endTime_seconds point with
  | Some s => s
  | None => 0%Z
  end.

(** [label || 'unknown'] *)
Definition label_or_unknown (label : option string) : string :=
  match label with
  | Some s => if String.eqb s "" then "unknown" else s
  | None => "unknown"
  end.

(** A JavaScript [Map] or object keyed by container name, in insertion
    order (container names are not array indices).  Setting a key that is
    present replaces its value in place. *)
Fixpoint map_get {V : Type} (m : list (string * V)) (k : string) : option V :=
  match m with
  | [] => None
  | (k', v) :: rest => if String.eqb k' k then Some v else map_get rest k
  end.

Fixpoint map_set {V : Type} (m : list (string * V)) (k : string) (v : V)
  : list (string * V) :=
  match m with
  | [] => [(k, v)]
  | (k', v') :: rest =>
      if String.eqb k' k then (k, v) :: rest else (k', v') :: map_set rest k v
  end.

(* ------------------------------------------------------------------ *)
(** *** calculateCurrentUsage *)

Definition calculateCurrentUsage (timeSeries : list Series) : Q :=
  match timeSeries with
  | [] => 0
  | latestSeries :: _ =>
      match points latestSeries with
      | [] => 0
      | latestPoint :: _ =>
          match doubleValue latestPoint with
          | Some v => Q_or v 0
          | None => 0
          end
      end
  end.

(* ------------------------------------------------------------------ *)
(** *** extractPerContainerRecommendations, extractLatestRecommendation *)

(** The inner [forEach] over the points of one series: keep, per container,
    the value with the greatest timestamp seen so far (the first one wins
    among equal timestamps). *)
Definition record_point (containerName : string)
    (acc : list (string * (Q * Z))) (point : Point) : list (string * (Q * Z)) :=
  let timestamp := point_timestamp point in
  match doubleValue point with
  | Some value =>
      match map_get acc containerName with
      | Some existing =>
          if (timestamp >? snd existing)%Z
          then map_set acc containerName (value, timestamp)
          else acc
      | None => map_set acc containerName (value, timestamp)
      end
  | None => acc
  end.

Definition extractPerContainerRecommendations (timeSeries : list Series)
  : list (string * Q) :=
  let containerRecommendations :=
    fold_left
      (fun acc series =>
         let containerName := label_or_unknown (metric_container_name series) in
         fold_left (record_point containerName) (points series) acc)
      timeSeries [] in
  map (fun entry => (fst entry, fst (snd entry))) containerRecommendations.

(** [null] when no container has a value, else the sum over containers. *)
Definition extractLatestRecommendation (timeSeries : list Series) : option Q :=
  let perContainer := extractPerContainerRecommendations timeSeries in
  match perContainer with
  | [] => None
  | _ => Some (fold_left (fun total entry => total + snd entry) perContainer 0)
  end.

(* ------------------------------------------------------------------ *)
(** *** The object built by getVPARecommendations *)

(** [{cpu, memory, cpuPerContainer, memoryPerContainer, available,
    ratioAdjustments: {total, perContainer}}].  [cpu] and [memory] are
    [null] or a number.  A container that has a CPU recommendation and no
    memory recommendation is stored with memory [undefined] ([None]).  The
    object returned after a failure, [{cpu: null, memory: null, available:
    false}], is this record with empty maps: every read of the missing
    properties in the source goes through [|| {}] or [?.]. *)
Record VPARecommendations : Type := mkVPA {
  vpa_cpu : option Q;
  vpa_memory : option Q;
  vpa_cpuPerContainer : list (string * Q);
  vpa_memoryPerContainer : list (string * option Q);
  vpa_available : bool;
  vpa_adjust_total : option string;
  vpa_adjust_perContainer : list (string * string)
}.

Definition vpa_unavailable : VPARecommendations :=
  {| vpa_cpu := None; vpa_memory := None;
     vpa_cpuPerContainer := []; vpa_memoryPerContainer := [];
     vpa_available := false;
     vpa_adjust_total := None; vpa_adjust_perContainer := [] |}.

(** One step of the [Object.keys(cpuPerContainer).forEach] of
    getVPARecommendations. *)
Definition validate_container (memoryPerContainer : list (string * Q))
    (acc : list (string * Q) * list (string * option Q) * list (string * string))
    (entry : string * Q)
  : list (string * Q) * list (string * option Q) * list (string * string) :=
  let '(adjustedCpu, adjustedMemory, containerAdjustments) := acc in
  let containerName := fst entry in
  let containerCpu := snd entry in
  let containerMemory := map_get memoryPerContainer containerName in
  match containerMemory with
  | Some m =>
      if negb (Qzerob containerCpu) && negb (Qzerob m) then
        let containerRatioValidation := validateAndAdjustCPUMemoryRatio containerCpu m in
        (map_set adjustedCpu containerName (rv_cpu containerRatioValidation),
         map_set adjustedMemory containerName (Some (rv_memory containerRatioValidation)),
         match rv_reason containerRatioValidation with
         | Some r =>
             if rv_adjusted containerRatioValidation
             then map_set containerAdjustments containerName r
             else containerAdjustments
         | None => containerAdjustments
         end)
      else
        (map_set adjustedCpu containerName containerCpu,
         map_set adjustedMemory containerName containerMemory,
         containerAdjustments)
  | None =>
      (map_set adjustedCpu containerName containerCpu,
       map_set adjustedMemory containerName None,
       containerAdjustments)
  end.

(** The body of getVPARecommendations after its two fetches succeeded
    (cache miss or cache disabled). *)
Definition buildVPARecommendations (cpuRecommendations memoryRecommendations : list Series)
  : VPARecommendations :=
  let cpuValue := extractLatestRecommendation cpuRecommendations in
  let memoryValue := extractLatestRecommendation memoryRecommendations in
  let cpuPerContainer := extractPerContainerRecommendations cpuRecommendations in
  let memoryPerContainer := extractPerContainerRecommendations memoryRecommendations in
  let '(adjustedTotalCpu, adjustedTotalMemory, totalAdjustmentReason) :=
    match cpuValue, memoryValue with
    | Some c, Some m =>
        if negb (Qzerob c) && negb (Qzerob m) then
          let totalRatioValidation := validateAndAdjustCPUMemoryRatio c m in
          (Some (rv_cpu totalRatioValidation),
           Some (rv_memory totalRatioValidation),
           rv_reason totalRatioValidation)
        else (cpuValue, memoryValue, None)
    | _, _ => (cpuValue, memoryValue, None)
    end in
  let '(adjustedCpuPerContainer, adjustedMemoryPerContainer, containerAdjustments) :=
    fold_left (validate_container memoryPerContainer) cpuPerContainer ([], [], []) in
  {| vpa_cpu := adjustedTotalCpu;
     vpa_memory := adjustedTotalMemory;
     vpa_cpuPerContainer := adjustedCpuPerContainer;
     vpa_memoryPerContainer := adjustedMemoryPerContainer;
     vpa_available :=
       (0 <? List.length cpuRecommendations)%nat
       || (0 <? List.length memoryRecommendations)%nat;
     vpa_adjust_total := totalAdjustmentReason;
     vpa_adjust_perContainer := containerAdjustments |}.

(* ================================================================== *)
(** ** RecommendationSynthesizer: scalar recommendations *)

(** [resources.requests] and [resources.limits].  A request comes from
    getResourceRequestsFromMonitoring and may be [NaN] (a sum over a
    container without a value); the limits have gone through [|| 0].  The
    [optimizedResources] object of the savings computation has no limits. *)
Record Requests : Type := mkRequests {
  rq_cpu : num;
  rq_memory : num
}.

Record Resources : Type := mkResources {
  requests : Requests;
  limits : option (Q * Q)
}.

Definition requests_cpu (resources : Resources) : num := rq_cpu (requests resources).
Definition requests_memory (resources : Resources) : num := rq_memory (requests resources).

Definition mebibyte : Q := 1024 * 1024.

(** [Math.max(10, Math.ceil(x / 10) * 10)] *)
Definition roundUpTo10m (x : Q) : Q :=
  Math_max 10 (Math_ceil (x / 10) * 10).

(** [Math.max(16 * mebibyte, Math.ceil(x / (16 * mebibyte)) * (16 * mebibyte))] *)
Definition roundUpTo16Mi (x : Q) : Q :=
  Math_max (16 * mebibyte) (Math_ceil (x / (16 * mebibyte)) * (16 * mebibyte)).

(** [values.sort((a, b) => a - b)]: ascending order. *)
Fixpoint insert_ascending (x : Q) (l : list Q) : list Q :=
  match l with
  | [] => [x]
  | y :: rest => if Qle_bool x y then x :: l else y :: insert_ascending x rest
  end.

Definition sort_ascending (l : list Q) : list Q :=
  fold_right insert_ascending [] l.

(** The truthy [doubleValue]s of all points of all series, in order. *)
Definition collect_values (timeSeries : list Series) : list Q :=
  flat_map
    (fun series =>
       flat_map
         (fun point =>
            match doubleValue point with
            | Some v => if Qzerob v then [] else [v]
            | None => []
            end)
         (points series))
    timeSeries.

(** [Math.max(...values)]; the source calls it on a non-empty array only. *)
Definition max_of (values : list Q) : Q :=
  match values with
  | [] => 0
  | v :: vs => fold_left Math_max vs v
  end.

(** [Math.floor(values.length * 0.9)] *)
Definition p90Index (values : list Q) : nat :=
  Z.to_nat (Qfloor (inject_Z (Z.of_nat (List.length values)) * (9 # 10))).

Definition calculateRecommendation (timeSeries : list Series) (metricType : string)
    (currentRequest : num) : Q :=
  let fallback :=
    num_or currentRequest (if String.eqb metricType "cpu" then 10 else 16 * 1024 * 1024) in
  match timeSeries with
  | [] => fallback
  | _ =>
      match collect_values timeSeries with
      | [] => fallback
      | values =>
          let values := sort_ascending values in
          if String.eqb metricType "cpu" then
            let recommendation := nth (p90Index values) values 0 * (115 # 100) in
            let recommendation := recommendation * 1000 in
            roundUpTo10m recommendation
          else
            let recommendation := max_of values * (12 # 10) in
            roundUpTo16Mi recommendation
      end
  end.

Definition getRecommendedCPU (vpaRecommendations : VPARecommendations)
    (cpuTimeSeries : list Series) (currentRequest : num) : Q :=
  match vpa_available vpaRecommendations, vpa_cpu vpaRecommendations with
  | true, Some cpu =>
      let vpaCpuMillicores := Math_round (cpu * 1000) in
      roundUpTo10m vpaCpuMillicores
  | _, _ => calculateRecommendation cpuTimeSeries "cpu" currentRequest
  end.

Definition getRecommendedMemory (vpaRecommendations : VPARecommendations)
    (memoryTimeSeries : list Series) (currentRequest : num) : Q :=
  match vpa_available vpaRecommendations, vpa_memory vpaRecommendations with
  | true, Some memory =>
      let vpaMemoryBytes := Math_round memory in
      roundUpTo16Mi vpaMemoryBytes
  | _, _ => calculateRecommendation memoryTimeSeries "memory" currentRequest
  end.

(* ================================================================== *)
(** ** EfficiencyCalculator and CostEstimator *)

Definition calculateEfficiency (cpuSeries memorySeries : list Series)
    (resources : Resources) : Q :=
  let cpuUsage := calculateCurrentUsage cpuSeries in
  let memoryUsage := calculateCurrentUsage memorySeries in
  let cpuRequest := num_or (requests_cpu resources) 100 in
  let memoryRequest := num_or (requests_memory resources) (128 * 1024 * 1024) in
  let cpuEfficiency :=
    if Qgtb cpuRequest 0
    then Math_min 100 ((cpuUsage * 1000 / cpuRequest) * 100)
    else 100 in
  let memoryEfficiency :=
    if Qgtb memoryRequest 0
    then Math_min 100 ((memoryUsage / memoryRequest) * 100)
    else 100 in
  Math_round ((cpuEfficiency + memoryEfficiency) / 2).

Definition cpuCostPerHour : Q := 31611 # 1000000.   (* 0.031611 *)
Definition memoryCostPerHour : Q := 4237 # 1000000. (* 0.004237 *)

Definition calculateCost (resources : Resources) (replicas : Q) : Q :=
  let cpuCores := num_or (requests_cpu resources) 100 / 1000 in
  let memoryGB :=
    num_or (requests_memory resources) (128 * 1024 * 1024) / (1024 * 1024 * 1024) in
  let hourlyCost := (cpuCores * cpuCostPerHour + memoryGB * memoryCostPerHour) * replicas in
  let monthlyCost := hourlyCost * 24 * 30 in
  Math_round (monthlyCost * 100) / 100.

(** The [optimizedResources] object of calculatePotentialSavingsWithVPA.
    In [c ? a : b || d] the conditional binds weaker than [||]. *)
Definition optimizedResources (vpaRecommendations : VPARecommendations)
    (resources : Resources) : Resources :=
  let currentCpu := num_or (requests_cpu resources) 100 in
  let currentMemory := num_or (requests_memory resources) (128 * 1024 * 1024) in
  if vpa_available vpaRecommendations then
    {| requests :=
         {| rq_cpu :=
              Fin (match vpa_cpu vpaRecommendations with
                   | Some cpu => if Qzerob cpu then currentCpu else Math_round (cpu * 1000)
                   | None => currentCpu
                   end);
            rq_memory :=
              Fin (match vpa_memory vpaRecommendations with
                   | Some memory =>
                       if Qzerob memory then currentMemory else Math_round memory
                   | None => currentMemory
                   end) |};
       limits := None |}
  else
    {| requests := {| rq_cpu := Fin currentCpu; rq_memory := Fin currentMemory |};
       limits := None |}.

Definition calculatePotentialSavingsWithVPA (vpaRecommendations : VPARecommendations)
    (resources : Resources) : Q :=
  let currentCost := calculateCost resources 1 in
  let optimizedCost := calculateCost (optimizedResources vpaRecommendations resources) 1 in
  let savings := Math_max 0 (currentCost - optimizedCost) in
  Math_round (savings * 100) / 100.

(* ================================================================== *)
(** ** RecommendationSynthesizer: recommendation text *)

(** The lines pushed by generateRecommendationsWithVPA, one constructor per
    template, carrying the numbers the template interpolates. *)
Inductive RecLine : Type :=
| CpuHeader                                      (* CPU Recommendations by Container: *)
| CpuContainerLine (containerName : string) (cpuMillicores : Q)
                                                 (* <name>: <n>m CPU *)
| CpuTotalLine (finalTotalCpuMillicores currentCpuRequest : Q)
                                                 (* Total recommended: <n>m (current: <n>m) *)
| MemoryHeader                                   (* Memory Recommendations by Container: *)
| MemoryContainerLine (containerName : string) (memoryMi : num)
                                                 (* <name>: <n>Mi memory *)
| MemoryTotalLine (finalMemoryMi : num) (currentMemoryMi : Q)
                                                 (* Total recommended: <n>Mi (current: <n>Mi) *)
| SuggestTotalCpu (action : string) (percent : Q)     (* Suggests <action> total CPU by <n>% *)
| SuggestTotalMemory (action : string) (percent : Q)  (* Suggests <action> total memory by <n>% *)
| RatioValidationNote      (* Note: CPU:Memory ratio validation applied (Between 1:1 and 1:6.5) *)
| VpaNotYetAvailable       (* VPA recommendations not yet available - allow more time ... *)
| ConsiderReducingCpu      (* Consider reducing CPU request - low utilization detected *)
| ConsiderIncreasingCpu    (* Consider increasing CPU request - high utilization detected *)
| ConsiderReducingMemory   (* Consider reducing memory request - low utilization detected *)
| ConsiderIncreasingMemory (* Consider increasing memory request - high utilization detected *)
| WellOptimized            (* Resources appear well optimized based on usage patterns *)
| EnableVpa.               (* Enable VPA for ML-based per-container recommendations *)

Definition num_map (f : Q -> Q) (x : num) : num :=
  match x with
  | Fin q => Fin (f q)
  | NaN => NaN
  end.

Definition num_add (x y : num) : num :=
  match x, y with
  | Fin a, Fin b => Fin (a + b)
  | _, _ => NaN
  end.

(** Rounding of one per-container memory value; [undefined] gives [NaN]. *)
Definition roundContainerMemory (memoryBytes : option Q) : num :=
  match memoryBytes with
  | Some m => Fin (roundUpTo16Mi m)
  | None => NaN
  end.

(** The second validation pass over the rounded totals: the triple
    [(finalTotalCpuMillicores, finalTotalMemoryBytes, ratioAdjustmentMade)].
    The source tests the property [adjustmentReason] of the validator's
    result. *)
Definition validateRoundedTotals (totalRoundedCpuMillicores : Q)
    (totalRoundedMemoryBytes : num) : Q * num * bool :=
  match totalRoundedMemoryBytes with
  | Fin totalMemory =>
      if Qgtb totalRoundedCpuMillicores 0 && Qgtb totalMemory 0 then
        let ratioValidation :=
          validateAndAdjustCPUMemoryRatio (totalRoundedCpuMillicores / 1000) totalMemory in
        if truthy (ratio_prop ratioValidation "adjustmentReason") then
          let finalTotalCpuMillicores := Math_round (rv_cpu ratioValidation * 1000) in
          let finalTotalMemoryBytes := rv_memory ratioValidation in
          (roundUpTo10m finalTotalCpuMillicores,
           Fin (roundUpTo16Mi finalTotalMemoryBytes),
           true)
        else (totalRoundedCpuMillicores, totalRoundedMemoryBytes, false)
      else (totalRoundedCpuMillicores, totalRoundedMemoryBytes, false)
  | NaN => (totalRoundedCpuMillicores, NaN, false)
  end.

(** [Math.abs(d) > 20] and the line it triggers. *)
Definition suggestion (mk : string -> Q -> RecLine) (difference : Q) : list RecLine :=
  if Qgtb (Math_abs difference) 20 then
    let action := if Qgtb difference 0 then "increase" else "reduce" in
    [mk action (Math_round (Math_abs difference))]
  else [].

Definition is_some {A : Type} (o : option A) : bool :=
  match o with Some _ => true | None => false end.

Definition generateRecommendationsWithVPA (vpaRecommendations : VPARecommendations)
    (cpuSeries memorySeries : list Series) (resources : Resources) : list RecLine :=
  if vpa_available vpaRecommendations then
    let currentCpuRequest := num_or (requests_cpu resources) 100 in
    let currentMemoryRequest := num_or (requests_memory resources) (128 * 1024 * 1024) in
    let hasRatioAdjustments :=
      reason_truthy (vpa_adjust_total vpaRecommendations)
      || (0 <? List.length (vpa_adjust_perContainer vpaRecommendations))%nat in
    let roundedCpuPerContainer :=
      map (fun entry =>
             let cpuMillicores := Math_round (snd entry * 1000) in
             (fst entry, roundUpTo10m cpuMillicores))
          (vpa_cpuPerContainer vpaRecommendations) in
    let totalRoundedCpuMillicores :=
      fold_left (fun total entry => total + snd entry) roundedCpuPerContainer 0 in
    let roundedMemoryPerContainer :=
      map (fun entry => (fst entry, roundContainerMemory (snd entry)))
          (vpa_memoryPerContainer vpaRecommendations) in
    let totalRoundedMemoryBytes :=
      fold_left (fun total entry => num_add total (snd entry))
                roundedMemoryPerContainer (Fin 0) in
    let '(finalTotalCpuMillicores, finalTotalMemoryBytes, ratioAdjustmentMade) :=
      validateRoundedTotals totalRoundedCpuMillicores totalRoundedMemoryBytes in
    let cpuLines :=
      match roundedCpuPerContainer with
      | [] => []
      | _ =>
          CpuHeader
            :: map (fun entry => CpuContainerLine (fst entry) (snd entry))
                   roundedCpuPerContainer
            ++ [CpuTotalLine finalTotalCpuMillicores currentCpuRequest]
      end in
    let memoryLines :=
      match roundedMemoryPerContainer with
      | [] => []
      | _ =>
          MemoryHeader
            :: map (fun entry =>
                      MemoryContainerLine (fst entry)
                        (num_map (fun memoryBytes => Math_round (memoryBytes / mebibyte))
                                 (snd entry)))
                   roundedMemoryPerContainer
            ++ [MemoryTotalLine
                  (num_map (fun b => Math_round (b / mebibyte)) finalTotalMemoryBytes)
                  (Math_round (currentMemoryRequest / mebibyte))]
      end in
    let cpuSuggestion :=
      if is_some (vpa_cpu vpaRecommendations) then
        suggestion SuggestTotalCpu
          (((finalTotalCpuMillicores - currentCpuRequest) / currentCpuRequest) * 100)
      else [] in
    let memorySuggestion :=
      if is_some (vpa_memory vpaRecommendations) then
        match finalTotalMemoryBytes with
        | Fin finalMemory =>
            suggestion SuggestTotalMemory
              (((finalMemory - currentMemoryRequest) / currentMemoryRequest) * 100)
        | NaN => []
        end
      else [] in
    let ratioNote :=
      if hasRatioAdjustments || ratioAdjustmentMade then [RatioValidationNote] else [] in
    let notYet :=
      if negb (is_some (vpa_cpu vpaRecommendations))
         && negb (is_some (vpa_memory vpaRecommendations))
      then [VpaNotYetAvailable] else [] in
    cpuLines ++ memoryLines ++ cpuSuggestion ++ memorySuggestion ++ ratioNote ++ notYet
  else
    let cpuUsage := calculateCurrentUsage cpuSeries in
    let memoryUsage := calculateCurrentUsage memorySeries in
    let cpuRequest := num_or (requests_cpu resources) 100 in
    let memoryRequest := num_or (requests_memory resources) (128 * 1024 * 1024) in
    let cpuUtilization :=
      if Qgtb cpuRequest 0 then cpuUsage * 1000 / cpuRequest else 0 in
    let cpuLines :=
      if Qltb cpuUtilization (3 # 10) then [ConsiderReducingCpu]
      else if Qgtb cpuUtilization (8 # 10) then [ConsiderIncreasingCpu]
      else [] in
    let memoryUtilization :=
      if Qgtb memoryRequest 0 then memoryUsage / memoryRequest else 0 in
    let memoryLines :=
      if Qltb memoryUtilization (3 # 10) then [ConsiderReducingMemory]
      else if Qgtb memoryUtilization (8 # 10) then [ConsiderIncreasingMemory]
      else [] in
    let recommendations := cpuLines ++ memoryLines in
    let recommendations :=
      match recommendations with
      | [] => [WellOptimized]
      | _ => recommendations
      end in
    recommendations ++ [EnableVpa].

(* ================================================================== *)
(** ** WorkloadOrchestrator: POST /api/metrics *)

(** A computation that returns a value or throws an [Error] with a message. *)
Definition Result (A : Type) : Type := (string + A)%type.

Definition ret {A : Type} (a : A) : Result A := inr a.
Definition throw {A : Type} (message : string) : Result A := inl message.
Definition bind {A B : Type} (m : Result A) (k : A -> Result B) : Result B :=
  match m with
  | inl message => inl message
  | inr a => k a
  end.

Notation "x <- m ;; k" := (bind m (fun x => k))
  (at level 61, m at next level, right associativity).

(** [{count, type}] of getRunningReplicaCount. *)
Record ReplicaInfo : Type := mkReplicaInfo {
  ri_count : Q;
  ri_type : string
}.

(** The object of getResourceRequestsFromMonitoring. *)
Record ResourceRequests : Type := mkResourceRequests {
  rr_cpuRequest : num;
  rr_memoryRequest : num;
  rr_cpuPerContainer : list (string * num);
  rr_memoryPerContainer : list (string * num);
  rr_adjust_total : option string;
  rr_adjust_perContainer : list (string * string)
}.

(** The upstream reads of one request, keyed by project, cluster, namespace
    and workload (and metric type); the time window is fixed by the request.
    getRunningReplicaCount and getResourceRequestsFromMonitoring catch their
    own failures and always return an object; getMetricsFromMonitoring
    throws [Error("Failed to fetch <metric> metrics: ...")] on failure. *)
Record Upstream : Type := mkUpstream {
  getRunningReplicaCount : string -> string -> string -> string -> ReplicaInfo;
  getResourceRequestsFromMonitoring : string -> string -> string -> string -> ResourceRequests;
  getMetricsFromMonitoring :
    string -> string -> string -> string -> string -> Result (list Series)
}.

Definition metric_cpu_usage : string := "kubernetes.io/container/cpu/core_usage_time".
Definition metric_memory_usage : string := "kubernetes.io/container/memory/used_bytes".
Definition metric_vpa_cpu : string :=
  "kubernetes.io/autoscaler/container/cpu/per_replica_recommended_request_cores".
Definition metric_vpa_memory : string :=
  "kubernetes.io/autoscaler/container/memory/per_replica_recommended_request_bytes".

(** getVPARecommendations on a cache miss: two fetches, then the object; any
    failure is caught and gives [{cpu: null, memory: null, available: false}]. *)
Definition getVPARecommendations (up : Upstream)
    (projectId clusterName namespace workloadName : string) : VPARecommendations :=
  let attempt :=
    cpuRecommendations <-
      getMetricsFromMonitoring up projectId clusterName namespace workloadName metric_vpa_cpu ;;
    memoryRecommendations <-
      getMetricsFromMonitoring up projectId clusterName namespace workloadName metric_vpa_memory ;;
    ret (buildVPARecommendations cpuRecommendations memoryRecommendations) in
  match attempt with
  | inr recommendations => recommendations
  | inl _ => vpa_unavailable
  end.

(** An element of the request's [workloads] array. *)
Record Workload : Type := mkWorkload {
  w_name : string;
  w_namespace : string;
  w_type : option string;
  w_cpuLimit : option Q;
  w_memoryLimit : option Q
}.

Record VPADetails : Type := mkVPADetails {
  vd_cpuPerContainer : list (string * Q);
  vd_memoryPerContainer : list (string * option Q);
  vd_totalCpuRecommended : option Q;
  vd_totalMemoryRecommended : option Q
}.

(** The [processedMetrics] object. *)
Record ProcessedMetrics : Type := mkProcessedMetrics {
  pm_name : string;
  pm_namespace : string;
  pm_type : string;
  pm_replicas : Q;
  pm_cpuRequest : num;
  pm_memoryRequest : num;
  pm_cpuLimit : Q;
  pm_memoryLimit : Q;
  pm_cpuUsage : Q;
  pm_memoryUsage : Q;
  pm_recommendedCPU : Q;
  pm_recommendedMemory : Q;
  pm_efficiency : Q;
  pm_cost : Q;
  pm_potentialSavings : Q;
  pm_status : string;
  pm_recommendations : list RecLine;
  pm_platform : string;
  pm_vpaEnabled : bool;
  pm_vpaDetails : option VPADetails;
  pm_cpuRequestsPerContainer : list (string * num);
  pm_memoryRequestsPerContainer : list (string * num)
}.

(** The object pushed by the per-workload [catch]. *)
Record ErrorMetrics : Type := mkErrorMetrics {
  em_name : string;
  em_namespace : string;
  em_type : string;
  em_error : string;
  em_status : string
}.

Inductive MetricsItem : Type :=
| Processed (m : ProcessedMetrics)
| Failed (e : ErrorMetrics).

(** The own property names of an item of the response, as the object
    literals of the source list them. *)
Definition item_keys (item : MetricsItem) : list string :=
  match item with
  | Processed _ =>
      ["name"; "namespace"; "type"; "replicas"; "cpuRequest"; "memoryRequest";
       "cpuLimit"; "memoryLimit"; "cpuUsage"; "memoryUsage"; "recommendedCPU";
       "recommendedMemory"; "efficiency"; "cost"; "potentialSavings"; "status";
       "recommendations"; "platform"; "vpaEnabled"; "vpaDetails"; "containerDetails"]
  | Failed _ => ["name"; "namespace"; "type"; "error"; "status"]
  end.

Definition item_name (item : MetricsItem) : string :=
  match item with
  | Processed m => pm_name m
  | Failed e => em_name e
  end.

(** [a || b] on strings that may be absent. *)
Definition string_or (a : option string) (b : string) : string :=
  match a with
  | Some s => if String.eqb s "" then b else s
  | None => b
  end.

Definition option_or (a : option Q) (d : Q) : Q :=
  match a with
  | Some q => Q_or q d
  | None => d
  end.

(** The body of the per-workload [try] block. *)
Definition processWorkload (up : Upstream) (projectId clusterName : string)
    (workload : Workload) : Result ProcessedMetrics :=
  let replicaInfo :=
    getRunningReplicaCount up projectId clusterName (w_namespace workload) (w_name workload) in
  let actualReplicas := ri_count replicaInfo in
  let actualWorkloadType := ri_type replicaInfo in
  let resourceRequests :=
    getResourceRequestsFromMonitoring up projectId clusterName
      (w_namespace workload) (w_name workload) in
  cpuResponse <-
    getMetricsFromMonitoring up projectId clusterName
      (w_namespace workload) (w_name workload) metric_cpu_usage ;;
  memoryResponse <-
    getMetricsFromMonitoring up projectId clusterName
      (w_namespace workload) (w_name workload) metric_memory_usage ;;
  let vpaRecommendations :=
    getVPARecommendations up projectId clusterName (w_namespace workload) (w_name workload) in
  let resources :=
    {| requests :=
         {| rq_cpu := rr_cpuRequest resourceRequests;
            rq_memory := rr_memoryRequest resourceRequests |};
       limits :=
         Some (option_or (w_cpuLimit workload) 0, option_or (w_memoryLimit workload) 0) |} in
  let cpuUsage := calculateCurrentUsage cpuResponse in
  let memoryUsage := calculateCurrentUsage memoryResponse in
  let recommendedCPU :=
    getRecommendedCPU vpaRecommendations cpuResponse (requests_cpu resources) in
  let recommendedMemory :=
    getRecommendedMemory vpaRecommendations memoryResponse (requests_memory resources) in
  ret {| pm_name := w_name workload;
         pm_namespace := w_namespace workload;
         pm_type := string_or (Some actualWorkloadType) (string_or (w_type workload) "Unknown");
         pm_replicas := actualReplicas;
         pm_cpuRequest := requests_cpu resources;
         pm_memoryRequest := requests_memory resources;
         pm_cpuLimit := option_or (w_cpuLimit workload) 0;
         pm_memoryLimit := option_or (w_memoryLimit workload) 0;
         pm_cpuUsage := cpuUsage;
         pm_memoryUsage := memoryUsage;
         pm_recommendedCPU := recommendedCPU;
         pm_recommendedMemory := recommendedMemory;
         pm_efficiency := calculateEfficiency cpuResponse memoryResponse resources;
         pm_cost := calculateCost resources actualReplicas;
         pm_potentialSavings := calculatePotentialSavingsWithVPA vpaRecommendations resources;
         pm_status := "running";
         pm_recommendations :=
           generateRecommendationsWithVPA vpaRecommendations cpuResponse memoryResponse resources;
         pm_platform := "gke";
         pm_vpaEnabled := vpa_available vpaRecommendations;
         pm_vpaDetails :=
           if vpa_available vpaRecommendations then
             Some {| vd_cpuPerContainer := vpa_cpuPerContainer vpaRecommendations;
                     vd_memoryPerContainer := vpa_memoryPerContainer vpaRecommendations;
                     vd_totalCpuRecommended := vpa_cpu vpaRecommendations;
                     vd_totalMemoryRecommended := vpa_memory vpaRecommendations |}
           else None;
         pm_cpuRequestsPerContainer := rr_cpuPerContainer resourceRequests;
         pm_memoryRequestsPerContainer := rr_memoryPerContainer resourceRequests |}.

(** One iteration of [for (const workload of workloadsList)]: the [try]
    block, and the [catch] that pushes the error entry instead. *)
Definition processOrCatch (up : Upstream) (projectId clusterName : string)
    (workload : Workload) : MetricsItem :=
  match processWorkload up projectId clusterName workload with
  | inr processedMetrics => Processed processedMetrics
  | inl message =>
      Failed {| em_name := w_name workload;
                em_namespace := w_namespace workload;
                em_type := string_or (w_type workload) "Unknown";
                em_error := message;
                em_status := "error" |}
  end.

(** The loop: [metricsData.push(...)] once per workload, in order. *)
Definition collectMetrics (up : Upstream) (projectId clusterName : string)
    (workloadsList : list Workload) : list MetricsItem :=
  fold_left
    (fun metricsData workload =>
       metricsData ++ [processOrCatch up projectId clusterName workload])
    workloadsList [].

(** The request body. *)
Record MetricsRequest : Type := mkMetricsRequest {
  body_projectId : option string;
  body_clusterName : option string;
  body_namespace : option string;
  body_workloadName : option string;
  body_timeRange : option Q;
  body_workloads : option (list Workload)
}.

(** The responses the handler sends when nothing outside the per-workload
    [try] throws. *)
Inductive Response : Type :=
| Status400 (error : string)
| Status200 (workloads : list MetricsItem).

(** [/^[a-z0-9-]+$/.test(s)] *)
Definition lowercase_digit_or_dash (c : ascii) : bool :=
  let n := nat_of_ascii c in
  ((97 <=? n) && (n <=? 122) || (48 <=? n) && (n <=? 57) || (n =? 45))%nat.

Fixpoint all_chars (p : ascii -> bool) (s : string) : bool :=
  match s with
  | EmptyString => true
  | String c rest => p c && all_chars p rest
  end.

Definition valid_identifier (s : string) : bool :=
  negb (String.eqb s "") && all_chars lowercase_digit_or_dash s.

Definition present (o : option string) : bool :=
  match o with
  | Some s => negb (String.eqb s "")
  | None => false
  end.

(** An optional identifier is checked only when it is given and non-empty. *)
Definition optional_identifier_ok (o : option string) : bool :=
  match o with
  | Some s => if String.eqb s "" then true else valid_identifier s
  | None => true
  end.

Definition timeRange_ok (o : option Q) : bool :=
  match o with
  | Some t => if Qzerob t then true else negb (Qltb t 1 || Qgtb t 168)
  | None => true
  end.

Definition metricsEndpoint (up : Upstream) (body : MetricsRequest) : Response :=
  if negb (present (body_projectId body)) || negb (present (body_clusterName body)) then
    Status400 "Missing required parameters: projectId and clusterName"
  else
    let projectId := string_or (body_projectId body) "" in
    let clusterName := string_or (body_clusterName body) "" in
    if negb (valid_identifier projectId) then Status400 "Invalid projectId format"
    else if negb (valid_identifier clusterName) then Status400 "Invalid clusterName format"
    else if negb (optional_identifier_ok (body_namespace body)) then
      Status400 "Invalid namespace format"
    else if negb (optional_identifier_ok (body_workloadName body)) then
      Status400 "Invalid workloadName format"
    else if negb (timeRange_ok (body_timeRange body)) then Status400 "Invalid timeRange"
    else
      let workloadsList :=
        match body_workloads body with Some l => l | None => [] end in
      let workloadsList :=
        match workloadsList with
        | [] =>
            if present (body_workloadName body) then
              [{| w_name := string_or (body_workloadName body) "";
                  w_namespace := string_or (body_namespace body) "default";
                  w_type := Some "Unknown";
                  w_cpuLimit := None;
                  w_memoryLimit := None |}]
            else []
        | _ => workloadsList
        end in
      match workloadsList with
      | [] => Status400 "No workloads specified"
      | _ => Status200 (collectMetrics up projectId clusterName workloadsList)
      end.

(* ================================================================== *)
(** ** Vocabulary of the specification *)

Definition all_points (timeSeries : list Series) : list Point :=
  flat_map points timeSeries.

(** [point.value?.doubleValue || 0] *)
Definition point_value (p : Point) : Q :=
  match doubleValue p with
  | Some v => v
  | None => 0
  end.

(** [p] is a point of the set and no point of the set is more recent. *)
Definition most_recent (timeSeries : list Series) (p : Point) : Prop :=
  In p (all_points timeSeries)
  /\ forall p', In p' (all_points timeSeries) ->
                (point_timestamp p' <= point_timestamp p)%Z.

(** The points of one series come newest first, the order in which the
    telemetry API lists them. *)
Fixpoint newest_first (l : list Point) : bool :=
  match l with
  | [] => true
  | p :: rest =>
      forallb (fun p' => (point_timestamp p' <=? point_timestamp p)%Z) rest
      && newest_first rest
  end.

(** The efficiency score in the words of the specification: each ratio is
    capped at 100, a ratio whose request is zero counts as 100, and the
    score is the rounded mean of the two. *)
Definition efficiency_spec (usageCPU requestCPU usageMemory requestMemory : Q) : Q :=
  let capped (usage request : Q) :=
    if Qzerob request then 100 else Math_min 100 (usage / request * 100) in
  Math_round ((capped usageCPU requestCPU + capped usageMemory requestMemory) / 2).

(** The savings in the words of the specification:
    max(0, cost(current) - cost(recommended)), both at one replica. *)
Definition potentialSavings_spec (currentRequest recommendedRequest : Resources) : Q :=
  Math_max 0 (calculateCost currentRequest 1 - calculateCost recommendedRequest 1).

(** The optimized request in the words of the amended specification: with
    autoscaler data, the autoscaler totals in whole millicores and whole
    bytes, a total that is null or zero being replaced by the current
    request; without autoscaler data, the current request itself.  The
    10m / 16 MiB rounding of the emitted recommendation is not applied. *)
Definition optimizedRequest_spec (available : bool) (totalCpu totalMemory : option Q)
    (currentRequest : Resources) : Resources :=
  if available then
    {| requests :=
         {| rq_cpu :=
              match totalCpu with
              | Some cores =>
                  if Qzerob cores then requests_cpu currentRequest
                  else Fin (Math_round (cores * 1000))
              | None => requests_cpu currentRequest
              end;
            rq_memory :=
              match totalMemory with
              | Some bytes =>
                  if Qzerob bytes then requests_memory currentRequest
                  else Fin (Math_round bytes)
              | None => requests_memory currentRequest
              end |};
       limits := None |}
  else currentRequest.

Definition requests_of (cpuMillicores memoryBytes : Q) : Resources :=
  {| requests := {| rq_cpu := Fin cpuMillicores; rq_memory := Fin memoryBytes |};
     limits := None |}.

(** Every [doubleValue] of the set is non-negative. *)
Definition nonnegative_values (timeSeries : list Series) : Prop :=
  forall p v, In p (all_points timeSeries) -> doubleValue p = Some v -> 0 <= v.

Definition nonnegative_request (x : num) : Prop :=
  match x with
  | Fin q => 0 <= q
  | NaN => False
  end.

(** The current and the recommended request of an emitted record. *)
Definition current_request_of (m : ProcessedMetrics) : Resources :=
  {| requests := {| rq_cpu := pm_cpuRequest m; rq_memory := pm_memoryRequest m |};
     limits := None |}.

Definition recommended_request_of (m : ProcessedMetrics) : Resources :=
  requests_of (pm_recommendedCPU m) (pm_recommendedMemory m).

(** The [resources] object the handler builds for a workload. *)
Definition resources_of (up : Upstream) (projectId clusterName : string)
    (workload : Workload) : Resources :=
  let resourceRequests :=
    getResourceRequestsFromMonitoring up projectId clusterName
      (w_namespace workload) (w_name workload) in
  {| requests :=
       {| rq_cpu := rr_cpuRequest resourceRequests;
          rq_memory := rr_memoryRequest resourceRequests |};
     limits :=
       Some (option_or (w_cpuLimit workload) 0, option_or (w_memoryLimit workload) 0) |}.

Definition savings_nonnegative (item : MetricsItem) : Prop :=
  match item with
  | Processed m => 0 <= pm_potentialSavings m
  | Failed _ => True
  end.

(* ================================================================== *)
(** ** A sample cluster *)

Definition one_point_series (container : string) (seconds : Z) (value : Q) : Series :=
  {| metric_container_name := Some container;
     resource_container_name := Some container;
     points := [ {| endTime_seconds := Some seconds; doubleValue := Some value |} ] |}.

(** Three kinds of workload.  "api" has autoscaler recommendations for its
    container (0.015 cores, 16 MiB); "web" has usage data only (0.5 cores,
    100 MiB in use); the usage query of "batch" fails.  Every workload
    requests 1000m CPU and 1 GiB of memory and runs one replica. *)
Definition sample_upstream : Upstream :=
  {| getRunningReplicaCount := fun _ _ _ _ => {| ri_count := 1; ri_type := "Deployment" |};
     getResourceRequestsFromMonitoring := fun _ _ _ _ =>
       {| rr_cpuRequest := Fin 1000;
          rr_memoryRequest := Fin (1024 * 1024 * 1024);
          rr_cpuPerContainer := [("app", Fin 1000)];
          rr_memoryPerContainer := [("app", Fin (1024 * 1024 * 1024))];
          rr_adjust_total := None;
          rr_adjust_perContainer := [] |};
     getMetricsFromMonitoring := fun _ _ _ workloadName metricType =>
       if String.eqb workloadName "batch" then
         throw ("Failed to fetch " ++ metricType ++ " metrics: DEADLINE_EXCEEDED")%string
       else if String.eqb metricType metric_cpu_usage then
         ret [one_point_series "app" 1700000000 (1 # 2)]
       else if String.eqb metricType metric_memory_usage then
         ret [one_point_series "app" 1700000000 (100 * 1024 * 1024)]
       else if String.eqb workloadName "api" then
         if String.eqb metricType metric_vpa_cpu then
           ret [one_point_series "app" 1700000000 (15 # 1000)]
         else ret [one_point_series "app" 1700000000 (16 * 1024 * 1024)]
       else ret [] |}.

Definition sample_workload (name : string) : Workload :=
  {| w_name := name; w_namespace := "production"; w_type := Some "Deployment";
     w_cpuLimit := None; w_memoryLimit := None |}.

(** As [sample_upstream], except that the autoscaler has a memory
    recommendation only (512 MiB for "app") and no CPU recommendation: the
    autoscaler object is available and its CPU total is null. *)
Definition sample_upstream_memory_only : Upstream :=
  {| getRunningReplicaCount := getRunningReplicaCount sample_upstream;
     getResourceRequestsFromMonitoring := getResourceRequestsFromMonitoring sample_upstream;
     getMetricsFromMonitoring := fun projectId clusterName namespace workloadName metricType =>
       if String.eqb metricType metric_vpa_cpu then ret []
       else if String.eqb metricType metric_vpa_memory then
         ret [one_point_series "app" 1700000000 (512 * 1024 * 1024)]
       else
         getMetricsFromMonitoring sample_upstream
           projectId clusterName namespace workloadName metricType |}.

(** A set in which an older series comes first: its only point was closed
    10000 seconds before the point of the second series. *)
Definition stale_first : list Series :=
  [ one_point_series "app" 1699990000 5; one_point_series "app" 1700000000 7 ].

(** Usage of "app" over three minutes and of "sidecar": the first series
    lists its points newest first, as the telemetry API does, and the most
    recent point of the set belongs to the second series.  Then the three
    points of "app" listed oldest first. *)
Definition usage_point (seconds : Z) (value : Q) : Point :=
  {| endTime_seconds := Some seconds; doubleValue := Some value |}.

Definition usage_series (container : string) (usage : list Point) : Series :=
  {| metric_container_name := Some container;
     resource_container_name := Some container;
     points := usage |}.

Definition newest_first_usage : list Series :=
  [ usage_series "app"
      [ usage_point 1700000120 (3 # 10); usage_point 1700000060 (2 # 10);
        usage_point 1700000000 (1 # 10) ];
    usage_series "sidecar" [ usage_point 1700000180 (9 # 10) ] ].

Definition oldest_first_usage : list Series :=
  [ usage_series "app"
      [ usage_point 1700000000 (1 # 10); usage_point 1700000060 (2 # 10);
        usage_point 1700000120 (3 # 10) ] ].

(** The autoscaler object of "api". *)
Definition sample_vpa : VPARecommendations :=
  buildVPARecommendations
    [one_point_series "app" 1700000000 (15 # 1000)]
    [one_point_series "app" 1700000000 (16 * 1024 * 1024)].

(** A batch of five workloads, the third of which fails upstream, and the
    request that submits it. *)
Definition sample_batch : list Workload :=
  map sample_workload ["web"; "api"; "batch"; "web"; "api"].

Definition sample_body : MetricsRequest :=
  {| body_projectId := Some "proj";
     body_clusterName := Some "cluster";
     body_namespace := None;
     body_workloadName := None;
     body_timeRange := Some 24;
     body_workloads := Some sample_batch |}.

(** The entry pushed for a workload whose pipeline threw [message]. *)
Definition error_entry (workload : Workload) (message : string) : MetricsItem :=
  Failed {| em_name := w_name workload;
            em_namespace := w_namespace workload;
            em_type := string_or (w_type workload) "Unknown";
            em_error := message;
            em_status := "error" |}.

(** The request passes every check of the handler and names a batch. *)
Definition accepted_batch (body : MetricsRequest) (projectId clusterName : string)
    (workloadsList : list Workload) : Prop :=
  body_projectId body = Some projectId
  /\ body_clusterName body = Some clusterName
  /\ valid_identifier projectId = true
  /\ valid_identifier clusterName = true
  /\ optional_identifier_ok (body_namespace body) = true
  /\ optional_identifier_ok (body_workloadName body) = true
  /\ timeRange_ok (body_timeRange body) = true
  /\ body_workloads body = Some workloadsList
  /\ workloadsList <> [].

(* ================================================================== *)
(** ** Current requests: extractPerContainerValues and the body of
       getResourceRequestsFromMonitoring *)

(** Like extractPerContainerRecommendations, but keyed by the container
    label of the resource, and rounded: cores become whole millicores,
    anything else a whole number. *)
Definition extractPerContainerValues (timeSeries : list Series) (metricType : string)
  : list (string * Q) :=
  let containerValues :=
    fold_left
      (fun acc series =>
         let containerName := label_or_unknown (resource_container_name series) in
         fold_left (record_point containerName) (points series) acc)
      timeSeries [] in
  map (fun entry =>
         let value := fst (snd entry) in
         (fst entry,
          if String.eqb metricType "cpu" then Math_round (value * 1000)
          else Math_round value))
      containerValues.

(** One step of the [Object.keys(cpuPerContainer).forEach] of
    getResourceRequestsFromMonitoring.  Requests are in millicores: the
    validator is called on [containerCpu / 1000] and its CPU is multiplied
    by 1000 again.  Over [Q] that round trip returns [containerCpu] when
    the validator leaves the CPU alone; over doubles it can differ from it
    in the last place (2010 comes back as 2009.9999999999998).  No property
    below relies on the round trip being exact. *)
Definition validate_request_container (memoryPerContainer : list (string * Q))
    (acc : list (string * num) * list (string * num) * list (string * string))
    (entry : string * Q)
  : list (string * num) * list (string * num) * list (string * string) :=
  let '(adjustedCpu, adjustedMemory, containerRequestAdjustments) := acc in
  let containerName := fst entry in
  let containerCpu := snd entry in
  match map_get memoryPerContainer containerName with
  | Some containerMemory =>
      if negb (Qzerob containerCpu) && negb (Qzerob containerMemory) then
        let requestRatioValidation :=
          validateAndAdjustCPUMemoryRatio (containerCpu / 1000) containerMemory in
        (map_set adjustedCpu containerName (Fin (rv_cpu requestRatioValidation * 1000)),
         map_set adjustedMemory containerName (Fin (rv_memory requestRatioValidation)),
         match rv_reason requestRatioValidation with
         | Some r =>
             if rv_adjusted requestRatioValidation
             then map_set containerRequestAdjustments containerName r
             else containerRequestAdjustments
         | None => containerRequestAdjustments
         end)
      else
        (map_set adjustedCpu containerName (Fin containerCpu),
         map_set adjustedMemory containerName (Fin containerMemory),
         containerRequestAdjustments)
  | None =>
      (map_set adjustedCpu containerName (Fin containerCpu),
       map_set adjustedMemory containerName NaN,
       containerRequestAdjustments)
  end.

(** [Object.values(o).reduce((sum, val) => sum + val, 0)] *)
Definition sum_values (o : list (string * num)) : num :=
  fold_left (fun sum entry => num_add sum (snd entry)) o (Fin 0).

(** The validation of the totals: the triple [(adjustedTotalCpuRequest,
    adjustedTotalMemoryRequest, totalRequestAdjustmentReason)].  Over [Q]
    the totals of validated containers are again within the ratio bound;
    over doubles the recomputed ratio of such totals can read
    0.9999999999999999 or 6.500000000000001 and the validator then adjusts
    once more.  No property below says that the totals are left alone. *)
Definition validateRequestTotals (totalCpuRequest totalMemoryRequest : num)
  : num * num * option string :=
  match totalCpuRequest, totalMemoryRequest with
  | Fin totalCpu, Fin totalMemory =>
      if negb (Qzerob totalCpu) && negb (Qzerob totalMemory) then
        let totalRequestRatioValidation :=
          validateAndAdjustCPUMemoryRatio (totalCpu / 1000) totalMemory in
        (Fin (rv_cpu totalRequestRatioValidation * 1000),
         Fin (rv_memory totalRequestRatioValidation),
         rv_reason totalRequestRatioValidation)
      else (totalCpuRequest, totalMemoryRequest, None)
  | _, _ => (totalCpuRequest, totalMemoryRequest, None)
  end.

(** The [try] block of getResourceRequestsFromMonitoring once both request
    queries have answered. *)
Definition buildResourceRequests (cpuRequestMetrics memoryRequestMetrics : list Series)
  : ResourceRequests :=
  let cpuPerContainer := extractPerContainerValues cpuRequestMetrics "cpu" in
  let memoryPerContainer := extractPerContainerValues memoryRequestMetrics "memory" in
  let '(adjustedCpuPerContainer, adjustedMemoryPerContainer, containerRequestAdjustments) :=
    fold_left (validate_request_container memoryPerContainer) cpuPerContainer ([], [], []) in
  let totalCpuRequest := sum_values adjustedCpuPerContainer in
  let totalMemoryRequest := sum_values adjustedMemoryPerContainer in
  let '(adjustedTotalCpuRequest, adjustedTotalMemoryRequest, totalRequestAdjustmentReason) :=
    validateRequestTotals totalCpuRequest totalMemoryRequest in
  {| rr_cpuRequest := adjustedTotalCpuRequest;
     rr_memoryRequest := adjustedTotalMemoryRequest;
     rr_cpuPerContainer := adjustedCpuPerContainer;
     rr_memoryPerContainer := adjustedMemoryPerContainer;
     rr_adjust_total := totalRequestAdjustmentReason;
     rr_adjust_perContainer := containerRequestAdjustments |}.

(** The object returned by the [catch] of getResourceRequestsFromMonitoring. *)
Definition no_resource_requests : ResourceRequests :=
  {| rr_cpuRequest := Fin 0;
     rr_memoryRequest := Fin 0;
     rr_cpuPerContainer := [];
     rr_memoryPerContainer := [];
     rr_adjust_total := None;
     rr_adjust_perContainer := [] |}.

(** getResourceRequestsFromMonitoring as a function of the outcome of its
    two queries (request_cores, then request_bytes). *)
Definition resourceRequestsFrom (cpuRequestFetch memoryRequestFetch : Result (list Series))
  : ResourceRequests :=
  let attempt :=
    cpuRequestMetrics <- cpuRequestFetch ;;
    memoryRequestMetrics <- memoryRequestFetch ;;
    ret (buildResourceRequests cpuRequestMetrics memoryRequestMetrics) in
  match attempt with
  | inr resourceRequests => resourceRequests
  | inl _ => no_resource_requests
  end.

(* ================================================================== *)
(** ** Replica counting: getRunningReplicaCount, getReplicaCountAlternative *)

(** A series of the replica queries: the pod label, and the places where
    the type of the top-level controller is looked for, in the order of the
    [||] chain of getRunningReplicaCount. *)
Record PodSeries : Type := mkPodSeries {
  pod_name : option string;
      (* resource.labels.pod_name *)
  type_systemLabels_fields : option string;
      (* metadata.systemLabels.fields.top_level_controller_type.stringValue *)
  type_system_labels : option string;
      (* metadata.system_labels.top_level_controller_type *)
  type_systemLabels : option string;
      (* metadata.systemLabels.topLevelControllerType *)
  type_resource_metadata : option string;
      (* resource.labels.metadata_system_top_level_controller_type *)
  type_metric_metadata : option string;
      (* metric.labels.metadata_system_top_level_controller_type *)
  type_resource_label : option string;
      (* resource.labels.top_level_controller_type *)
  type_metric_label : option string
      (* metric.labels.top_level_controller_type *)
}.

(** [a || b || ...] when only the truthiness of the result matters: the
    first operand that is a non-empty string. *)
Fixpoint first_truthy (candidates : list (option string)) : option string :=
  match candidates with
  | [] => None
  | Some s :: rest => if String.eqb s "" then first_truthy rest else Some s
  | None :: rest => first_truthy rest
  end.

(** [uniquePods.add(podName)] on a [Set], kept in insertion order. *)
Definition set_add (podName : string) (uniquePods : list string) : list string :=
  if existsb (String.eqb podName) uniquePods then uniquePods else uniquePods ++ [podName].

(** The [forEach] shared by the two functions: [typeOf] is the chain of
    places consulted for the controller type. *)
Definition scan_pods (typeOf : PodSeries -> option string) (metrics : list PodSeries)
  : list string * string :=
  fold_left
    (fun state series =>
       let '(uniquePods, workloadType) := state in
       let workloadType :=
         if String.eqb workloadType "" || String.eqb workloadType "Unknown" then
           match typeOf series with
           | Some controllerType => controllerType
           | None => workloadType
           end
         else workloadType in
       let uniquePods :=
         match pod_name series with
         | Some podName =>
             if String.eqb podName "" then uniquePods else set_add podName uniquePods
         | None => uniquePods
         end in
       (uniquePods, workloadType))
    metrics ([], "Unknown").

Definition controller_type_primary (series : PodSeries) : option string :=
  first_truthy
    [ type_systemLabels_fields series; type_system_labels series; type_systemLabels series;
      type_resource_metadata series; type_metric_metadata series;
      type_resource_label series; type_metric_label series ].

Definition controller_type_alternative (series : PodSeries) : option string :=
  first_truthy
    [ type_system_labels series; type_systemLabels series; type_resource_metadata series ].

(** getReplicaCountAlternative as a function of the outcome of its query
    (CPU usage over the last 24 hours). *)
Definition replicaCountAlternativeFrom (cpuFetch : Result (list PodSeries)) : ReplicaInfo :=
  match cpuFetch with
  | inr cpuMetrics =>
      let '(uniquePods, workloadType) := scan_pods controller_type_alternative cpuMetrics in
      {| ri_count := inject_Z (Z.of_nat (List.length uniquePods)); ri_type := workloadType |}
  | inl _ => {| ri_count := 0; ri_type := "Unknown" |}
  end.

(** getRunningReplicaCount as a function of the outcome of its query
    (bytes received per pod over the last 24 hours) and of the query of the
    alternative, which is issued only when fewer than 3 pods were found. *)
Definition runningReplicaCountFrom (replicaFetch alternativeFetch : Result (list PodSeries))
  : ReplicaInfo :=
  match replicaFetch with
  | inr replicaMetrics =>
      let '(uniquePods, workloadType) := scan_pods controller_type_primary replicaMetrics in
      let replicaCount := inject_Z (Z.of_nat (List.length uniquePods)) in
      let otherwise :=
        {| ri_count := Q_or replicaCount 1; ri_type := workloadType |} in
      if Qltb replicaCount 3 then
        let altResult := replicaCountAlternativeFrom alternativeFetch in
        if Qgtb (ri_count altResult) replicaCount then
          {| ri_count := ri_count altResult;
             ri_type := string_or (Some (ri_type altResult)) workloadType |}
        else otherwise
      else otherwise
  | inl _ => {| ri_count := 1; ri_type := "Unknown" |}
  end.

(** The non-empty pod names of a response, one per series that has one. *)
Definition pod_names (metrics : list PodSeries) : list string :=
  flat_map
    (fun series =>
       match pod_name series with
       | Some podName => if String.eqb podName "" then [] else [podName]
       | None => []
       end)
    metrics.

(** The number of distinct pods of a response. *)
Definition distinct_pods (metrics : list PodSeries) : nat :=
  List.length (nodup string_dec (pod_names metrics)).

(** The number of distinct pods the alternative query finds; 0 when it fails. *)
Definition alternative_pods (alternativeFetch : Result (list PodSeries)) : nat :=
  match alternativeFetch with
  | inr cpuMetrics => distinct_pods cpuMetrics
  | inl _ => 0%nat
  end.

(** A pod series with a name and, possibly, a controller type under
    [metadata.system_labels]. *)
Definition pod_series (name : string) (controllerType : option string) : PodSeries :=
  {| pod_name := Some name;
     type_systemLabels_fields := None;
     type_system_labels := controllerType;
     type_systemLabels := None;
     type_resource_metadata := None;
     type_metric_metadata := None;
     type_resource_label := None;
     type_metric_label := None |}.

(* ================================================================== *)
(** ** CacheLayer: the cache keys *)

(** A time in milliseconds ([getTime()]) as a template literal prints it. *)
Definition decimal (n : N) : string := NilZero.string_of_uint (N.to_uint n).

(** The key of getMetricsFromMonitoring:
    [metrics_${projectId}_${clusterName}_${namespace || 'all'}_${workloadName || 'all'}_${metricType}_${startTime.getTime()}_${endTime.getTime()}] *)
Definition metricsCacheKey (projectId clusterName : string)
    (namespace workloadName : option string) (metricType : string)
    (startTime endTime : N) : string :=
  ("metrics_" ++ projectId ++ "_" ++ clusterName ++ "_" ++ string_or namespace "all"
   ++ "_" ++ string_or workloadName "all" ++ "_" ++ metricType
   ++ "_" ++ decimal startTime ++ "_" ++ decimal endTime)%string.

(** The key of getVPARecommendations:
    [vpa_recommendations_${projectId}_${clusterName}_${namespace || 'all'}_${workloadName || 'all'}_${startTime.getTime()}] *)
Definition vpaCacheKey (projectId clusterName : string)
    (namespace workloadName : option string) (startTime : N) : string :=
  ("vpa_recommendations_" ++ projectId ++ "_" ++ clusterName ++ "_"
   ++ string_or namespace "all" ++ "_" ++ string_or workloadName "all"
   ++ "_" ++ decimal startTime)%string.

(** The string holds no underscore. *)
Definition no_underscore (s : string) : bool :=
  all_chars (fun c => negb (Ascii.eqb c "_")) s.

(* ================================================================== *)
(** ** Vocabulary for the per-container maps *)

(** The container label extractPerContainerRecommendations reads, and the
    one extractPerContainerValues reads. *)
Definition metric_label (series : Series) : string :=
  label_or_unknown (metric_container_name series).

Definition resource_label (series : Series) : string :=
  label_or_unknown (resource_container_name series).

(** The points of a response, each with the label of its series. *)
Definition labelled_points (label : Series -> string) (timeSeries : list Series)
  : list (string * Point) :=
  flat_map (fun series => map (fun point => (label series, point)) (points series))
           timeSeries.

(** [value] is carried by a point of container [name] that no valued point
    of that container is more recent than. *)
Definition latest_for (labelled : list (string * Point)) (name : string) (value : Q) : Prop :=
  exists point,
    In (name, point) labelled
    /\ doubleValue point = Some value
    /\ forall point' value',
         In (name, point') labelled -> doubleValue point' = Some value' ->
         (point_timestamp point' <= point_timestamp point)%Z.

(** Container [name] has a point with a value. *)
Definition has_value (labelled : list (string * Point)) (name : string) : Prop :=
  exists point value, In (name, point) labelled /\ doubleValue point = Some value.

(** The two nested [forEach] loops of the extractors, as one pass over the
    labelled points. *)
Definition accumulate (labelled : list (string * Point)) (acc : list (string * (Q * Z)))
  : list (string * (Q * Z)) :=
  fold_left (fun acc lp => record_point (fst lp) acc (snd lp)) labelled acc.

(** What the accumulator holds after the points [labelled] have been seen:
    one entry per container that has a valued point, carrying the value and
    the timestamp of a most recent one. *)
Definition latest_inv (labelled : list (string * Point)) (acc : list (string * (Q * Z)))
  : Prop :=
  NoDup (map fst acc)
  /\ (forall n v t,
        map_get acc n = Some (v, t) ->
        exists p,
          In (n, p) labelled /\ doubleValue p = Some v /\ point_timestamp p = t
          /\ forall p' v', In (n, p') labelled -> doubleValue p' = Some v' ->
                           (point_timestamp p' <= t)%Z)
  /\ (forall n, has_value labelled n -> exists e, map_get acc n = Some e).

(** A response with two containers, points out of order, and a series that
    has no label and no value. *)
Definition sample_recommendation_series : list Series :=
  [ {| metric_container_name := Some "nginx";
       resource_container_name := Some "nginx";
       points := [ {| endTime_seconds := Some 100%Z; doubleValue := Some (8 # 100) |};
                   {| endTime_seconds := Some 300%Z; doubleValue := Some (10 # 100) |};
                   {| endTime_seconds := Some 200%Z; doubleValue := Some (9 # 100) |} ] |};
    one_point_series "app" 300 (32 # 100);
    {| metric_container_name := None;
       resource_container_name := None;
       points := [ {| endTime_seconds := Some 50%Z; doubleValue := None |} ] |} ].

(* ================================================================== *)
(** ** The per-container validation loops, entry by entry *)

(** The shape shared by the loop of getVPARecommendations and the loop of
    getResourceRequestsFromMonitoring: each entry sets its key in the two
    adjusted maps, and in the adjustments map when it has a reason. *)
Definition keyed_step {A B : Type}
    (cpuOf : string * Q -> A) (memoryOf : string * Q -> B)
    (reasonOf : string * Q -> option string)
    (acc : list (string * A) * list (string * B) * list (string * string))
    (entry : string * Q)
  : list (string * A) * list (string * B) * list (string * string) :=
  let '(adjustedCpu, adjustedMemory, adjustments) := acc in
  (map_set adjustedCpu (fst entry) (cpuOf entry),
   map_set adjustedMemory (fst entry) (memoryOf entry),
   match reasonOf entry with
   | Some r => map_set adjustments (fst entry) r
   | None => adjustments
   end).

(** The validator's result for an entry whose CPU (divided by [scale]) and
    memory are both non-zero; no result when the validator is not called. *)
Definition verdict (scale : Q) (memoryPerContainer : list (string * Q))
    (entry : string * Q) : option RatioResult :=
  match map_get memoryPerContainer (fst entry) with
  | Some m =>
      if negb (Qzerob (snd entry)) && negb (Qzerob m)
      then Some (validateAndAdjustCPUMemoryRatio (snd entry / scale) m)
      else None
  | None => None
  end.

Definition verdict_reason (v : option RatioResult) : option string :=
  match v with
  | Some r => if rv_adjusted r then rv_reason r else None
  | None => None
  end.

(** What the loop of getVPARecommendations stores for an entry. *)
Definition vpa_cpu_of (memoryPerContainer : list (string * Q)) (entry : string * Q) : Q :=
  match map_get memoryPerContainer (fst entry) with
  | Some m =>
      if negb (Qzerob (snd entry)) && negb (Qzerob m)
      then rv_cpu (validateAndAdjustCPUMemoryRatio (snd entry) m)
      else snd entry
  | None => snd entry
  end.

Definition vpa_memory_of (memoryPerContainer : list (string * Q)) (entry : string * Q)
  : option Q :=
  match map_get memoryPerContainer (fst entry) with
  | Some m =>
      if negb (Qzerob (snd entry)) && negb (Qzerob m)
      then Some (rv_memory (validateAndAdjustCPUMemoryRatio (snd entry) m))
      else Some m
  | None => None
  end.

Definition vpa_reason_of (memoryPerContainer : list (string * Q)) (entry : string * Q)
  : option string :=
  match map_get memoryPerContainer (fst entry) with
  | Some m =>
      if negb (Qzerob (snd entry)) && negb (Qzerob m)
      then verdict_reason (Some (validateAndAdjustCPUMemoryRatio (snd entry) m))
      else None
  | None => None
  end.

(** What the loop of getResourceRequestsFromMonitoring stores for an entry. *)
Definition request_cpu_of (memoryPerContainer : list (string * Q)) (entry : string * Q)
  : num :=
  match verdict 1000 memoryPerContainer entry with
  | Some r => Fin (rv_cpu r * 1000)
  | None => Fin (snd entry)
  end.

Definition request_memory_of (memoryPerContainer : list (string * Q)) (entry : string * Q)
  : num :=
  match verdict 1000 memoryPerContainer entry with
  | Some r => Fin (rv_memory r)
  | None =>
      match map_get memoryPerContainer (fst entry) with
      | Some m => Fin m
      | None => NaN
      end
  end.

Definition request_reason_of (memoryPerContainer : list (string * Q)) (entry : string * Q)
  : option string :=
  verdict_reason (verdict 1000 memoryPerContainer entry).

(** The entries that carry a reason, as the adjustments map lists them. *)
Definition reasons_of (reasonOf : string * Q -> option string) (l : list (string * Q))
  : list (string * string) :=
  flat_map (fun entry =>
              match reasonOf entry with
              | Some r => [(fst entry, r)]
              | None => []
              end) l.

(** Every CPU container has a positive request and a positive memory
    request. *)
Definition fully_requested (cpuPerContainer memoryPerContainer : list (string * Q)) : Prop :=
  forall name cpu,
    In (name, cpu) cpuPerContainer ->
    0 < cpu /\ exists memory, map_get memoryPerContainer name = Some memory /\ 0 < memory.

(** The sum of the values of a map of finite numbers. *)
Definition total (o : list (string * Q)) : Q :=
  fold_left (fun sum entry => sum + snd entry) o 0.

(** The memory requests of the CPU containers, as the totals see them. *)
Definition memory_of_cpu_containers (cpuPerContainer memoryPerContainer : list (string * Q))
  : list (string * Q) :=
  flat_map (fun entry =>
              match map_get memoryPerContainer (fst entry) with
              | Some m => [(fst entry, m)]
              | None => []
              end) cpuPerContainer.

(** Request series of two containers, "app" (250m, 256 MiB) and "sidecar"
    (50m, 1 GiB); and the same without the memory series of "sidecar". *)
Definition sample_cpu_requests : list Series :=
  [ one_point_series "app" 1700000000 (25 # 100);
    one_point_series "sidecar" 1700000000 (5 # 100) ].

Definition sample_memory_requests : list Series :=
  [ one_point_series "app" 1700000000 (256 * 1024 * 1024);
    one_point_series "sidecar" 1700000000 (1024 * 1024 * 1024) ].

Definition sample_memory_requests_partial : list Series :=
  [ one_point_series "app" 1700000000 (256 * 1024 * 1024) ].

(* ================================================================== *)
(** ** A cluster whose autoscaler metrics cannot be read *)

(** As [sample_upstream], except that both autoscaler queries fail. *)
Definition sample_upstream_without_autoscaler : Upstream :=
  {| getRunningReplicaCount := getRunningReplicaCount sample_upstream;
     getResourceRequestsFromMonitoring := getResourceRequestsFromMonitoring sample_upstream;
     getMetricsFromMonitoring := fun projectId clusterName namespace workloadName metricType =>
       if String.eqb metricType metric_vpa_cpu || String.eqb metricType metric_vpa_memory then
         throw ("Failed to fetch " ++ metricType ++ " metrics: PERMISSION_DENIED")%string
       else
         getMetricsFromMonitoring sample_upstream
           projectId clusterName namespace workloadName metricType |}.



(* ================================================================== *)
(** ** Reading the recommendation text *)

(** The millicores shown on the per-container CPU lines, in order, and the
    totals shown on the CPU total lines. *)
Definition cpu_container_values (lines : list RecLine) : list Q :=
  flat_map (fun line =>
              match line with
              | CpuContainerLine _ cpuMillicores => [cpuMillicores]
              | _ => []
              end) lines.

Definition cpu_totals (lines : list RecLine) : list Q :=
  flat_map (fun line =>
              match line with
              | CpuTotalLine finalTotalCpuMillicores _ => [finalTotalCpuMillicores]
              | _ => []
              end) lines.

Definition cpu_line (line : RecLine) : bool :=
  match line with
  | CpuHeader | CpuContainerLine _ _ | CpuTotalLine _ _ => true
  | _ => false
  end.

Definition sum_list (values : list Q) : Q := fold_left Qplus values 0.

(* ================================================================== *)
(** ** Dashboard: the totals of frontend/src/App.js *)







(* ================================================================== *)
(** * Properties *)

(* ------------------------------------------------------------------ *)
(** ** Arithmetic helpers *)

Lemma Qltb_lt (x y : Q) : Qltb x y = true <-> x < y.
Proof.
  unfold Qltb. rewrite negb_true_iff. split; intro H.
  - apply Qnot_le_lt. intro Hle. apply Qle_bool_iff in Hle. congruence.
  - destruct (Qle_bool y x) eqn:E; [|reflexivity].
    apply Qle_bool_iff in E. exfalso. apply (Qlt_not_le _ _ H E).
Qed.

Lemma Qltb_ge (x y : Q) : Qltb x y = false <-> y <= x.
Proof.
  unfold Qltb. rewrite negb_false_iff. apply Qle_bool_iff.
Qed.

Lemma Qgtb_gt (x y : Q) : Qgtb x y = true <-> y < x.
Proof. apply Qltb_lt. Qed.

Lemma Qgtb_le (x y : Q) : Qgtb x y = false <-> x <= y.
Proof. apply Qltb_ge. Qed.

Lemma Qdiv_cancel (a b : Q) : 0 < b -> a / b * b == a.
Proof. intro Hb. field. lra. Qed.

Lemma Qdiv_lt_iff (a b c : Q) : 0 < b -> (a / b < c <-> a < c * b).
Proof.
  intro Hb. rewrite <- (Qmult_lt_r (a / b) c b Hb), (Qdiv_cancel a b Hb). reflexivity.
Qed.

Lemma Qdiv_gt_iff (a b c : Q) : 0 < b -> (c < a / b <-> c * b < a).
Proof.
  intro Hb. rewrite <- (Qmult_lt_r c (a / b) b Hb), (Qdiv_cancel a b Hb). reflexivity.
Qed.

Lemma Qdiv_le_iff (a b c : Q) : 0 < b -> (a / b <= c <-> a <= c * b).
Proof.
  intro Hb. rewrite <- (Qmult_le_r (a / b) c b Hb), (Qdiv_cancel a b Hb). reflexivity.
Qed.

Lemma Qdiv_ge_iff (a b c : Q) : 0 < b -> (c <= a / b <-> c * b <= a).
Proof.
  intro Hb. rewrite <- (Qmult_le_r c (a / b) b Hb), (Qdiv_cancel a b Hb). reflexivity.
Qed.

Lemma GiB_pos : 0 < 1024 * 1024 * 1024.
Proof. reflexivity. Qed.

(* ------------------------------------------------------------------ *)
(** ** RatioValidator *)

(** The three branches of the validator, as equations. *)
Lemma validate_low (c m : Q) :
  m / (1024 * 1024 * 1024) / c < 1 ->
  validateAndAdjustCPUMemoryRatio c m
  = mkRatioResult c (c * 1024 * 1024 * 1024) true (Some reason_min).
Proof.
  intro H. unfold validateAndAdjustCPUMemoryRatio.
  apply Qltb_lt in H. rewrite H. reflexivity.
Qed.

Lemma validate_high (c m : Q) :
  13 # 2 < m / (1024 * 1024 * 1024) / c ->
  validateAndAdjustCPUMemoryRatio c m
  = mkRatioResult (m / (1024 * 1024 * 1024) / (13 # 2)) m true (Some reason_max).
Proof.
  intro H. unfold validateAndAdjustCPUMemoryRatio.
  assert (Hlow : Qltb (m / (1024 * 1024 * 1024) / c) 1 = false) by (apply Qltb_ge; lra).
  apply Qgtb_gt in H. rewrite Hlow, H. reflexivity.
Qed.

Lemma validate_in_range (c m : Q) :
  1 <= m / (1024 * 1024 * 1024) / c <= 13 # 2 ->
  validateAndAdjustCPUMemoryRatio c m = mkRatioResult c m false None.
Proof.
  intros [Hlo Hhi]. unfold validateAndAdjustCPUMemoryRatio.
  apply Qltb_ge in Hlo. apply Qgtb_le in Hhi. rewrite Hlo, Hhi. reflexivity.
Qed.

(** The three branches cover every input. *)
Lemma ratio_cases (r : Q) : r < 1 \/ 13 # 2 < r \/ 1 <= r <= 13 # 2.
Proof.
  destruct (Qlt_le_dec r 1) as [H | H]; [left; exact H|].
  destruct (Qlt_le_dec (13 # 2) r) as [H' | H']; [right; left; exact H'|].
  right; right; split; assumption.
Qed.

(** Case analysis on the branch taken for [(c, m)]: the call is replaced by
    the record of that branch and [H] is the condition of the branch. *)
Ltac validator_branch c m H :=
  destruct (ratio_cases (m / (1024 * 1024 * 1024) / c)) as [H | [H | H]];
  [ rewrite (validate_low _ _ H)
  | rewrite (validate_high _ _ H)
  | rewrite (validate_in_range _ _ H) ];
  cbn [rv_cpu rv_memory rv_adjusted rv_reason].

Lemma validate_output_ratio (c m : Q) :
  0 < c -> 0 <= m ->
  let r := validateAndAdjustCPUMemoryRatio c m in
  1 <= memoryGiBPerCpu (rv_cpu r) (rv_memory r) <= 13 # 2.
Proof.
  intros Hc Hm. cbv zeta. unfold memoryGiBPerCpu.
  validator_branch c m H.
  - assert (E : c * 1024 * 1024 * 1024 / (1024 * 1024 * 1024) / c == 1) by (field; lra).
    rewrite E. lra.
  - assert (Hpos : 0 < m).
    { apply (Qdiv_gt_iff _ _ _ Hc) in H. apply (Qdiv_gt_iff _ _ _ GiB_pos) in H. nra. }
    assert (E : m / (1024 * 1024 * 1024) / (m / (1024 * 1024 * 1024) / (13 # 2)) == 13 # 2)
      by (field; lra).
    rewrite E. lra.
  - exact H.
Qed.

(** C1. For cpuCores > 0 and memoryBytes >= 0 the validator's output has
    between 1 and 6.5 GiB of memory per vCPU; a pair whose ratio already
    lies in that interval is returned unchanged with adjusted = false, so a
    second application to the validator's own output changes nothing. *)
Theorem ratio_validator_bounds_and_fixpoint (cpuCores memoryBytes : Q) :
  0 < cpuCores -> 0 <= memoryBytes ->
  let r := validateAndAdjustCPUMemoryRatio cpuCores memoryBytes in
  1 <= memoryGiBPerCpu (rv_cpu r) (rv_memory r) <= 13 # 2
  /\ (1 <= memoryGiBPerCpu cpuCores memoryBytes <= 13 # 2 ->
      r = mkRatioResult cpuCores memoryBytes false None)
  /\ validateAndAdjustCPUMemoryRatio (rv_cpu r) (rv_memory r)
     = mkRatioResult (rv_cpu r) (rv_memory r) false None.
Proof.
  intros Hc Hm r. subst r. split; [|split].
  - apply validate_output_ratio; assumption.
  - intro H. apply validate_in_range. exact H.
  - apply validate_in_range. apply (validate_output_ratio _ _ Hc Hm).
Qed.

(** An instance: 2 vCPU with 1 MiB of memory, which the validator adjusts. *)
Lemma ratio_validator_bounds_and_fixpoint_witness :
  let r := validateAndAdjustCPUMemoryRatio 2 (1024 * 1024) in
  1 <= memoryGiBPerCpu (rv_cpu r) (rv_memory r) <= 13 # 2
  /\ (1 <= memoryGiBPerCpu 2 (1024 * 1024) <= 13 # 2 ->
      r = mkRatioResult 2 (1024 * 1024) false None)
  /\ validateAndAdjustCPUMemoryRatio (rv_cpu r) (rv_memory r)
     = mkRatioResult (rv_cpu r) (rv_memory r) false None.
Proof.
  apply (ratio_validator_bounds_and_fixpoint 2 (1024 * 1024)).
  - reflexivity.
  - discriminate.
Defined.

(** C10. For cpuCores > 0 and memoryBytes >= 0 the validator returns at
    least as much CPU and at least as much memory as it was given. *)
Theorem ratio_validator_never_decreases (cpuCores memoryBytes : Q) :
  0 < cpuCores -> 0 <= memoryBytes ->
  let r := validateAndAdjustCPUMemoryRatio cpuCores memoryBytes in
  cpuCores <= rv_cpu r /\ memoryBytes <= rv_memory r.
Proof.
  intros Hc Hm. cbv zeta.
  validator_branch cpuCores memoryBytes H.
  - apply (Qdiv_lt_iff _ _ _ Hc) in H. apply (Qdiv_lt_iff _ _ _ GiB_pos) in H.
    split; lra.
  - split; [|lra].
    apply Qdiv_ge_iff; [reflexivity|].
    apply (Qdiv_gt_iff _ _ _ Hc) in H. lra.
  - split; lra.
Qed.

(** An instance: 1 vCPU with 8 GiB of memory, for which the CPU is raised. *)
Lemma ratio_validator_never_decreases_witness :
  let r := validateAndAdjustCPUMemoryRatio 1 (8 * 1024 * 1024 * 1024) in
  1 <= rv_cpu r /\ 8 * 1024 * 1024 * 1024 <= rv_memory r.
Proof.
  apply (ratio_validator_never_decreases 1 (8 * 1024 * 1024 * 1024)).
  - reflexivity.
  - discriminate.
Defined.

(* ------------------------------------------------------------------ *)
(** ** TimeSeriesExtractor: current usage *)

Lemma Q_or_zero (v : Q) : Q_or v 0 == v.
Proof.
  unfold Q_or, Qzerob. destruct (Qeq_bool v 0) eqn:E; [|reflexivity].
  apply Qeq_bool_iff in E. symmetry. exact E.
Qed.

Lemma newest_first_head (p : Point) (ps : list Point) :
  newest_first (p :: ps) = true ->
  forall p', In p' (p :: ps) -> (point_timestamp p' <= point_timestamp p)%Z.
Proof.
  cbn [newest_first]. intros H p' [<- | Hin]; [lia|].
  apply andb_true_iff in H. destruct H as [H _].
  rewrite forallb_forall in H. apply Z.leb_le. apply H. exact Hin.
Qed.

(** C4, as stated, fails: the most recent point of [stale_first] carries 7,
    and calculateCurrentUsage returns the 5 of the first series. *)
Lemma current_usage_not_most_recent :
  ~ (forall timeSeries p,
        most_recent timeSeries p -> calculateCurrentUsage timeSeries == point_value p).
Proof.
  intro H.
  specialize (H stale_first
                {| endTime_seconds := Some 1700000000%Z; doubleValue := Some 7 |}).
  assert (Hrecent : most_recent stale_first
                      {| endTime_seconds := Some 1700000000%Z; doubleValue := Some 7 |}).
  { split.
    - right. left. reflexivity.
    - intros p' [<- | [<- | []]]; cbn; lia. }
  specialize (H Hrecent). vm_compute in H. discriminate H.
Qed.

(** C4, amended. calculateCurrentUsage reads the first point of the first
    series, whatever the order of the points and whatever the other series
    hold: it returns 0 when the set holds no point at all or when its first
    series has none, and otherwise the value of that first point (0 if the
    point has no value).  That point is the most recent point of the first
    series whenever the points of that series are listed newest first. *)
Theorem current_usage_of_first_series (timeSeries : list Series) :
  (all_points timeSeries = [] -> calculateCurrentUsage timeSeries = 0)
  /\ (forall s rest, timeSeries = s :: rest ->
        (points s = [] -> calculateCurrentUsage timeSeries = 0)
        /\ (forall p ps, points s = p :: ps ->
              calculateCurrentUsage timeSeries == point_value p
              /\ (newest_first (points s) = true -> most_recent [s] p))).
Proof.
  split.
  - destruct timeSeries as [|s rest]; [reflexivity|].
    unfold all_points. cbn [flat_map]. intro H.
    apply app_eq_nil in H. destruct H as [H _].
    unfold calculateCurrentUsage. rewrite H. reflexivity.
  - intros s rest ->. split.
    + intro H. unfold calculateCurrentUsage. rewrite H. reflexivity.
    + intros p ps Hp. split.
      * unfold calculateCurrentUsage, point_value. rewrite Hp.
        destruct (doubleValue p) as [v|]; [apply Q_or_zero | reflexivity].
      * intro Hsorted. unfold most_recent, all_points. cbn [flat_map].
        rewrite app_nil_r. rewrite Hp in *. split; [left; reflexivity|].
        apply newest_first_head. exact Hsorted.
Qed.

(** Two instances.  In [newest_first_usage] the first series has three
    points, newest first, and the second series holds a more recent one:
    the result is the 0.3 of the first point of the first series, which is
    the most recent point of that series.  In [oldest_first_usage] the
    result is still the value of the first point, the oldest one. *)
Lemma current_usage_of_first_series_witness :
  (calculateCurrentUsage newest_first_usage == point_value (usage_point 1700000120 (3 # 10))
   /\ most_recent
        [usage_series "app"
           [ usage_point 1700000120 (3 # 10); usage_point 1700000060 (2 # 10);
             usage_point 1700000000 (1 # 10) ]]
        (usage_point 1700000120 (3 # 10)))
  /\ calculateCurrentUsage oldest_first_usage
     == point_value (usage_point 1700000000 (1 # 10)).
Proof.
  split.
  - split.
    + apply (proj2 (proj2 (current_usage_of_first_series newest_first_usage)
                      (usage_series "app"
                         [ usage_point 1700000120 (3 # 10); usage_point 1700000060 (2 # 10);
                           usage_point 1700000000 (1 # 10) ])
                      [usage_series "sidecar" [ usage_point 1700000180 (9 # 10) ]]
                      eq_refl)
               (usage_point 1700000120 (3 # 10))
               [ usage_point 1700000060 (2 # 10); usage_point 1700000000 (1 # 10) ]
               eq_refl).
    + apply (proj2 (proj2 (current_usage_of_first_series newest_first_usage)
                      (usage_series "app"
                         [ usage_point 1700000120 (3 # 10); usage_point 1700000060 (2 # 10);
                           usage_point 1700000000 (1 # 10) ])
                      [usage_series "sidecar" [ usage_point 1700000180 (9 # 10) ]]
                      eq_refl)
               (usage_point 1700000120 (3 # 10))
               [ usage_point 1700000060 (2 # 10); usage_point 1700000000 (1 # 10) ]
               eq_refl).
      reflexivity.
  - apply (proj2 (proj2 (current_usage_of_first_series oldest_first_usage)
                    (usage_series "app"
                       [ usage_point 1700000000 (1 # 10); usage_point 1700000060 (2 # 10);
                         usage_point 1700000120 (3 # 10) ])
                    []
                    eq_refl)
             (usage_point 1700000000 (1 # 10))
             [ usage_point 1700000060 (2 # 10); usage_point 1700000120 (3 # 10) ]
             eq_refl).
Defined.

(* ------------------------------------------------------------------ *)
(** ** Rounding *)

Lemma Math_round_nonneg (x : Q) : 0 <= x -> 0 <= Math_round x.
Proof.
  intro H. unfold Math_round.
  change 0 with (inject_Z 0). rewrite <- Zle_Qle.
  change 0%Z with (Qfloor (0 + (1 # 2))).
  apply Qfloor_resp_le. lra.
Qed.

Lemma Math_round_le_Z (x : Q) (n : Z) : x <= inject_Z n -> Math_round x <= inject_Z n.
Proof.
  intro H. unfold Math_round. rewrite <- Zle_Qle.
  assert (E : Qfloor (inject_Z n + (1 # 2)) = n).
  { unfold Qfloor, Qplus, inject_Z. cbn [Qnum Qden].
    symmetry. apply Z.div_unique with (r := 1%Z); lia. }
  rewrite <- E. apply Qfloor_resp_le. lra.
Qed.

Lemma Math_round_Z (n : Z) : Math_round (inject_Z n) = inject_Z n.
Proof.
  unfold Math_round. f_equal.
  unfold Qfloor, Qplus, inject_Z. cbn [Qnum Qden].
  symmetry. apply Z.div_unique with (r := 1%Z); lia.
Qed.

Lemma Math_round_eq (x y : Q) : x == y -> Math_round x = Math_round y.
Proof. intro H. unfold Math_round. rewrite H. reflexivity. Qed.

Lemma Math_max_l (x y : Q) : x <= Math_max x y.
Proof.
  unfold Math_max. destruct (Qle_bool x y) eqn:E; [apply Qle_bool_iff; exact E | lra].
Qed.

Lemma Math_min_range (hi x : Q) : 0 <= hi -> 0 <= x -> 0 <= Math_min hi x <= hi.
Proof.
  intros Hhi Hx. unfold Math_min. destruct (Qle_bool hi x) eqn:E.
  - lra.
  - split; [exact Hx|].
    destruct (Qlt_le_dec x hi) as [H | H]; [lra|].
    apply Qle_bool_iff in H. congruence.
Qed.

Lemma Qzerob_false (x : Q) : Qzerob x = false <-> ~ x == 0.
Proof.
  unfold Qzerob. split.
  - intros E H. apply Qeq_bool_iff in H. congruence.
  - intro H. destruct (Qeq_bool x 0) eqn:E; [|reflexivity].
    apply Qeq_bool_iff in E. contradiction.
Qed.

Lemma Q_or_pos (x d : Q) : 0 <= x -> 0 < d -> 0 < Q_or x d.
Proof.
  intros Hx Hd. unfold Q_or. destruct (Qzerob x) eqn:E; [exact Hd|].
  apply Qzerob_false in E. lra.
Qed.

(* ------------------------------------------------------------------ *)
(** ** EfficiencyCalculator *)

Lemma current_usage_nonneg (timeSeries : list Series) :
  nonnegative_values timeSeries -> 0 <= calculateCurrentUsage timeSeries.
Proof.
  intro H. destruct timeSeries as [|s rest]; [cbn; lra|].
  unfold calculateCurrentUsage.
  destruct (points s) as [|p ps] eqn:Hp; [lra|].
  destruct (doubleValue p) as [v|] eqn:Hv; [|lra].
  rewrite Q_or_zero. apply (H p v); [|exact Hv].
  unfold all_points. cbn [flat_map]. rewrite Hp. left. reflexivity.
Qed.

(** C5, as stated, fails: with no usage and both requests zero the code
    scores 0 where the formula of the claim gives 100. *)
Lemma efficiency_zero_request_counterexample :
  ~ (forall cpuSeries memorySeries cpuRequest memoryRequest,
        calculateEfficiency cpuSeries memorySeries (requests_of cpuRequest memoryRequest)
        == efficiency_spec (calculateCurrentUsage cpuSeries * 1000) cpuRequest
                           (calculateCurrentUsage memorySeries) memoryRequest).
Proof.
  intro H. specialize (H [] [] 0 0). vm_compute in H. discriminate H.
Qed.

(** C5, amended. For non-negative requests the score is the rounded mean
    of the two capped ratios, where a request of zero is first replaced by
    the default request (100 millicores, 128 MiB) and the ratio is then
    taken against that default; CPU usage is in cores and is scaled to
    millicores. *)
Theorem efficiency_with_default_requests
    (cpuSeries memorySeries : list Series) (cpuRequest memoryRequest : Q)
    (lim : option (Q * Q)) :
  0 <= cpuRequest -> 0 <= memoryRequest ->
  calculateEfficiency cpuSeries memorySeries
    {| requests := {| rq_cpu := Fin cpuRequest; rq_memory := Fin memoryRequest |};
       limits := lim |}
  = efficiency_spec (calculateCurrentUsage cpuSeries * 1000) (Q_or cpuRequest 100)
                    (calculateCurrentUsage memorySeries)
                    (Q_or memoryRequest (128 * 1024 * 1024)).
Proof.
  intros Hc Hm.
  unfold calculateEfficiency, efficiency_spec, requests_cpu, requests_memory.
  cbn [requests rq_cpu rq_memory num_or].
  change (if Qzerob cpuRequest then 100 else cpuRequest) with (Q_or cpuRequest 100).
  change (if Qzerob memoryRequest then 128 * 1024 * 1024 else memoryRequest)
    with (Q_or memoryRequest (128 * 1024 * 1024)).
  assert (Hc' : 0 < Q_or cpuRequest 100) by (apply Q_or_pos; [exact Hc | reflexivity]).
  assert (Hm' : 0 < Q_or memoryRequest (128 * 1024 * 1024))
    by (apply Q_or_pos; [exact Hm | reflexivity]).
  rewrite (proj2 (Qgtb_gt _ _) Hc'), (proj2 (Qgtb_gt _ _) Hm').
  assert (Zc : Qzerob (Q_or cpuRequest 100) = false) by (apply Qzerob_false; lra).
  assert (Zm : Qzerob (Q_or memoryRequest (128 * 1024 * 1024)) = false)
    by (apply Qzerob_false; lra).
  rewrite Zc, Zm. reflexivity.
Qed.

(** An instance: half a core in use, both requests zero. *)
Lemma efficiency_with_default_requests_witness :
  calculateEfficiency [one_point_series "app" 1700000000 (1 # 2)] []
    {| requests := {| rq_cpu := Fin 0; rq_memory := Fin 0 |}; limits := None |}
  = efficiency_spec
      (calculateCurrentUsage [one_point_series "app" 1700000000 (1 # 2)] * 1000)
      (Q_or 0 100) (calculateCurrentUsage []) (Q_or 0 (128 * 1024 * 1024)).
Proof.
  apply (efficiency_with_default_requests
           [one_point_series "app" 1700000000 (1 # 2)] [] 0 0 None);
    discriminate.
Defined.

Lemma num_or_pos (x : num) (d : Q) : nonnegative_request x -> 0 < d -> 0 < num_or x d.
Proof.
  destruct x as [q|]; cbn; [|contradiction].
  intros Hq Hd. apply (Q_or_pos q d Hq Hd).
Qed.

(** C8. When no point of the usage series is negative and both requests
    are non-negative, the efficiency score lies between 0 and 100. *)
Theorem efficiency_in_range (cpuSeries memorySeries : list Series) (resources : Resources) :
  nonnegative_values cpuSeries -> nonnegative_values memorySeries ->
  nonnegative_request (requests_cpu resources) ->
  nonnegative_request (requests_memory resources) ->
  0 <= calculateEfficiency cpuSeries memorySeries resources <= 100.
Proof.
  intros Hcpu Hmem Hrc Hrm.
  pose proof (current_usage_nonneg _ Hcpu) as Uc.
  pose proof (current_usage_nonneg _ Hmem) as Um.
  pose proof (num_or_pos _ 100 Hrc eq_refl) as Pc.
  pose proof (num_or_pos _ (128 * 1024 * 1024) Hrm eq_refl) as Pm.
  unfold calculateEfficiency.
  rewrite (proj2 (Qgtb_gt _ _) Pc), (proj2 (Qgtb_gt _ _) Pm).
  set (cr := num_or (requests_cpu resources) 100) in *.
  set (mr := num_or (requests_memory resources) (128 * 1024 * 1024)) in *.
  set (uc := calculateCurrentUsage cpuSeries) in *.
  set (um := calculateCurrentUsage memorySeries) in *.
  assert (Ec : 0 <= uc * 1000 / cr * 100).
  { apply Qmult_le_0_compat; [|discriminate].
    apply Qle_shift_div_l; [exact Pc|]. lra. }
  assert (Em : 0 <= um / mr * 100).
  { apply Qmult_le_0_compat; [|discriminate].
    apply Qle_shift_div_l; [exact Pm|]. lra. }
  pose proof (Math_min_range 100 _ ltac:(discriminate) Ec) as Rc.
  pose proof (Math_min_range 100 _ ltac:(discriminate) Em) as Rm.
  set (ec := Math_min 100 (uc * 1000 / cr * 100)) in *.
  set (em := Math_min 100 (um / mr * 100)) in *.
  clearbody ec em. clear - Rc Rm.
  split.
  - apply Math_round_nonneg. apply Qle_shift_div_l; [reflexivity | lra].
  - apply (Math_round_le_Z _ 100). change (inject_Z 100) with 100.
    apply Qle_shift_div_r; [reflexivity | lra].
Qed.

(** An instance: the usage and the requests of "web". *)
Lemma efficiency_in_range_witness :
  0 <= calculateEfficiency [one_point_series "app" 1700000000 (1 # 2)]
         [one_point_series "app" 1700000000 (100 * 1024 * 1024)]
         (requests_of 1000 (1024 * 1024 * 1024)) <= 100.
Proof.
  apply (efficiency_in_range [one_point_series "app" 1700000000 (1 # 2)]
           [one_point_series "app" 1700000000 (100 * 1024 * 1024)]
           (requests_of 1000 (1024 * 1024 * 1024))).
  - intros p v [<- | []] E. injection E as <-. discriminate.
  - intros p v [<- | []] E. injection E as <-. discriminate.
  - discriminate.
  - discriminate.
Defined.

(* ------------------------------------------------------------------ *)
(** ** The per-workload pipeline and the loop *)

Section Pipeline.

Context (up : Upstream) (projectId clusterName : string).

Lemma collectMetrics_app (workloadsList : list Workload) (metricsData : list MetricsItem) :
  fold_left
    (fun metricsData workload =>
       metricsData ++ [processOrCatch up projectId clusterName workload])
    workloadsList metricsData
  = metricsData ++ map (processOrCatch up projectId clusterName) workloadsList.
Proof.
  revert metricsData.
  induction workloadsList as [|w rest IH]; intro metricsData; cbn [fold_left map].
  - rewrite app_nil_r. reflexivity.
  - rewrite IH, <- app_assoc. reflexivity.
Qed.

Lemma collectMetrics_map (workloadsList : list Workload) :
  collectMetrics up projectId clusterName workloadsList
  = map (processOrCatch up projectId clusterName) workloadsList.
Proof. unfold collectMetrics. apply collectMetrics_app. Qed.

(** What a successful run of the [try] block emits. *)
Lemma processWorkload_inr (workload : Workload) (m : ProcessedMetrics) :
  processWorkload up projectId clusterName workload = inr m ->
  exists cpuResponse memoryResponse,
    getMetricsFromMonitoring up projectId clusterName
      (w_namespace workload) (w_name workload) metric_cpu_usage = inr cpuResponse
    /\ getMetricsFromMonitoring up projectId clusterName
         (w_namespace workload) (w_name workload) metric_memory_usage = inr memoryResponse
    /\ let vpa := getVPARecommendations up projectId clusterName
                    (w_namespace workload) (w_name workload) in
       let resources := resources_of up projectId clusterName workload in
       pm_name m = w_name workload
       /\ pm_namespace m = w_namespace workload
       /\ pm_cpuRequest m = requests_cpu resources
       /\ pm_memoryRequest m = requests_memory resources
       /\ pm_recommendedCPU m = getRecommendedCPU vpa cpuResponse (requests_cpu resources)
       /\ pm_recommendedMemory m
          = getRecommendedMemory vpa memoryResponse (requests_memory resources)
       /\ pm_efficiency m = calculateEfficiency cpuResponse memoryResponse resources
       /\ pm_potentialSavings m = calculatePotentialSavingsWithVPA vpa resources
       /\ pm_recommendations m
          = generateRecommendationsWithVPA vpa cpuResponse memoryResponse resources
       /\ pm_vpaEnabled m = vpa_available vpa.
Proof.
  unfold processWorkload, bind.
  destruct (getMetricsFromMonitoring up projectId clusterName
              (w_namespace workload) (w_name workload) metric_cpu_usage)
    as [e | cpuResponse]; [discriminate|].
  destruct (getMetricsFromMonitoring up projectId clusterName
              (w_namespace workload) (w_name workload) metric_memory_usage)
    as [e | memoryResponse]; [discriminate|].
  unfold ret. intro H. injection H as <-.
  exists cpuResponse, memoryResponse. cbn.
  repeat split; reflexivity.
Qed.

End Pipeline.

(* ------------------------------------------------------------------ *)
(** ** CostEstimator *)

(** A cost is a whole number of cents. *)
Lemma calculateCost_cents (resources : Resources) (replicas : Q) :
  exists k : Z, calculateCost resources replicas = inject_Z k / 100.
Proof. unfold calculateCost, Math_round. eexists. reflexivity. Qed.

Lemma Math_max_cents (a b : Z) :
  exists k : Z, Math_max 0 (inject_Z a / 100 - inject_Z b / 100) * 100 == inject_Z k.
Proof.
  unfold Math_max.
  destruct (Qle_bool 0 (inject_Z a / 100 - inject_Z b / 100)).
  - exists (a - b)%Z. unfold Z.sub. rewrite inject_Z_plus, inject_Z_opp. field.
  - exists 0%Z. reflexivity.
Qed.

Lemma round_cents_exact (x : Q) (k : Z) :
  x * 100 == inject_Z k -> Math_round (x * 100) / 100 == x.
Proof.
  intro H. rewrite (Math_round_eq _ _ H), Math_round_Z, <- H. field.
Qed.

Lemma num_or_idem (x : num) (d : Q) :
  ~ d == 0 -> num_or (Fin (num_or x d)) d = num_or x d.
Proof.
  intro Hd. cbn [num_or].
  assert (E : Qzerob (num_or x d) = false).
  { destruct x as [q|]; cbn [num_or].
    - destruct (Qzerob q) eqn:Eq; [apply Qzerob_false; exact Hd | exact Eq].
    - apply Qzerob_false. exact Hd. }
  rewrite E. reflexivity.
Qed.

Lemma savings_nonneg (vpa : VPARecommendations) (resources : Resources) :
  0 <= calculatePotentialSavingsWithVPA vpa resources.
Proof.
  unfold calculatePotentialSavingsWithVPA.
  apply Qle_shift_div_l; [reflexivity|].
  setoid_replace (0 * 100) with 0 by reflexivity.
  apply Math_round_nonneg.
  apply Qmult_le_0_compat; [apply Math_max_l | discriminate].
Qed.

(** C7. calculatePotentialSavingsWithVPA never returns a negative number,
    whatever the autoscaler object and the requests are; hence every record
    that the loop of POST /api/metrics emits for a processed workload has
    potentialSavings >= 0. *)
Theorem potential_savings_nonnegative :
  (forall vpa resources, 0 <= calculatePotentialSavingsWithVPA vpa resources)
  /\ (forall up projectId clusterName workloadsList,
         Forall savings_nonnegative
                (collectMetrics up projectId clusterName workloadsList)).
Proof.
  split; [exact savings_nonneg|].
  intros up projectId clusterName workloadsList.
  rewrite collectMetrics_map. apply Forall_map, Forall_forall.
  intros w _. unfold processOrCatch.
  destruct (processWorkload up projectId clusterName w) as [e | m] eqn:E; [exact I|].
  apply processWorkload_inr in E.
  destruct E as (cpuResponse & memoryResponse & _ & _ & E). cbv zeta in E.
  destruct E as (_ & _ & _ & _ & _ & _ & _ & E & _).
  cbn [savings_nonnegative]. rewrite E. apply savings_nonneg.
Qed.

(** C6, as stated, fails: for "web", which has no autoscaler data, the
    emitted recommendation (580m, 128 MiB) costs less than the current
    request (1000m, 1 GiB), and the emitted potentialSavings is 0. *)
Lemma savings_ignore_usage_fallback :
  exists m,
    processWorkload sample_upstream "proj" "cluster" (sample_workload "web") = inr m
    /\ ~ pm_potentialSavings m
         == potentialSavings_spec (current_request_of m) (recommended_request_of m).
Proof.
  eexists. split.
  - vm_compute. reflexivity.
  - intro H. vm_compute in H. discriminate H.
Qed.

(** The savings are the difference against the [optimizedResources] object;
    the final rounding to cents changes nothing, both costs being whole
    cents. *)
Lemma savings_against_optimized (vpa : VPARecommendations) (resources : Resources) :
  calculatePotentialSavingsWithVPA vpa resources
  == potentialSavings_spec resources (optimizedResources vpa resources).
Proof.
  unfold calculatePotentialSavingsWithVPA, potentialSavings_spec.
  destruct (calculateCost_cents resources 1) as [a ->].
  destruct (calculateCost_cents (optimizedResources vpa resources) 1) as [b ->].
  destruct (Math_max_cents a b) as [k Hk].
  apply (round_cents_exact _ k Hk).
Qed.

Lemma savings_without_autoscaler (vpa : VPARecommendations) (resources : Resources) :
  vpa_available vpa = false -> calculatePotentialSavingsWithVPA vpa resources == 0.
Proof.
  intro Hna. rewrite savings_against_optimized. unfold potentialSavings_spec.
  assert (E : calculateCost (optimizedResources vpa resources) 1
              = calculateCost resources 1).
  { unfold optimizedResources. rewrite Hna.
    unfold calculateCost, requests_cpu, requests_memory. cbn [requests rq_cpu rq_memory].
    rewrite !num_or_idem by discriminate. reflexivity. }
  rewrite E. unfold Math_max.
  destruct (Qle_bool 0 (calculateCost resources 1 - calculateCost resources 1));
    [ring | reflexivity].
Qed.

(** Only the requests of [resources] enter the savings. *)
Lemma savings_requests_only (vpa : VPARecommendations) (r1 r2 : Resources) :
  requests r1 = requests r2 ->
  calculatePotentialSavingsWithVPA vpa r1 = calculatePotentialSavingsWithVPA vpa r2
  /\ optimizedResources vpa r1 = optimizedResources vpa r2.
Proof.
  intro H.
  unfold calculatePotentialSavingsWithVPA, optimizedResources, calculateCost,
    requests_cpu, requests_memory.
  rewrite H. split; reflexivity.
Qed.

(** The object the code prices and the optimized request of the
    specification cost the same: where the code substitutes the default for
    a missing current request, calculateCost would substitute it anyway. *)
Lemma cost_of_optimized (vpa : VPARecommendations) (resources : Resources) (replicas : Q) :
  calculateCost (optimizedResources vpa resources) replicas
  = calculateCost
      (optimizedRequest_spec (vpa_available vpa) (vpa_cpu vpa) (vpa_memory vpa) resources)
      replicas.
Proof.
  unfold optimizedResources, optimizedRequest_spec.
  destruct (vpa_available vpa).
  - unfold calculateCost, requests_cpu, requests_memory.
    cbn [requests rq_cpu rq_memory].
    destruct (vpa_cpu vpa) as [cores|]; [destruct (Qzerob cores)|];
      (destruct (vpa_memory vpa) as [bytes|]; [destruct (Qzerob bytes)|]);
      rewrite ?num_or_idem by discriminate; reflexivity.
  - unfold calculateCost, requests_cpu, requests_memory.
    cbn [requests rq_cpu rq_memory].
    rewrite !num_or_idem by discriminate. reflexivity.
Qed.

(** C6, amended. For every processed workload, potentialSavings is
    max(0, cost(current request) - cost(optimized request)), both at one
    replica, where the optimized request is the one of the amended
    specification, [optimizedRequest_spec]: with autoscaler data, each
    autoscaler total in whole millicores or whole bytes, a total that is
    null or zero being replaced by the current request; without autoscaler
    data the current request itself, so that potentialSavings is 0. *)
Theorem potential_savings_against_optimized
    (up : Upstream) (projectId clusterName : string) (workload : Workload)
    (metrics : ProcessedMetrics) :
  processWorkload up projectId clusterName workload = inr metrics ->
  let vpa :=
    getVPARecommendations up projectId clusterName (w_namespace workload) (w_name workload) in
  let current := current_request_of metrics in
  let optimized :=
    optimizedRequest_spec (pm_vpaEnabled metrics) (vpa_cpu vpa) (vpa_memory vpa) current in
  pm_potentialSavings metrics == potentialSavings_spec current optimized
  /\ (pm_vpaEnabled metrics = false ->
      optimized = current /\ pm_potentialSavings metrics == 0)
  /\ (forall c mem,
        pm_vpaEnabled metrics = true ->
        vpa_cpu vpa = Some c -> vpa_memory vpa = Some mem ->
        ~ c == 0 -> ~ mem == 0 ->
        optimized = requests_of (Math_round (c * 1000)) (Math_round mem)).
Proof.
  intros Hrun vpa current optimized.
  apply processWorkload_inr in Hrun.
  destruct Hrun as (cpuResponse & memoryResponse & _ & _ & Hrun). cbv zeta in Hrun.
  destruct Hrun as (_ & _ & Hrc & Hrm & _ & _ & _ & Hsav & _ & Hen).
  fold vpa in Hsav, Hen.
  assert (Hreq : requests (resources_of up projectId clusterName workload)
                 = requests current).
  { subst current. unfold current_request_of. cbn [requests].
    rewrite Hrc, Hrm. reflexivity. }
  destruct (savings_requests_only vpa _ _ Hreq) as [Hs _].
  rewrite Hs in Hsav. subst optimized. rewrite Hsav, Hen.
  split; [|split].
  - rewrite savings_against_optimized. unfold potentialSavings_spec.
    rewrite cost_of_optimized. reflexivity.
  - intro Hna. split.
    + unfold optimizedRequest_spec. rewrite Hna. reflexivity.
    + apply savings_without_autoscaler. exact Hna.
  - intros c mem Ha Hc Hm Hcz Hmz. unfold optimizedRequest_spec, requests_of.
    rewrite Ha, Hc, Hm.
    rewrite (proj2 (Qzerob_false c) Hcz), (proj2 (Qzerob_false mem) Hmz). reflexivity.
Qed.

(** Three instances.  "web" has no autoscaler data: the optimized request
    is the current one and the savings are 0.  "api" has both autoscaler
    totals (0.015 cores, 16 MiB): the savings are 25.42.  On the cluster
    whose autoscaler recommends memory only, the CPU total is null and is
    replaced by the current 1000m: the savings are 1.52. *)
Lemma potential_savings_against_optimized_witness :
  (exists metrics,
      processWorkload sample_upstream "proj" "cluster" (sample_workload "web") = inr metrics
      /\ pm_potentialSavings metrics
         == potentialSavings_spec
              (current_request_of metrics)
              (optimizedRequest_spec (pm_vpaEnabled metrics)
                 (vpa_cpu (getVPARecommendations sample_upstream
                             "proj" "cluster" "production" "web"))
                 (vpa_memory (getVPARecommendations sample_upstream
                                "proj" "cluster" "production" "web"))
                 (current_request_of metrics))
      /\ pm_potentialSavings metrics == 0)
  /\ (exists metrics,
         processWorkload sample_upstream "proj" "cluster" (sample_workload "api")
         = inr metrics
         /\ pm_potentialSavings metrics
            == potentialSavings_spec
                 (current_request_of metrics)
                 (optimizedRequest_spec (pm_vpaEnabled metrics)
                    (vpa_cpu (getVPARecommendations sample_upstream
                                "proj" "cluster" "production" "api"))
                    (vpa_memory (getVPARecommendations sample_upstream
                                   "proj" "cluster" "production" "api"))
                    (current_request_of metrics))
         /\ pm_potentialSavings metrics == 2542 # 100)
  /\ (exists metrics,
         processWorkload sample_upstream_memory_only "proj" "cluster" (sample_workload "web")
         = inr metrics
         /\ pm_potentialSavings metrics
            == potentialSavings_spec
                 (current_request_of metrics)
                 (optimizedRequest_spec (pm_vpaEnabled metrics)
                    (vpa_cpu (getVPARecommendations sample_upstream_memory_only
                                "proj" "cluster" "production" "web"))
                    (vpa_memory (getVPARecommendations sample_upstream_memory_only
                                   "proj" "cluster" "production" "web"))
                    (current_request_of metrics))
         /\ vpa_cpu (getVPARecommendations sample_upstream_memory_only
                       "proj" "cluster" "production" "web") = None
         /\ pm_potentialSavings metrics == 152 # 100).
Proof.
  split; [|split].
  - eexists. split; [vm_compute; reflexivity|]. split.
    + apply (potential_savings_against_optimized
               sample_upstream "proj" "cluster" (sample_workload "web") _).
      vm_compute. reflexivity.
    + vm_compute. reflexivity.
  - eexists. split; [vm_compute; reflexivity|]. split.
    + apply (potential_savings_against_optimized
               sample_upstream "proj" "cluster" (sample_workload "api") _).
      vm_compute. reflexivity.
    + vm_compute. reflexivity.
  - eexists. split; [vm_compute; reflexivity|]. split.
    + apply (potential_savings_against_optimized
               sample_upstream_memory_only "proj" "cluster" (sample_workload "web") _).
      vm_compute. reflexivity.
    + split; vm_compute; reflexivity.
Defined.

(* ------------------------------------------------------------------ *)
(** ** WorkloadOrchestrator *)

Lemma valid_identifier_present (s : string) :
  valid_identifier s = true -> present (Some s) = true /\ string_or (Some s) "" = s.
Proof.
  unfold valid_identifier, present, string_or. intro H.
  apply andb_true_iff in H. destruct H as [H _].
  destruct (String.eqb s "") eqn:E; [discriminate H|]. split; reflexivity.
Qed.

Section Orchestrator.

Context (up : Upstream) (projectId clusterName : string).

Lemma metricsEndpoint_batch (body : MetricsRequest) (workloadsList : list Workload) :
  accepted_batch body projectId clusterName workloadsList ->
  metricsEndpoint up body
  = Status200 (collectMetrics up projectId clusterName workloadsList).
Proof.
  intros (Hp & Hc & Vp & Vc & Vn & Vw & Vt & Hw & Hne).
  unfold metricsEndpoint. rewrite Hp, Hc, Vn, Vw, Vt, Hw.
  destruct (valid_identifier_present _ Vp) as [-> ->].
  destruct (valid_identifier_present _ Vc) as [-> ->].
  rewrite Vp, Vc. cbn [negb orb].
  destruct workloadsList as [|w rest]; [contradiction|]. reflexivity.
Qed.

(** C9, amended. For a batch of N workloads the loop emits exactly N items,
    the i-th for the i-th workload; a workload whose pipeline throws gets
    the entry [{name, namespace, type, error, status: 'error'}] and every
    other workload still gets its full record.  An accepted request answers
    200 with exactly these items. *)
Theorem metrics_batch_isolates_failures (workloadsList : list Workload) :
  List.length (collectMetrics up projectId clusterName workloadsList)
  = List.length workloadsList
  /\ (forall i workload,
        nth_error workloadsList i = Some workload ->
        exists item,
          nth_error (collectMetrics up projectId clusterName workloadsList) i = Some item
          /\ item_name item = w_name workload
          /\ match processWorkload up projectId clusterName workload with
             | inr m => item = Processed m
             | inl message =>
                 item = error_entry workload message
                 /\ item_keys item = ["name"; "namespace"; "type"; "error"; "status"]
             end)
  /\ (forall body,
        accepted_batch body projectId clusterName workloadsList ->
        metricsEndpoint up body
        = Status200 (collectMetrics up projectId clusterName workloadsList)).
Proof.
  split; [|split].
  - rewrite collectMetrics_map. apply length_map.
  - intros i workload Hi.
    exists (processOrCatch up projectId clusterName workload).
    split; [rewrite collectMetrics_map; apply map_nth_error; exact Hi|].
    unfold processOrCatch, error_entry.
    destruct (processWorkload up projectId clusterName workload) as [e | m] eqn:E.
    + repeat split; reflexivity.
    + split; [|reflexivity]. apply processWorkload_inr in E.
      destruct E as (cpuResponse & memoryResponse & _ & _ & E). exact (proj1 E).
  - intro body. apply metricsEndpoint_batch.
Qed.

End Orchestrator.

(** C9, as stated, fails on the shape of the error entry: the third item of
    the sample batch, whose pipeline threw, also carries [type] and
    [status]. *)
Lemma error_entry_has_type_and_status :
  exists message item,
    processWorkload sample_upstream "proj" "cluster" (sample_workload "batch")
    = inl message
    /\ nth_error (collectMetrics sample_upstream "proj" "cluster" sample_batch) 2
       = Some item
    /\ item_keys item <> ["name"; "namespace"; "error"].
Proof.
  eexists. eexists. split; [|split].
  - vm_compute. reflexivity.
  - vm_compute. reflexivity.
  - cbn. discriminate.
Qed.

(** An instance: the sample batch, whose third workload fails. *)
Lemma metrics_batch_isolates_failures_witness :
  (exists item,
     nth_error (collectMetrics sample_upstream "proj" "cluster" sample_batch) 2 = Some item
     /\ item_name item = "batch"
     /\ match processWorkload sample_upstream "proj" "cluster" (sample_workload "batch") with
        | inr m => item = Processed m
        | inl message =>
            item = error_entry (sample_workload "batch") message
            /\ item_keys item = ["name"; "namespace"; "type"; "error"; "status"]
        end)
  /\ metricsEndpoint sample_upstream sample_body
     = Status200 (collectMetrics sample_upstream "proj" "cluster" sample_batch).
Proof.
  split.
  - apply (proj1 (proj2 (metrics_batch_isolates_failures
                           sample_upstream "proj" "cluster" sample_batch))
             2%nat (sample_workload "batch")).
    reflexivity.
  - apply (proj2 (proj2 (metrics_batch_isolates_failures
                           sample_upstream "proj" "cluster" sample_batch))
             sample_body).
    unfold accepted_batch. repeat split; try reflexivity. discriminate.
Defined.

(* ------------------------------------------------------------------ *)
(** ** RecommendationSynthesizer: the usage fallback *)

Lemma insert_ascending_length (x : Q) (l : list Q) :
  List.length (insert_ascending x l) = S (List.length l).
Proof.
  induction l as [|y rest IH]; [reflexivity|].
  cbn [insert_ascending]. destruct (Qle_bool x y); cbn [List.length]; [|rewrite IH];
    reflexivity.
Qed.

Lemma sort_ascending_length (l : list Q) :
  List.length (sort_ascending l) = List.length l.
Proof.
  induction l as [|x rest IH]; [reflexivity|].
  cbn [sort_ascending fold_right]. fold (sort_ascending rest).
  rewrite insert_ascending_length, IH. reflexivity.
Qed.

(** The index read by the CPU fallback is always inside the array. *)
Lemma p90Index_in_range (values : list Q) :
  values <> [] -> (p90Index values < List.length values)%nat.
Proof.
  intro Hne. unfold p90Index.
  set (n := Z.of_nat (List.length values)).
  assert (Hn : (0 < n)%Z) by (subst n; destruct values; [contradiction | cbn; lia]).
  assert (Hlt : (Qfloor (inject_Z n * (9 # 10)) < n)%Z).
  { rewrite Zlt_Qlt.
    apply Qle_lt_trans with (inject_Z n * (9 # 10)); [apply Qfloor_le|].
    rewrite Zlt_Qlt in Hn. change (inject_Z 0) with 0 in Hn. lra. }
  subst n. lia.
Qed.

(* ------------------------------------------------------------------ *)
(** ** RecommendationSynthesizer: the emitted pair *)

Lemma Math_max_r (x y : Q) : y <= Math_max x y.
Proof.
  unfold Math_max. destruct (Qle_bool x y) eqn:E; [lra|].
  destruct (Qlt_le_dec y x) as [H | H]; [lra|].
  apply Qle_bool_iff in H. congruence.
Qed.

Lemma Math_round_lower (x : Q) : x - (1 # 2) <= Math_round x.
Proof.
  unfold Math_round. pose proof (Qlt_floor (x + (1 # 2))) as H.
  rewrite inject_Z_plus in H. change (inject_Z 1) with 1 in H. lra.
Qed.

Lemma roundUpTo10m_lower (x : Q) : x <= roundUpTo10m x.
Proof.
  unfold roundUpTo10m, Math_ceil.
  apply Qle_trans with (inject_Z (Qceiling (x / 10)) * 10); [|apply Math_max_r].
  apply Qdiv_le_iff; [reflexivity | apply Qle_ceiling].
Qed.

Lemma roundUpTo16Mi_lower (x : Q) : x <= roundUpTo16Mi x.
Proof.
  unfold roundUpTo16Mi, Math_ceil.
  apply Qle_trans with (inject_Z (Qceiling (x / (16 * mebibyte))) * (16 * mebibyte));
    [|apply Math_max_r].
  apply Qdiv_le_iff; [reflexivity | apply Qle_ceiling].
Qed.

Lemma extractLatestRecommendation_nonempty (timeSeries : list Series) (total : Q) :
  extractLatestRecommendation timeSeries = Some total ->
  (0 <? List.length timeSeries)%nat = true.
Proof.
  destruct timeSeries as [|s rest]; [discriminate | reflexivity].
Qed.

Lemma getVPARecommendations_fetched (up : Upstream)
    (projectId clusterName namespace workloadName : string)
    (cpuRecommendations memoryRecommendations : list Series) :
  getMetricsFromMonitoring up projectId clusterName namespace workloadName metric_vpa_cpu
  = inr cpuRecommendations ->
  getMetricsFromMonitoring up projectId clusterName namespace workloadName metric_vpa_memory
  = inr memoryRecommendations ->
  getVPARecommendations up projectId clusterName namespace workloadName
  = buildVPARecommendations cpuRecommendations memoryRecommendations.
Proof.
  intros Hc Hm. unfold getVPARecommendations, bind, ret. rewrite Hc, Hm. reflexivity.
Qed.

(** The totals of the autoscaler object are the validator's output. *)
Lemma buildVPARecommendations_totals (cpuRecommendations memoryRecommendations : list Series)
    (c m : Q) :
  extractLatestRecommendation cpuRecommendations = Some c ->
  extractLatestRecommendation memoryRecommendations = Some m ->
  ~ c == 0 -> ~ m == 0 ->
  let vpa := buildVPARecommendations cpuRecommendations memoryRecommendations in
  let r := validateAndAdjustCPUMemoryRatio c m in
  vpa_available vpa = true
  /\ vpa_cpu vpa = Some (rv_cpu r)
  /\ vpa_memory vpa = Some (rv_memory r)
  /\ vpa_adjust_total vpa = rv_reason r.
Proof.
  intros Hc Hm Hcz Hmz. cbv zeta. unfold buildVPARecommendations.
  rewrite Hc, Hm.
  rewrite (proj2 (Qzerob_false c) Hcz), (proj2 (Qzerob_false m) Hmz).
  cbn [negb andb].
  rewrite (extractLatestRecommendation_nonempty _ _ Hc).
  destruct (fold_left _ _ _) as [[adjustedCpu adjustedMemory] containerAdjustments].
  cbn. repeat split; reflexivity.
Qed.

(** C2, as stated, fails: "web" has no autoscaler data, and the pair
    emitted for it by the usage fallback (580m, 128 MiB) has less than
    1 GiB of memory per vCPU. *)
Lemma usage_fallback_pair_out_of_ratio :
  exists m,
    processWorkload sample_upstream "proj" "cluster" (sample_workload "web") = inr m
    /\ pm_vpaEnabled m = false
    /\ ~ (1 <= memoryGiBPerCpu (pm_recommendedCPU m / 1000) (pm_recommendedMemory m)
          <= 13 # 2).
Proof.
  eexists. split; [|split].
  - vm_compute. reflexivity.
  - reflexivity.
  - intros [H _]. vm_compute in H. apply H. reflexivity.
Qed.

(** C2, amended. For a successfully processed workload whose autoscaler
    totals c (cores) and mem (bytes) are both present and positive, the
    totals after RatioValidator satisfy the ratio bound, and the emitted
    recommendedCPU and recommendedMemory are those validated totals, each
    rounded on its own (to whole millicores and up to a multiple of 10m;
    to whole bytes and up to a multiple of 16 MiB), hence never more than
    half a unit below them. *)
Theorem recommended_pair_rounds_validated_totals
    (up : Upstream) (projectId clusterName : string) (workload : Workload)
    (metrics : ProcessedMetrics) (cpuRecommendations memoryRecommendations : list Series)
    (c mem : Q) :
  processWorkload up projectId clusterName workload = inr metrics ->
  getMetricsFromMonitoring up projectId clusterName
    (w_namespace workload) (w_name workload) metric_vpa_cpu = inr cpuRecommendations ->
  getMetricsFromMonitoring up projectId clusterName
    (w_namespace workload) (w_name workload) metric_vpa_memory = inr memoryRecommendations ->
  extractLatestRecommendation cpuRecommendations = Some c ->
  extractLatestRecommendation memoryRecommendations = Some mem ->
  0 < c -> 0 < mem ->
  let r := validateAndAdjustCPUMemoryRatio c mem in
  1 <= memoryGiBPerCpu (rv_cpu r) (rv_memory r) <= 13 # 2
  /\ pm_vpaEnabled metrics = true
  /\ pm_recommendedCPU metrics = roundUpTo10m (Math_round (rv_cpu r * 1000))
  /\ pm_recommendedMemory metrics = roundUpTo16Mi (Math_round (rv_memory r))
  /\ rv_cpu r * 1000 - (1 # 2) <= pm_recommendedCPU metrics
  /\ rv_memory r - (1 # 2) <= pm_recommendedMemory metrics.
Proof.
  intros Hrun Hfc Hfm Hc Hm Hcpos Hmpos r.
  apply processWorkload_inr in Hrun.
  destruct Hrun as (cpuResponse & memoryResponse & _ & _ & Hrun). cbv zeta in Hrun.
  destruct Hrun as (_ & _ & _ & _ & Hcpu & Hmem & _ & _ & _ & Hen).
  rewrite (getVPARecommendations_fetched _ _ _ _ _ _ _ Hfc Hfm) in Hcpu, Hmem, Hen.
  assert (Hcz : ~ c == 0) by lra.
  assert (Hmz : ~ mem == 0) by lra.
  destruct (buildVPARecommendations_totals _ _ c mem Hc Hm Hcz Hmz)
    as (Ha & Htc & Htm & _).
  fold r in Htc, Htm.
  unfold getRecommendedCPU in Hcpu. rewrite Ha, Htc in Hcpu.
  unfold getRecommendedMemory in Hmem. rewrite Ha, Htm in Hmem.
  rewrite Hcpu, Hmem, Hen, Ha.
  split; [apply validate_output_ratio; lra|].
  split; [reflexivity|]. split; [reflexivity|]. split; [reflexivity|].
  split.
  - apply Qle_trans with (Math_round (rv_cpu r * 1000));
      [apply Math_round_lower | apply roundUpTo10m_lower].
  - apply Qle_trans with (Math_round (rv_memory r));
      [apply Math_round_lower | apply roundUpTo16Mi_lower].
Qed.

(** An instance: the record emitted for "api". *)
Lemma recommended_pair_rounds_validated_totals_witness :
  exists metrics,
    processWorkload sample_upstream "proj" "cluster" (sample_workload "api") = inr metrics
    /\ let r := validateAndAdjustCPUMemoryRatio (15 # 1000) (16 * 1024 * 1024) in
       1 <= memoryGiBPerCpu (rv_cpu r) (rv_memory r) <= 13 # 2
       /\ pm_vpaEnabled metrics = true
       /\ pm_recommendedCPU metrics = roundUpTo10m (Math_round (rv_cpu r * 1000))
       /\ pm_recommendedMemory metrics = roundUpTo16Mi (Math_round (rv_memory r))
       /\ rv_cpu r * 1000 - (1 # 2) <= pm_recommendedCPU metrics
       /\ rv_memory r - (1 # 2) <= pm_recommendedMemory metrics.
Proof.
  eexists. split.
  - vm_compute. reflexivity.
  - apply (recommended_pair_rounds_validated_totals
             sample_upstream "proj" "cluster" (sample_workload "api") _
             [one_point_series "app" 1700000000 (15 # 1000)]
             [one_point_series "app" 1700000000 (16 * 1024 * 1024)]
             (15 # 1000) (16 * 1024 * 1024)).
    + vm_compute. reflexivity.
    + reflexivity.
    + reflexivity.
    + reflexivity.
    + reflexivity.
    + reflexivity.
    + reflexivity.
Defined.

(* ------------------------------------------------------------------ *)
(** ** RecommendationSynthesizer: the second validation pass *)

(** The validator's result has no property [adjustmentReason]. *)
Lemma adjustmentReason_undefined (r : RatioResult) :
  ratio_prop r "adjustmentReason" = JUndefined.
Proof. reflexivity. Qed.

(** So the second pass never changes the totals and never sets its flag. *)
Lemma validateRoundedTotals_inert (totalRoundedCpuMillicores : Q)
    (totalRoundedMemoryBytes : num) :
  validateRoundedTotals totalRoundedCpuMillicores totalRoundedMemoryBytes
  = (totalRoundedCpuMillicores, totalRoundedMemoryBytes, false).
Proof.
  unfold validateRoundedTotals.
  destruct totalRoundedMemoryBytes as [totalMemory|]; [|reflexivity].
  destruct (Qgtb totalRoundedCpuMillicores 0 && Qgtb totalMemory 0); [|reflexivity].
  rewrite adjustmentReason_undefined. reflexivity.
Qed.

(** C3 (the code departs from the claim). For "api" the rounded totals are
    20m and 16 MiB; the validator, applied to them, adjusts (it raises the
    memory to 0.02 GiB), yet the reported memory total is still 16 MiB and
    no ratio-validation note is emitted.  In general the second pass
    returns the totals it was given, with its flag unset. *)
Theorem second_pass_adjustment_dropped :
  let second := validateAndAdjustCPUMemoryRatio (20 / 1000) (16 * 1024 * 1024) in
  let lines :=
    generateRecommendationsWithVPA sample_vpa [] [] (requests_of 1000 (1024 * 1024 * 1024)) in
  rv_adjusted second = true
  /\ 16 * 1024 * 1024 < rv_memory second
  /\ In (CpuTotalLine 20 1000) lines
  /\ In (MemoryTotalLine (Fin 16) 1024) lines
  /\ ~ In RatioValidationNote lines
  /\ (forall totalCpu totalMemory,
        validateRoundedTotals totalCpu totalMemory = (totalCpu, totalMemory, false)).
Proof.
  cbv zeta. split; [reflexivity|]. split; [reflexivity|].
  split; [vm_compute; intuition|]. split; [vm_compute; intuition|].
  split; [|exact validateRoundedTotals_inert].
  vm_compute. intuition discriminate.
Qed.
(* ------------------------------------------------------------------ *)
(** ** Maps keyed by container name *)

Section MapFacts.

Context {V : Type}.

Lemma map_get_set_same (m : list (string * V)) (k : string) (v : V) :
  map_get (map_set m k v) k = Some v.
Proof.
  induction m as [|[k' v'] rest IH]; cbn [map_set map_get].
  - rewrite String.eqb_refl. reflexivity.
  - destruct (String.eqb k' k) eqn:E; cbn [map_get].
    + rewrite String.eqb_refl. reflexivity.
    + rewrite E. exact IH.
Qed.

Lemma map_get_set_other (m : list (string * V)) (k k' : string) (v : V) :
  k' <> k -> map_get (map_set m k v) k' = map_get m k'.
Proof.
  intro Hne. induction m as [|[k0 v0] rest IH]; cbn [map_set map_get].
  - destruct (String.eqb k k') eqn:E; [|reflexivity].
    apply String.eqb_eq in E. congruence.
  - destruct (String.eqb k0 k) eqn:E; cbn [map_get].
    + apply String.eqb_eq in E. subst k0.
      destruct (String.eqb k k') eqn:E'; [|reflexivity].
      apply String.eqb_eq in E'. congruence.
    + destruct (String.eqb k0 k'); [reflexivity | exact IH].
Qed.

Lemma map_get_none (m : list (string * V)) (k : string) :
  map_get m k = None <-> ~ In k (map fst m).
Proof.
  induction m as [|[k' v'] rest IH]; cbn [map_get map fst In].
  - tauto.
  - destruct (String.eqb k' k) eqn:E.
    + apply String.eqb_eq in E. split; [discriminate | intro H; exfalso; apply H; left; exact E].
    + apply String.eqb_neq in E. rewrite IH. tauto.
Qed.

Lemma map_get_in (m : list (string * V)) (k : string) (v : V) :
  map_get m k = Some v -> In (k, v) m.
Proof.
  induction m as [|[k' v'] rest IH]; cbn [map_get In]; [discriminate|].
  destruct (String.eqb k' k) eqn:E.
  - apply String.eqb_eq in E. intro H. injection H as ->. left. congruence.
  - intro H. right. apply IH. exact H.
Qed.

Lemma map_in_get (m : list (string * V)) (k : string) (v : V) :
  NoDup (map fst m) -> In (k, v) m -> map_get m k = Some v.
Proof.
  induction m as [|[k' v'] rest IH]; cbn [map fst In map_get]; [tauto|].
  intros Hnd [H | H].
  - injection H as -> ->. rewrite String.eqb_refl. reflexivity.
  - inversion Hnd as [|? ? Hnotin Hnd']; subst.
    destruct (String.eqb k' k) eqn:E.
    + apply String.eqb_eq in E. subst k'. exfalso. apply Hnotin.
      apply (in_map fst) in H. exact H.
    + apply IH; assumption.
Qed.

Lemma map_set_keys (m : list (string * V)) (k : string) (v : V) :
  map fst (map_set m k v)
  = match map_get m k with
    | Some _ => map fst m
    | None => map fst m ++ [k]
    end.
Proof.
  induction m as [|[k' v'] rest IH]; cbn [map_set map_get map fst Datatypes.app]; [reflexivity|].
  destruct (String.eqb k' k) eqn:E; cbn [map fst].
  - apply String.eqb_eq in E. subst. reflexivity.
  - rewrite IH. destruct (map_get rest k); reflexivity.
Qed.

Lemma map_set_nodup (m : list (string * V)) (k : string) (v : V) :
  NoDup (map fst m) -> NoDup (map fst (map_set m k v)).
Proof.
  intro H. rewrite map_set_keys. destruct (map_get m k) eqn:E; [exact H|].
  apply map_get_none in E.
  apply NoDup_app; [exact H | repeat constructor; intros [] | ].
  intros x Hx [<- | []]. contradiction.
Qed.

End MapFacts.

(* ------------------------------------------------------------------ *)
(** ** TimeSeriesExtractor: the latest value per container *)

Lemma fold_points_labelled (name : string) (pts : list Point) (acc : list (string * (Q * Z))) :
  fold_left (fun acc lp => record_point (fst lp) acc (snd lp))
            (map (fun point => (name, point)) pts) acc
  = fold_left (record_point name) pts acc.
Proof.
  revert acc. induction pts as [|p rest IH]; intro acc; [reflexivity|].
  cbn [map fold_left fst snd]. apply IH.
Qed.

Lemma fold_series_accumulate (label : Series -> string) (timeSeries : list Series)
    (acc : list (string * (Q * Z))) :
  fold_left
    (fun acc series => fold_left (record_point (label series)) (points series) acc)
    timeSeries acc
  = accumulate (labelled_points label timeSeries) acc.
Proof.
  revert acc. induction timeSeries as [|s rest IH]; intro acc; [reflexivity|].
  cbn [fold_left labelled_points flat_map]. unfold accumulate.
  rewrite fold_left_app, fold_points_labelled. apply IH.
Qed.

Lemma latest_inv_nil : latest_inv [] [].
Proof.
  split; [constructor | split].
  - intros n v t H. discriminate H.
  - intros n (p & v & [] & _).
Qed.

Lemma in_snoc {A : Type} (x y : A) (l : list A) : In x (l ++ [y]) <-> In x l \/ x = y.
Proof.
  rewrite in_app_iff. cbn [In]. intuition congruence.
Qed.

Lemma latest_inv_step (labelled : list (string * Point)) (acc : list (string * (Q * Z)))
    (n : string) (p : Point) :
  latest_inv labelled acc ->
  latest_inv (labelled ++ [(n, p)]) (record_point n acc p).
Proof.
  intros (Hnd & Hsound & Hcomplete). unfold record_point.
  destruct (doubleValue p) as [value|] eqn:Hv.
  - destruct (map_get acc n) as [[v0 t0]|] eqn:Hget.
    + destruct (point_timestamp p >? snd (v0, t0))%Z eqn:Hcmp; cbn [snd] in Hcmp.
      * apply Z.gtb_lt in Hcmp.
        split; [apply map_set_nodup; exact Hnd | split].
        -- intros n1 v t Hn1. destruct (string_dec n1 n) as [-> | Hne].
           ++ rewrite map_get_set_same in Hn1. injection Hn1 as <- <-.
              exists p. split; [apply in_snoc; right; reflexivity|].
              split; [exact Hv | split; [reflexivity|]].
              intros p' v' Hin Hv'. apply in_snoc in Hin. destruct Hin as [Hin | Heq].
              ** destruct (Hsound _ _ _ Hget) as (p0 & _ & _ & _ & Hmax).
                 specialize (Hmax _ _ Hin Hv'). lia.
              ** injection Heq as <-. lia.
           ++ rewrite (map_get_set_other _ _ _ _ Hne) in Hn1.
              destruct (Hsound _ _ _ Hn1) as (p0 & Hin0 & Hv0 & Ht0 & Hmax).
              exists p0. split; [apply in_snoc; left; exact Hin0|].
              split; [exact Hv0 | split; [exact Ht0|]].
              intros p' v' Hin Hv'. apply in_snoc in Hin. destruct Hin as [Hin | Heq].
              ** apply (Hmax _ _ Hin Hv').
              ** injection Heq as E _. contradiction.
        -- intros n1 (p1 & v1 & Hin & Hv1). destruct (string_dec n1 n) as [-> | Hne].
           ++ rewrite map_get_set_same. eexists. reflexivity.
           ++ rewrite (map_get_set_other _ _ _ _ Hne).
              apply in_snoc in Hin. destruct Hin as [Hin | Heq].
              ** apply Hcomplete. exists p1, v1. split; assumption.
              ** injection Heq as E _. contradiction.
      * rewrite Z.gtb_ltb in Hcmp. apply Z.ltb_ge in Hcmp.
        split; [exact Hnd | split].
        -- intros n1 v t Hn1.
           destruct (Hsound _ _ _ Hn1) as (p0 & Hin0 & Hv0 & Ht0 & Hmax).
           exists p0. split; [apply in_snoc; left; exact Hin0|].
           split; [exact Hv0 | split; [exact Ht0|]].
           intros p' v' Hin Hv'. apply in_snoc in Hin. destruct Hin as [Hin | Heq].
           ++ apply (Hmax _ _ Hin Hv').
           ++ injection Heq as -> <-. rewrite Hget in Hn1. injection Hn1 as _ <-. exact Hcmp.
        -- intros n1 (p1 & v1 & Hin & Hv1).
           apply in_snoc in Hin. destruct Hin as [Hin | Heq].
           ++ apply Hcomplete. exists p1, v1. split; assumption.
           ++ injection Heq as -> _. eexists. exact Hget.
    + split; [apply map_set_nodup; exact Hnd | split].
      * intros n1 v t Hn1. destruct (string_dec n1 n) as [-> | Hne].
        -- rewrite map_get_set_same in Hn1. injection Hn1 as <- <-.
           exists p. split; [apply in_snoc; right; reflexivity|].
           split; [exact Hv | split; [reflexivity|]].
           intros p' v' Hin Hv'. apply in_snoc in Hin. destruct Hin as [Hin | Heq].
           ++ destruct (Hcomplete n) as [e He]; [exists p', v'; split; assumption|].
              congruence.
           ++ injection Heq as <-. lia.
        -- rewrite (map_get_set_other _ _ _ _ Hne) in Hn1.
           destruct (Hsound _ _ _ Hn1) as (p0 & Hin0 & Hv0 & Ht0 & Hmax).
           exists p0. split; [apply in_snoc; left; exact Hin0|].
           split; [exact Hv0 | split; [exact Ht0|]].
           intros p' v' Hin Hv'. apply in_snoc in Hin. destruct Hin as [Hin | Heq].
           ++ apply (Hmax _ _ Hin Hv').
           ++ injection Heq as E _. contradiction.
      * intros n1 (p1 & v1 & Hin & Hv1). destruct (string_dec n1 n) as [-> | Hne].
        -- rewrite map_get_set_same. eexists. reflexivity.
        -- rewrite (map_get_set_other _ _ _ _ Hne).
           apply in_snoc in Hin. destruct Hin as [Hin | Heq].
           ++ apply Hcomplete. exists p1, v1. split; assumption.
           ++ injection Heq as E _. contradiction.
  - split; [exact Hnd | split].
    + intros n1 v t Hn1.
      destruct (Hsound _ _ _ Hn1) as (p0 & Hin0 & Hv0 & Ht0 & Hmax).
      exists p0. split; [apply in_snoc; left; exact Hin0|].
      split; [exact Hv0 | split; [exact Ht0|]].
      intros p' v' Hin Hv'. apply in_snoc in Hin. destruct Hin as [Hin | Heq].
      * apply (Hmax _ _ Hin Hv').
      * injection Heq as _ <-. congruence.
    + intros n1 (p1 & v1 & Hin & Hv1).
      apply in_snoc in Hin. destruct Hin as [Hin | Heq].
      * apply Hcomplete. exists p1, v1. split; assumption.
      * injection Heq as _ <-. congruence.
Qed.

Lemma accumulate_inv (labelled : list (string * Point)) :
  latest_inv labelled (accumulate labelled []).
Proof.
  induction labelled as [|[n p] rest IH] using rev_ind; [exact latest_inv_nil|].
  unfold accumulate. rewrite fold_left_app. cbn [fold_left fst snd].
  apply latest_inv_step. exact IH.
Qed.

Lemma extractPerContainerRecommendations_accumulate (timeSeries : list Series) :
  extractPerContainerRecommendations timeSeries
  = map (fun entry => (fst entry, fst (snd entry)))
        (accumulate (labelled_points metric_label timeSeries) []).
Proof.
  unfold extractPerContainerRecommendations.
  rewrite (fold_series_accumulate metric_label). reflexivity.
Qed.

Lemma extractPerContainerValues_accumulate (timeSeries : list Series) (metricType : string) :
  extractPerContainerValues timeSeries metricType
  = map (fun entry =>
           (fst entry,
            if String.eqb metricType "cpu" then Math_round (fst (snd entry) * 1000)
            else Math_round (fst (snd entry))))
        (accumulate (labelled_points resource_label timeSeries) []).
Proof.
  unfold extractPerContainerValues.
  rewrite (fold_series_accumulate resource_label). reflexivity.
Qed.

(** An entry of the accumulator is a latest valued point. *)
Lemma accumulate_latest (labelled : list (string * Point)) (name : string) (v : Q) (t : Z) :
  In (name, (v, t)) (accumulate labelled []) -> latest_for labelled name v.
Proof.
  intro Hin. destruct (accumulate_inv labelled) as (Hnd & Hsound & _).
  apply (map_in_get _ _ _ Hnd) in Hin.
  destruct (Hsound _ _ _ Hin) as (p & Hp & Hv & Ht & Hmax).
  exists p. split; [exact Hp | split; [exact Hv|]].
  intros p' v' Hp' Hv'. rewrite Ht. apply (Hmax _ _ Hp' Hv').
Qed.

Lemma accumulate_keys (labelled : list (string * Point)) (name : string) :
  In name (map fst (accumulate labelled [])) <-> has_value labelled name.
Proof.
  destruct (accumulate_inv labelled) as (Hnd & Hsound & Hcomplete). split.
  - intro Hin. apply in_map_iff in Hin. destruct Hin as ([n [v t]] & Hn & Hin).
    cbn [fst] in Hn. subst n. apply (map_in_get _ _ _ Hnd) in Hin.
    destruct (Hsound _ _ _ Hin) as (p & Hp & Hv & _). exists p, v. split; assumption.
  - intro Hhas. destruct (Hcomplete _ Hhas) as [e He].
    apply map_get_in in He. apply (in_map fst) in He. exact He.
Qed.

(** X1. Every entry of extractPerContainerRecommendations carries the value
    of a most recent valued point of its container; points may come in any
    order and from several series. *)
Theorem per_container_recommendation_is_latest
    (timeSeries : list Series) (name : string) (value : Q) :
  In (name, value) (extractPerContainerRecommendations timeSeries) ->
  latest_for (labelled_points metric_label timeSeries) name value.
Proof.
  rewrite extractPerContainerRecommendations_accumulate. intro Hin.
  apply in_map_iff in Hin. destruct Hin as ([n [v t]] & Heq & Hin).
  cbn [fst snd] in Heq. injection Heq as -> ->.
  apply (accumulate_latest _ _ _ _ Hin).
Qed.

(** An instance: "nginx" has points at 100, 300 and 200 seconds; the value
    kept is the one at 300. *)
Lemma per_container_recommendation_is_latest_witness :
  latest_for (labelled_points metric_label sample_recommendation_series) "nginx" (10 # 100).
Proof.
  apply (per_container_recommendation_is_latest sample_recommendation_series
           "nginx" (10 # 100)).
  left. reflexivity.
Defined.

Lemma recommendation_keys (timeSeries : list Series) :
  NoDup (map fst (extractPerContainerRecommendations timeSeries))
  /\ (forall name,
        In name (map fst (extractPerContainerRecommendations timeSeries))
        <-> has_value (labelled_points metric_label timeSeries) name).
Proof.
  rewrite extractPerContainerRecommendations_accumulate.
  rewrite map_map. cbn [fst].
  split.
  - apply (accumulate_inv (labelled_points metric_label timeSeries)).
  - intro name. apply accumulate_keys.
Qed.

Lemma value_keys_nodup (timeSeries : list Series) (metricType : string) :
  NoDup (map fst (extractPerContainerValues timeSeries metricType)).
Proof.
  rewrite extractPerContainerValues_accumulate, map_map. cbn [fst].
  apply (accumulate_inv (labelled_points resource_label timeSeries)).
Qed.

(** X2. The result of extractPerContainerRecommendations has one entry per
    container that has at least one valued point, and no other entry. *)
Theorem per_container_recommendation_keys (timeSeries : list Series) :
  NoDup (map fst (extractPerContainerRecommendations timeSeries))
  /\ (forall name,
        In name (map fst (extractPerContainerRecommendations timeSeries))
        <-> has_value (labelled_points metric_label timeSeries) name).
Proof. exact (recommendation_keys timeSeries). Qed.

Lemma labelled_points_in (label : Series -> string) (timeSeries : list Series)
    (name : string) (point : Point) :
  In (name, point) (labelled_points label timeSeries)
  <-> exists series, In series timeSeries /\ label series = name /\ In point (points series).
Proof.
  unfold labelled_points. rewrite in_flat_map. split.
  - intros (s & Hs & Hin). apply in_map_iff in Hin. destruct Hin as (p & Heq & Hp).
    injection Heq as <- <-. exists s. repeat split; assumption.
  - intros (s & Hs & <- & Hp). exists s. split; [exact Hs|].
    apply in_map_iff. exists point. split; [reflexivity | exact Hp].
Qed.

(** X3. extractLatestRecommendation is null exactly when no point of the
    response carries a value. *)
Theorem latest_recommendation_null_iff (timeSeries : list Series) :
  extractLatestRecommendation timeSeries = None
  <-> (forall point, In point (all_points timeSeries) -> doubleValue point = None).
Proof.
  unfold extractLatestRecommendation.
  destruct (recommendation_keys timeSeries) as [_ Hkeys].
  destruct (extractPerContainerRecommendations timeSeries) as [|[n v] rest] eqn:E.
  - split; [|reflexivity]. intros _ point Hin.
    destruct (doubleValue point) as [value|] eqn:Hv; [|reflexivity].
    exfalso. unfold all_points in Hin. apply in_flat_map in Hin.
    destruct Hin as (s & Hs & Hp).
    apply (proj2 (Hkeys (metric_label s))).
    exists point, value. split; [|exact Hv].
    apply labelled_points_in. exists s. repeat split; assumption.
  - split; [discriminate|]. intro Hnone. exfalso.
    destruct (proj1 (Hkeys n)) as (p & value & Hin & Hv); [left; reflexivity|].
    apply labelled_points_in in Hin. destruct Hin as (s & Hs & _ & Hp).
    assert (Hall : In p (all_points timeSeries)).
    { unfold all_points. apply in_flat_map. exists s. split; assumption. }
    rewrite (Hnone _ Hall) in Hv. discriminate Hv.
Qed.

(** X4. Every entry of extractPerContainerValues is the rounding of a most
    recent valued point of its container: cores times 1000, rounded, for
    'cpu'; the value rounded for any other metric type. *)
Theorem per_container_value_is_latest_rounded
    (timeSeries : list Series) (metricType name : string) (value : Q) :
  In (name, value) (extractPerContainerValues timeSeries metricType) ->
  exists raw,
    latest_for (labelled_points resource_label timeSeries) name raw
    /\ value = (if String.eqb metricType "cpu" then Math_round (raw * 1000)
                else Math_round raw).
Proof.
  rewrite extractPerContainerValues_accumulate. intro Hin.
  apply in_map_iff in Hin. destruct Hin as ([n [v t]] & Heq & Hin).
  cbn [fst snd] in Heq. injection Heq as -> <-.
  exists v. split; [|reflexivity].
  apply (accumulate_latest _ _ _ _ Hin).
Qed.

(** An instance: the latest request of "nginx" is 0.10 cores, reported as
    100 millicores. *)
Lemma per_container_value_is_latest_rounded_witness :
  exists raw,
    latest_for (labelled_points resource_label sample_recommendation_series) "nginx" raw
    /\ 100 = (if String.eqb "cpu" "cpu" then Math_round (raw * 1000) else Math_round raw).
Proof.
  apply (per_container_value_is_latest_rounded sample_recommendation_series
           "cpu" "nginx" 100).
  left. reflexivity.
Defined.

(* ------------------------------------------------------------------ *)
(** ** The per-container validation loops in closed form *)

Lemma map_set_absent {V : Type} (m : list (string * V)) (k : string) (v : V) :
  ~ In k (map fst m) -> map_set m k v = m ++ [(k, v)].
Proof.
  induction m as [|[k' v'] rest IH]; cbn [map fst In map_set Datatypes.app]; [reflexivity|].
  intro H. destruct (String.eqb k' k) eqn:E.
  - apply String.eqb_eq in E. exfalso. apply H. left. exact E.
  - rewrite IH; [reflexivity|]. intro Hin. apply H. right. exact Hin.
Qed.

Lemma fold_left_pointwise {A B : Type} (f g : A -> B -> A) (l : list B) (a : A) :
  (forall a b, f a b = g a b) -> fold_left f l a = fold_left g l a.
Proof.
  intro H. revert a. induction l as [|b rest IH]; intro a; [reflexivity|].
  cbn [fold_left]. rewrite H. apply IH.
Qed.

Section KeyedFold.

Context {A B : Type}.
Context (cpuOf : string * Q -> A) (memoryOf : string * Q -> B).
Context (reasonOf : string * Q -> option string).

Lemma keyed_fold_from (l : list (string * Q))
    (a : list (string * A)) (b : list (string * B)) (d : list (string * string)) :
  map fst b = map fst a ->
  incl (map fst d) (map fst a) ->
  NoDup (map fst a ++ map fst l) ->
  fold_left (keyed_step cpuOf memoryOf reasonOf) l (a, b, d)
  = (a ++ map (fun e => (fst e, cpuOf e)) l,
     b ++ map (fun e => (fst e, memoryOf e)) l,
     d ++ reasons_of reasonOf l).
Proof.
  revert a b d. induction l as [|e rest IH]; intros a b d Hb Hd Hnd.
  - cbn. rewrite !app_nil_r. reflexivity.
  - cbn [fold_left keyed_step map reasons_of flat_map].
    cbn [map] in Hnd.
    assert (Hfresh : ~ In (fst e) (map fst a)).
    { apply NoDup_remove_2 in Hnd. intro H. apply Hnd. apply in_or_app. left. exact H. }
    rewrite (map_set_absent a) by exact Hfresh.
    rewrite (map_set_absent b) by (rewrite Hb; exact Hfresh).
    assert (Hnd' : NoDup (map fst (a ++ [(fst e, cpuOf e)]) ++ map fst rest)).
    { rewrite map_app. cbn [map fst]. rewrite <- app_assoc. exact Hnd. }
    destruct (reasonOf e) as [r|].
    + rewrite (map_set_absent d) by (intro H; apply Hfresh, Hd, H).
      rewrite IH.
      * rewrite <- !app_assoc. reflexivity.
      * rewrite !map_app, Hb. reflexivity.
      * rewrite !map_app. cbn [map fst]. apply incl_app_app; [exact Hd | apply incl_refl].
      * exact Hnd'.
    + rewrite IH.
      * rewrite <- !app_assoc. reflexivity.
      * rewrite !map_app, Hb. reflexivity.
      * rewrite map_app. apply incl_appl. exact Hd.
      * exact Hnd'.
Qed.

Lemma keyed_fold (l : list (string * Q)) :
  NoDup (map fst l) ->
  fold_left (keyed_step cpuOf memoryOf reasonOf) l ([], [], [])
  = (map (fun e => (fst e, cpuOf e)) l,
     map (fun e => (fst e, memoryOf e)) l,
     reasons_of reasonOf l).
Proof.
  intro H. apply (keyed_fold_from l [] [] []); [reflexivity | apply incl_refl | exact H].
Qed.

End KeyedFold.

Lemma map_get_keyed {C : Type} (f : string * Q -> C) (l : list (string * Q))
    (name : string) (q : Q) :
  NoDup (map fst l) -> In (name, q) l ->
  map_get (map (fun e => (fst e, f e)) l) name = Some (f (name, q)).
Proof.
  intros Hnd Hin. apply map_in_get.
  - rewrite map_map. cbn [fst]. exact Hnd.
  - apply in_map_iff. exists (name, q). split; [reflexivity | exact Hin].
Qed.

Lemma map_get_reasons (reasonOf : string * Q -> option string)
    (l : list (string * Q)) (name : string) (q : Q) :
  NoDup (map fst l) -> In (name, q) l ->
  map_get (reasons_of reasonOf l) name = reasonOf (name, q).
Proof.
  induction l as [|[k c] rest IH]; cbn [map fst In]; [tauto|].
  intros Hnd Hin. inversion Hnd as [|? ? Hfresh Hnd']; subst.
  assert (Hkeys : forall n, In n (map fst (reasons_of reasonOf rest)) -> In n (map fst rest)).
  { intros n Hn. apply in_map_iff in Hn. destruct Hn as ([n' r] & <- & Hn).
    unfold reasons_of in Hn. apply in_flat_map in Hn. destruct Hn as (e & He & Hr).
    destruct (reasonOf e); [|contradiction]. destruct Hr as [Hr | []].
    injection Hr as <- _. apply (in_map fst) in He. exact He. }
  cbn [reasons_of flat_map]. fold (reasons_of reasonOf rest).
  destruct Hin as [Heq | Hin].
  - injection Heq as -> ->. cbn [fst].
    destruct (reasonOf (name, q)) as [r|] eqn:E; cbn [Datatypes.app map_get fst].
    + rewrite String.eqb_refl. reflexivity.
    + apply map_get_none. intro H. apply Hfresh, Hkeys, H.
  - assert (Hne : k <> name).
    { intros ->. apply Hfresh. apply (in_map fst) in Hin. exact Hin. }
    apply String.eqb_neq in Hne.
    destruct (reasonOf (k, c)) as [r|]; cbn [fst Datatypes.app map_get]; [rewrite Hne|];
      apply IH; assumption.
Qed.

Lemma validate_container_keyed (memoryPerContainer : list (string * Q))
    (acc : list (string * Q) * list (string * option Q) * list (string * string))
    (entry : string * Q) :
  validate_container memoryPerContainer acc entry
  = keyed_step (vpa_cpu_of memoryPerContainer) (vpa_memory_of memoryPerContainer)
               (vpa_reason_of memoryPerContainer) acc entry.
Proof.
  destruct acc as [[a b] d].
  unfold validate_container, keyed_step, vpa_cpu_of, vpa_memory_of, vpa_reason_of,
    verdict_reason.
  destruct (map_get memoryPerContainer (fst entry)) as [m|]; [|reflexivity].
  destruct (negb (Qzerob (snd entry)) && negb (Qzerob m)); [|reflexivity].
  destruct (rv_reason (validateAndAdjustCPUMemoryRatio (snd entry) m));
    destruct (rv_adjusted (validateAndAdjustCPUMemoryRatio (snd entry) m)); reflexivity.
Qed.

Lemma validate_request_container_keyed (memoryPerContainer : list (string * Q))
    (acc : list (string * num) * list (string * num) * list (string * string))
    (entry : string * Q) :
  validate_request_container memoryPerContainer acc entry
  = keyed_step (request_cpu_of memoryPerContainer) (request_memory_of memoryPerContainer)
               (request_reason_of memoryPerContainer) acc entry.
Proof.
  destruct acc as [[a b] d].
  unfold validate_request_container, keyed_step, request_cpu_of, request_memory_of,
    request_reason_of, verdict, verdict_reason.
  destruct (map_get memoryPerContainer (fst entry)) as [m|]; [|reflexivity].
  destruct (negb (Qzerob (snd entry)) && negb (Qzerob m)); [|reflexivity].
  destruct (rv_reason (validateAndAdjustCPUMemoryRatio (snd entry / 1000) m));
    destruct (rv_adjusted (validateAndAdjustCPUMemoryRatio (snd entry / 1000) m));
    reflexivity.
Qed.

(** The three per-container maps of the autoscaler object. *)
Lemma buildVPARecommendations_maps (cpuRecommendations memoryRecommendations : list Series) :
  let cpuPerContainer := extractPerContainerRecommendations cpuRecommendations in
  let memoryPerContainer := extractPerContainerRecommendations memoryRecommendations in
  let vpa := buildVPARecommendations cpuRecommendations memoryRecommendations in
  vpa_cpuPerContainer vpa
  = map (fun e => (fst e, vpa_cpu_of memoryPerContainer e)) cpuPerContainer
  /\ vpa_memoryPerContainer vpa
     = map (fun e => (fst e, vpa_memory_of memoryPerContainer e)) cpuPerContainer
  /\ vpa_adjust_perContainer vpa
     = reasons_of (vpa_reason_of memoryPerContainer) cpuPerContainer.
Proof.
  cbv zeta. unfold buildVPARecommendations.
  rewrite (fold_left_pointwise _ _ _ _
             (validate_container_keyed
                (extractPerContainerRecommendations memoryRecommendations))).
  rewrite keyed_fold by apply recommendation_keys.
  destruct (extractLatestRecommendation cpuRecommendations) as [c|];
    destruct (extractLatestRecommendation memoryRecommendations) as [m|];
    try destruct (negb (Qzerob c) && negb (Qzerob m));
    cbn; repeat split; reflexivity.
Qed.

(* ------------------------------------------------------------------ *)
(** ** The per-container maps of the autoscaler object *)

(** X5. The CPU map and the memory map of the autoscaler object have
    exactly the containers of the CPU recommendation, in the same order; a
    container that has only a memory recommendation is in neither. *)
Theorem vpa_maps_follow_cpu_containers
    (cpuRecommendations memoryRecommendations : list Series) :
  let vpa := buildVPARecommendations cpuRecommendations memoryRecommendations in
  map fst (vpa_cpuPerContainer vpa)
  = map fst (extractPerContainerRecommendations cpuRecommendations)
  /\ map fst (vpa_memoryPerContainer vpa)
     = map fst (extractPerContainerRecommendations cpuRecommendations).
Proof.
  cbv zeta.
  destruct (buildVPARecommendations_maps cpuRecommendations memoryRecommendations)
    as (-> & -> & _).
  rewrite !map_map. cbn [fst]. split; reflexivity.
Qed.

(** X6. A container whose CPU and memory recommendations are both positive
    is stored with the validator's output for that pair, which satisfies
    the ratio bound, and its reason is recorded exactly when the validator
    adjusted. *)
Theorem vpa_container_pairs_validated
    (cpuRecommendations memoryRecommendations : list Series)
    (name : string) (c m : Q) :
  In (name, c) (extractPerContainerRecommendations cpuRecommendations) ->
  In (name, m) (extractPerContainerRecommendations memoryRecommendations) ->
  0 < c -> 0 < m ->
  let vpa := buildVPARecommendations cpuRecommendations memoryRecommendations in
  let r := validateAndAdjustCPUMemoryRatio c m in
  map_get (vpa_cpuPerContainer vpa) name = Some (rv_cpu r)
  /\ map_get (vpa_memoryPerContainer vpa) name = Some (Some (rv_memory r))
  /\ 1 <= memoryGiBPerCpu (rv_cpu r) (rv_memory r) <= 13 # 2
  /\ map_get (vpa_adjust_perContainer vpa) name
     = (if rv_adjusted r then rv_reason r else None).
Proof.
  intros Hc Hm Hcpos Hmpos. cbv zeta.
  destruct (buildVPARecommendations_maps cpuRecommendations memoryRecommendations)
    as (-> & -> & ->).
  pose proof (proj1 (recommendation_keys cpuRecommendations)) as Hndc.
  pose proof (proj1 (recommendation_keys memoryRecommendations)) as Hndm.
  apply (map_in_get _ _ _ Hndm) in Hm.
  assert (Hcz : Qzerob c = false) by (apply Qzerob_false; lra).
  assert (Hmz : Qzerob m = false) by (apply Qzerob_false; lra).
  rewrite (map_get_keyed _ _ _ _ Hndc Hc), (map_get_keyed _ _ _ _ Hndc Hc),
    (map_get_reasons _ _ _ _ Hndc Hc).
  unfold vpa_cpu_of, vpa_memory_of, vpa_reason_of, verdict_reason. cbn [fst snd].
  rewrite Hm, Hcz, Hmz. cbn [negb andb].
  repeat split; try reflexivity;
    apply (validate_output_ratio c m Hcpos (Qlt_le_weak _ _ Hmpos)).
Qed.

(** An instance: one container "app" with 0.015 cores and 16 MiB. *)
Lemma vpa_container_pairs_validated_witness :
  let r := validateAndAdjustCPUMemoryRatio (15 # 1000) (16 * 1024 * 1024) in
  map_get (vpa_cpuPerContainer sample_vpa) "app" = Some (rv_cpu r)
  /\ map_get (vpa_memoryPerContainer sample_vpa) "app" = Some (Some (rv_memory r))
  /\ 1 <= memoryGiBPerCpu (rv_cpu r) (rv_memory r) <= 13 # 2
  /\ map_get (vpa_adjust_perContainer sample_vpa) "app"
     = (if rv_adjusted r then rv_reason r else None).
Proof.
  apply (vpa_container_pairs_validated
           [one_point_series "app" 1700000000 (15 # 1000)]
           [one_point_series "app" 1700000000 (16 * 1024 * 1024)]
           "app" (15 # 1000) (16 * 1024 * 1024)).
  - left. reflexivity.
  - left. reflexivity.
  - reflexivity.
  - reflexivity.
Defined.

(* ------------------------------------------------------------------ *)
(** ** Current requests: totals *)

Lemma validate_never_lowers (c m : Q) :
  0 < c -> 0 <= m ->
  c <= rv_cpu (validateAndAdjustCPUMemoryRatio c m)
  /\ m <= rv_memory (validateAndAdjustCPUMemoryRatio c m).
Proof.
  intros Hc Hm. validator_branch c m H.
  - apply (Qdiv_lt_iff _ _ _ Hc) in H. apply (Qdiv_lt_iff _ _ _ GiB_pos) in H.
    split; lra.
  - split; [|lra]. apply Qdiv_ge_iff; [reflexivity|].
    apply (Qdiv_gt_iff _ _ _ Hc) in H. lra.
  - split; lra.
Qed.

Lemma sum_values_keyed (f : string * Q -> num) (l : list (string * Q)) (s : num) :
  fold_left (fun sum entry => num_add sum (snd entry)) (map (fun e => (fst e, f e)) l) s
  = fold_left (fun sum e => num_add sum (f e)) l s.
Proof.
  revert s. induction l as [|e rest IH]; intro s; [reflexivity|].
  cbn [map fold_left snd]. apply IH.
Qed.

Lemma buildResourceRequests_closed (cpuRequestMetrics memoryRequestMetrics : list Series) :
  let cpuPerContainer := extractPerContainerValues cpuRequestMetrics "cpu" in
  let memoryPerContainer := extractPerContainerValues memoryRequestMetrics "memory" in
  let rr := buildResourceRequests cpuRequestMetrics memoryRequestMetrics in
  rr_cpuPerContainer rr
  = map (fun e => (fst e, request_cpu_of memoryPerContainer e)) cpuPerContainer
  /\ rr_memoryPerContainer rr
     = map (fun e => (fst e, request_memory_of memoryPerContainer e)) cpuPerContainer
  /\ rr_adjust_perContainer rr
     = reasons_of (request_reason_of memoryPerContainer) cpuPerContainer
  /\ (rr_cpuRequest rr, rr_memoryRequest rr, rr_adjust_total rr)
     = validateRequestTotals (sum_values (rr_cpuPerContainer rr))
                             (sum_values (rr_memoryPerContainer rr)).
Proof.
  cbv zeta. unfold buildResourceRequests.
  rewrite (fold_left_pointwise _ _ _ _
             (validate_request_container_keyed
                (extractPerContainerValues memoryRequestMetrics "memory"))).
  rewrite keyed_fold by apply value_keys_nodup.
  destruct (validateRequestTotals _ _) as [[tc tm] reason] eqn:E.
  cbn [rr_cpuPerContainer rr_memoryPerContainer rr_adjust_perContainer
         rr_cpuRequest rr_memoryRequest rr_adjust_total].
  rewrite E. repeat split; reflexivity.
Qed.

(** X7. A container whose CPU request and memory request are both positive
    is reported with the validator's output for the pair (cores, bytes),
    its CPU multiplied by 1000 again; that output satisfies the ratio
    bound, and a reason is recorded for the container exactly when the
    validator adjusted. *)
Theorem request_container_pairs_validated
    (cpuRequestMetrics memoryRequestMetrics : list Series)
    (name : string) (c m : Q) :
  In (name, c) (extractPerContainerValues cpuRequestMetrics "cpu") ->
  In (name, m) (extractPerContainerValues memoryRequestMetrics "memory") ->
  0 < c -> 0 < m ->
  let rr := buildResourceRequests cpuRequestMetrics memoryRequestMetrics in
  let r := validateAndAdjustCPUMemoryRatio (c / 1000) m in
  map_get (rr_cpuPerContainer rr) name = Some (Fin (rv_cpu r * 1000))
  /\ map_get (rr_memoryPerContainer rr) name = Some (Fin (rv_memory r))
  /\ 1 <= memoryGiBPerCpu (rv_cpu r) (rv_memory r) <= 13 # 2
  /\ map_get (rr_adjust_perContainer rr) name
     = (if rv_adjusted r then rv_reason r else None).
Proof.
  intros Hc Hm Hcpos Hmpos. cbv zeta.
  destruct (buildResourceRequests_closed cpuRequestMetrics memoryRequestMetrics)
    as (Ec & Em & Er & _). cbv zeta in Ec, Em, Er. rewrite Ec, Em, Er.
  pose proof (value_keys_nodup cpuRequestMetrics "cpu") as Hndc.
  pose proof (value_keys_nodup memoryRequestMetrics "memory") as Hndm.
  apply (map_in_get _ _ _ Hndm) in Hm.
  assert (Hcz : Qzerob c = false) by (apply Qzerob_false; lra).
  assert (Hmz : Qzerob m = false) by (apply Qzerob_false; lra).
  assert (Hc' : 0 < c / 1000) by (apply Qlt_shift_div_l; [reflexivity | lra]).
  rewrite (map_get_keyed _ _ _ _ Hndc Hc), (map_get_keyed _ _ _ _ Hndc Hc),
    (map_get_reasons _ _ _ _ Hndc Hc).
  unfold request_cpu_of, request_memory_of, request_reason_of, verdict, verdict_reason.
  cbn [fst snd]. rewrite Hm, Hcz, Hmz. cbn [negb andb].
  repeat split; try reflexivity;
    apply (validate_output_ratio (c / 1000) m Hc' (Qlt_le_weak _ _ Hmpos)).
Qed.

(** An instance: "sidecar" requests 50m and 1 GiB, 20 GiB per vCPU; its
    CPU is raised and the reason recorded. *)
Lemma request_container_pairs_validated_witness :
  let rr := buildResourceRequests sample_cpu_requests sample_memory_requests in
  let r := validateAndAdjustCPUMemoryRatio (50 / 1000) (1024 * 1024 * 1024) in
  map_get (rr_cpuPerContainer rr) "sidecar" = Some (Fin (rv_cpu r * 1000))
  /\ map_get (rr_memoryPerContainer rr) "sidecar" = Some (Fin (rv_memory r))
  /\ 1 <= memoryGiBPerCpu (rv_cpu r) (rv_memory r) <= 13 # 2
  /\ map_get (rr_adjust_perContainer rr) "sidecar"
     = (if rv_adjusted r then rv_reason r else None).
Proof.
  apply (request_container_pairs_validated sample_cpu_requests sample_memory_requests
           "sidecar" 50 (1024 * 1024 * 1024)).
  - right. left. reflexivity.
  - right. left. reflexivity.
  - reflexivity.
  - reflexivity.
Defined.

(** The running sums of the loop over fully requested containers: both are
    numbers, and the memory sum is at least the sum of the declared memory
    requests, the validator never lowering the memory of a pair. *)
Lemma request_sums (memoryPerContainer : list (string * Q)) (l : list (string * Q)) :
  fully_requested l memoryPerContainer ->
  forall sc sm rm,
    rm <= sm ->
    exists tc tm,
      fold_left (fun sum e => num_add sum (request_cpu_of memoryPerContainer e)) l (Fin sc)
      = Fin tc
      /\ fold_left (fun sum e => num_add sum (request_memory_of memoryPerContainer e)) l
                   (Fin sm)
         = Fin tm
      /\ sc <= tc
      /\ sm <= tm
      /\ fold_left (fun sum e => sum + snd e)
                   (memory_of_cpu_containers l memoryPerContainer) rm <= tm.
Proof.
  induction l as [|[n c] rest IH]; intros Hfull sc sm rm Hrm.
  - exists sc, sm. cbn. repeat split; try assumption; apply Qle_refl.
  - destruct (Hfull n c (or_introl eq_refl)) as (Hc & m & Hget & Hm).
    assert (Hrest : fully_requested rest memoryPerContainer).
    { intros n' c' Hin. apply (Hfull n' c'). right. exact Hin. }
    assert (Hcz : Qzerob c = false) by (apply Qzerob_false; lra).
    assert (Hmz : Qzerob m = false) by (apply Qzerob_false; lra).
    assert (Hv : verdict 1000 memoryPerContainer (n, c)
                 = Some (validateAndAdjustCPUMemoryRatio (c / 1000) m)).
    { unfold verdict. cbn [fst snd]. rewrite Hget, Hcz, Hmz. reflexivity. }
    assert (Hc' : 0 < c / 1000) by (apply Qlt_shift_div_l; [reflexivity | lra]).
    destruct (validate_never_lowers (c / 1000) m Hc' (Qlt_le_weak _ _ Hm)) as [Lc Lm].
    set (r := validateAndAdjustCPUMemoryRatio (c / 1000) m) in *.
    cbn [fold_left memory_of_cpu_containers flat_map fst snd].
    fold (memory_of_cpu_containers rest memoryPerContainer).
    assert (Ec : request_cpu_of memoryPerContainer (n, c) = Fin (rv_cpu r * 1000))
      by (unfold request_cpu_of; rewrite Hv; reflexivity).
    assert (Em : request_memory_of memoryPerContainer (n, c) = Fin (rv_memory r))
      by (unfold request_memory_of; rewrite Hv; reflexivity).
    rewrite Ec, Em, Hget. cbn [num_add Datatypes.app fold_left snd].
    destruct (IH Hrest (sc + rv_cpu r * 1000) (sm + rv_memory r) (rm + m))
      as (tc & tm & E1 & E2 & Hlec & Hlem & Hraw); [lra|].
    exists tc, tm. set (x := c / 1000) in *. clearbody x.
    repeat split; try assumption; lra.
Qed.

(** X8. When every CPU container has a positive CPU request and a positive
    memory request, the reported memory request is a number and is never
    below the sum of the containers' declared memory requests: neither the
    per-container validation nor the validation of the totals lowers
    memory.  (No such bound is stated for the CPU request, which the code
    divides by 1000 and multiplies by 1000 again.) *)
Theorem reported_memory_request_covers_declared
    (cpuRequestMetrics memoryRequestMetrics : list Series) :
  let cpuPerContainer := extractPerContainerValues cpuRequestMetrics "cpu" in
  let memoryPerContainer := extractPerContainerValues memoryRequestMetrics "memory" in
  let rr := buildResourceRequests cpuRequestMetrics memoryRequestMetrics in
  fully_requested cpuPerContainer memoryPerContainer ->
  exists rm,
    rr_memoryRequest rr = Fin rm
    /\ total (memory_of_cpu_containers cpuPerContainer memoryPerContainer) <= rm.
Proof.
  cbv zeta. intro Hfull.
  destruct (buildResourceRequests_closed cpuRequestMetrics memoryRequestMetrics)
    as (Ec & Em & _ & Et). cbv zeta in Ec, Em, Et.
  rewrite Ec, Em in Et. unfold sum_values in Et. rewrite !sum_values_keyed in Et.
  destruct (request_sums _ _ Hfull 0 0 0 (Qle_refl 0))
    as (tc & tm & E1 & E2 & Hc0 & Hm0 & Hraw).
  rewrite E1, E2 in Et. unfold validateRequestTotals in Et.
  fold (total (memory_of_cpu_containers
                 (extractPerContainerValues cpuRequestMetrics "cpu")
                 (extractPerContainerValues memoryRequestMetrics "memory"))) in Hraw.
  destruct (negb (Qzerob tc) && negb (Qzerob tm)) eqn:Enz.
  - apply andb_true_iff in Enz. destruct Enz as [Ez _].
    apply negb_true_iff, Qzerob_false in Ez.
    assert (Htc : 0 < tc / 1000) by (apply Qlt_shift_div_l; [reflexivity | lra]).
    destruct (validate_never_lowers (tc / 1000) tm Htc Hm0) as [_ Lm].
    injection Et as _ Eb _. rewrite Eb. eexists. split; [reflexivity|].
    apply Qle_trans with tm; assumption.
  - injection Et as _ Eb _. rewrite Eb. exists tm. split; [reflexivity | exact Hraw].
Qed.

Lemma sample_requests_full :
  fully_requested (extractPerContainerValues sample_cpu_requests "cpu")
                  (extractPerContainerValues sample_memory_requests "memory").
Proof.
  intros name cpu Hin. vm_compute in Hin.
  destruct Hin as [H | [H | []]]; injection H as <- <-;
    (split; [reflexivity | eexists; split; [vm_compute; reflexivity | reflexivity]]).
Defined.

(** An instance: "app" (250m, 256 MiB) and "sidecar" (50m, 1 GiB) declare
    1280 MiB in total. *)
Lemma reported_memory_request_covers_declared_witness :
  let rr := buildResourceRequests sample_cpu_requests sample_memory_requests in
  exists rm,
    rr_memoryRequest rr = Fin rm
    /\ total (memory_of_cpu_containers
                (extractPerContainerValues sample_cpu_requests "cpu")
                (extractPerContainerValues sample_memory_requests "memory")) <= rm.
Proof.
  apply (reported_memory_request_covers_declared sample_cpu_requests sample_memory_requests).
  exact sample_requests_full.
Defined.

Lemma sum_from_nan (f : string * Q -> num) (l : list (string * Q)) :
  fold_left (fun sum e => num_add sum (f e)) l NaN = NaN.
Proof. induction l as [|e rest IH]; [reflexivity | exact IH]. Qed.

Lemma sum_with_nan (f : string * Q -> num) (l : list (string * Q)) (e : string * Q)
    (s : num) :
  In e l -> f e = NaN -> fold_left (fun sum e => num_add sum (f e)) l s = NaN.
Proof.
  revert s. induction l as [|e' rest IH]; intros s Hin He; [contradiction|].
  cbn [fold_left]. destruct Hin as [-> | Hin].
  - rewrite He. destruct s; cbn [num_add]; apply sum_from_nan.
  - apply IH; assumption.
Qed.

(** X9. When a container of the CPU request series has no memory request
    value, the reported memory total is NaN, the totals are not validated,
    and every consumer of the memory request falls back to its default. *)
Theorem missing_memory_request_gives_nan
    (cpuRequestMetrics memoryRequestMetrics : list Series) (name : string) (cpu : Q) :
  let rr := buildResourceRequests cpuRequestMetrics memoryRequestMetrics in
  In (name, cpu) (extractPerContainerValues cpuRequestMetrics "cpu") ->
  map_get (extractPerContainerValues memoryRequestMetrics "memory") name = None ->
  rr_memoryRequest rr = NaN
  /\ rr_adjust_total rr = None
  /\ rr_cpuRequest rr = sum_values (rr_cpuPerContainer rr)
  /\ forall d, num_or (rr_memoryRequest rr) d = d.
Proof.
  cbv zeta. intros Hin Hget.
  destruct (buildResourceRequests_closed cpuRequestMetrics memoryRequestMetrics)
    as (Ec & Em & _ & Et). cbv zeta in Ec, Em, Et.
  assert (Hnan : sum_values
                   (rr_memoryPerContainer
                      (buildResourceRequests cpuRequestMetrics memoryRequestMetrics))
                 = NaN).
  { rewrite Em. unfold sum_values. rewrite sum_values_keyed.
    apply (sum_with_nan _ _ (name, cpu)); [exact Hin|].
    unfold request_memory_of, verdict. cbn [fst]. rewrite Hget. reflexivity. }
  rewrite Hnan in Et. unfold validateRequestTotals in Et.
  destruct (sum_values (rr_cpuPerContainer _)) as [tc|] eqn:Esum;
    injection Et as Ea Eb Ed; rewrite Ea, Eb, Ed; repeat split; reflexivity.
Qed.

(** An instance: "sidecar" has a CPU request and no memory request. *)
Lemma missing_memory_request_gives_nan_witness :
  let rr := buildResourceRequests sample_cpu_requests sample_memory_requests_partial in
  rr_memoryRequest rr = NaN
  /\ rr_adjust_total rr = None
  /\ rr_cpuRequest rr = sum_values (rr_cpuPerContainer rr)
  /\ forall d, num_or (rr_memoryRequest rr) d = d.
Proof.
  apply (missing_memory_request_gives_nan
           sample_cpu_requests sample_memory_requests_partial "sidecar" 50).
  - right. left. reflexivity.
  - reflexivity.
Defined.

(* ------------------------------------------------------------------ *)
(** ** Replica counting *)

Lemma set_add_spec (p : string) (u : list string) :
  (NoDup u -> NoDup (set_add p u))
  /\ (forall x, In x (set_add p u) <-> In x u \/ x = p).
Proof.
  unfold set_add. destruct (existsb (String.eqb p) u) eqn:E.
  - apply existsb_exists in E. destruct E as (y & Hy & Heq).
    apply String.eqb_eq in Heq. subst y.
    split; [tauto|]. intro x. split; [tauto|]. intros [H | ->]; assumption.
  - split.
    + intro Hnd. apply NoDup_app; [exact Hnd | repeat constructor; intros [] |].
      intros x Hx [-> | []].
      assert (existsb (String.eqb x) u = true); [|congruence].
      apply existsb_exists. exists x. split; [exact Hx | apply String.eqb_refl].
    + intro x. rewrite in_app_iff. cbn [In]. intuition congruence.
Qed.

Lemma fold_set_add (l u : list string) :
  NoDup u ->
  NoDup (fold_left (fun u p => set_add p u) l u)
  /\ (forall x, In x (fold_left (fun u p => set_add p u) l u) <-> In x u \/ In x l).
Proof.
  revert u. induction l as [|p rest IH]; intros u Hnd; cbn [fold_left In].
  - split; [exact Hnd | tauto].
  - destruct (set_add_spec p u) as [Hnd' Hin].
    destruct (IH _ (Hnd' Hnd)) as [Hres Hmem].
    split; [exact Hres|]. intro x. rewrite Hmem, Hin. intuition congruence.
Qed.

Lemma scan_pods_unique (typeOf : PodSeries -> option string) (metrics : list PodSeries)
    (u : list string) (t : string) :
  fst (fold_left
         (fun state series =>
            let '(uniquePods, workloadType) := state in
            let workloadType :=
              if String.eqb workloadType "" || String.eqb workloadType "Unknown" then
                match typeOf series with
                | Some controllerType => controllerType
                | None => workloadType
                end
              else workloadType in
            let uniquePods :=
              match pod_name series with
              | Some podName =>
                  if String.eqb podName "" then uniquePods else set_add podName uniquePods
              | None => uniquePods
              end in
            (uniquePods, workloadType))
         metrics (u, t))
  = fold_left (fun u p => set_add p u) (pod_names metrics) u.
Proof.
  revert u t. induction metrics as [|s rest IH]; intros u t; [reflexivity|].
  cbn [fold_left pod_names flat_map]. rewrite IH, fold_left_app.
  destruct (pod_name s) as [p|]; [|reflexivity].
  destruct (String.eqb p ""); reflexivity.
Qed.

(** The set built by the scan has as many elements as there are distinct
    pod names. *)
Lemma scan_pods_count (typeOf : PodSeries -> option string) (metrics : list PodSeries) :
  List.length (fst (scan_pods typeOf metrics)) = distinct_pods metrics.
Proof.
  unfold scan_pods, distinct_pods. rewrite scan_pods_unique.
  destruct (fold_set_add (pod_names metrics) [] (NoDup_nil _)) as [Hnd Hmem].
  apply Nat.le_antisymm; apply NoDup_incl_length.
  - exact Hnd.
  - intros x Hx. apply nodup_In. apply Hmem in Hx. destruct Hx as [[] | Hx]. exact Hx.
  - apply NoDup_nodup.
  - intros x Hx. apply nodup_In in Hx. apply Hmem. right. exact Hx.
Qed.

Lemma first_truthy_nonempty (candidates : list (option string)) (s : string) :
  first_truthy candidates = Some s -> s <> "".
Proof.
  induction candidates as [|[c|] rest IH]; cbn [first_truthy]; [discriminate | | exact IH].
  destruct (String.eqb c "") eqn:E; [exact IH|].
  intro H. injection H as <-. apply String.eqb_neq. exact E.
Qed.

Lemma scan_pods_type (typeOf : PodSeries -> option string) (metrics : list PodSeries) :
  (forall series s, typeOf series = Some s -> s <> "") ->
  snd (scan_pods typeOf metrics) <> "".
Proof.
  intro Htype. unfold scan_pods.
  assert (H : forall (u : list string) (t : string), t <> "" ->
                snd (fold_left
                       (fun state series =>
                          let '(uniquePods, workloadType) := state in
                          let workloadType :=
                            if String.eqb workloadType "" || String.eqb workloadType "Unknown"
                            then match typeOf series with
                                 | Some controllerType => controllerType
                                 | None => workloadType
                                 end
                            else workloadType in
                          let uniquePods :=
                            match pod_name series with
                            | Some podName =>
                                if String.eqb podName "" then uniquePods
                                else set_add podName uniquePods
                            | None => uniquePods
                            end in
                          (uniquePods, workloadType))
                       metrics (u, t)) <> "").
  { induction metrics as [|s rest IH]; intros u t Ht; [exact Ht|].
    cbn [fold_left]. apply IH.
    destruct (String.eqb t "" || String.eqb t "Unknown"); [|exact Ht].
    destruct (typeOf s) as [c|] eqn:E; [apply (Htype _ _ E) | exact Ht]. }
  apply H. discriminate.
Qed.

Lemma Qltb_nat (x y : nat) :
  Qltb (inject_Z (Z.of_nat x)) (inject_Z (Z.of_nat y)) = (x <? y)%nat.
Proof.
  destruct (x <? y)%nat eqn:E.
  - apply Nat.ltb_lt in E. apply Qltb_lt. rewrite <- Zlt_Qlt. lia.
  - apply Nat.ltb_ge in E. apply Qltb_ge. rewrite <- Zle_Qle. lia.
Qed.

Lemma alternative_count (alternativeFetch : Result (list PodSeries)) :
  ri_count (replicaCountAlternativeFrom alternativeFetch)
  = inject_Z (Z.of_nat (alternative_pods alternativeFetch)).
Proof.
  destruct alternativeFetch as [e | cpuMetrics]; [reflexivity|].
  unfold replicaCountAlternativeFrom, alternative_pods.
  rewrite <- (scan_pods_count controller_type_alternative).
  destruct (scan_pods controller_type_alternative cpuMetrics). reflexivity.
Qed.

Lemma running_count (replicaMetrics : list PodSeries)
    (alternativeFetch : Result (list PodSeries)) :
  let n := distinct_pods replicaMetrics in
  let a := alternative_pods alternativeFetch in
  ri_count (runningReplicaCountFrom (inr replicaMetrics) alternativeFetch)
  = inject_Z (Z.of_nat (if (n <? 3)%nat then Nat.max 1 (Nat.max n a) else n)).
Proof.
  cbv zeta. unfold runningReplicaCountFrom.
  rewrite <- (scan_pods_count controller_type_primary).
  destruct (scan_pods controller_type_primary replicaMetrics) as [uniquePods workloadType].
  cbn [fst]. set (n := List.length uniquePods).
  change 3 with (inject_Z (Z.of_nat 3)). rewrite Qltb_nat.
  unfold Qgtb. rewrite alternative_count, Qltb_nat.
  set (a := alternative_pods alternativeFetch).
  assert (Hor : Q_or (inject_Z (Z.of_nat n)) 1 = inject_Z (Z.of_nat (Nat.max 1 n))).
  { destruct n as [|n']; [reflexivity|].
    unfold Q_or. replace (Qzerob (inject_Z (Z.of_nat (S n')))) with false.
    - reflexivity.
    - symmetry. apply Qzerob_false. intro H.
      unfold Qeq, inject_Z in H. cbn [Qnum Qden] in H. lia. }
  destruct (n <? 3)%nat eqn:E3.
  - destruct (n <? a)%nat eqn:Ea; cbn [ri_count].
    + apply Nat.ltb_lt in Ea. f_equal. f_equal. lia.
    + apply Nat.ltb_ge in Ea. rewrite Hor. f_equal. f_equal. lia.
  - cbn [ri_count]. apply Nat.ltb_ge in E3. rewrite Hor. f_equal. f_equal. lia.
Qed.

(** X10. When its first query answers, getRunningReplicaCount reports the
    number n of distinct pod names of the answer if n >= 3; otherwise the
    largest of n, the number the alternative query finds (0 when that query
    fails) and 1.  With three or more pods the alternative has no effect. *)
Theorem running_replica_count_value (replicaMetrics : list PodSeries)
    (alternativeFetch : Result (list PodSeries)) :
  let n := distinct_pods replicaMetrics in
  let a := alternative_pods alternativeFetch in
  ri_count (runningReplicaCountFrom (inr replicaMetrics) alternativeFetch)
  = inject_Z (Z.of_nat (if (n <? 3)%nat then Nat.max 1 (Nat.max n a) else n)).
Proof. exact (running_count replicaMetrics alternativeFetch). Qed.

(** X11. getRunningReplicaCount never reports fewer than one replica and
    never an empty type, whatever its two queries return or however they
    fail. *)
Theorem running_replica_count_at_least_one
    (replicaFetch alternativeFetch : Result (list PodSeries)) :
  1 <= ri_count (runningReplicaCountFrom replicaFetch alternativeFetch)
  /\ ri_type (runningReplicaCountFrom replicaFetch alternativeFetch) <> "".
Proof.
  destruct replicaFetch as [e | replicaMetrics].
  - split; [discriminate | discriminate].
  - split.
    + rewrite running_count. change 1 with (inject_Z (Z.of_nat 1)).
      rewrite <- Zle_Qle.
      destruct (distinct_pods replicaMetrics <? 3)%nat eqn:E; [lia|].
      apply Nat.ltb_ge in E. lia.
    + unfold runningReplicaCountFrom.
      pose proof (scan_pods_type controller_type_primary replicaMetrics
                    (fun series s H => first_truthy_nonempty _ s H)) as Hp.
      destruct (scan_pods controller_type_primary replicaMetrics) as [u t].
      cbn [snd] in Hp.
      destruct (Qltb _ 3); [|exact Hp].
      destruct (Qgtb _ _); [|exact Hp].
      cbn [ri_type]. unfold string_or.
      destruct (String.eqb (ri_type (replicaCountAlternativeFrom alternativeFetch)) "")
        eqn:E; [exact Hp|].
      apply String.eqb_neq. exact E.
Qed.

Lemma alternative_type_nonempty (alternativeFetch : Result (list PodSeries)) :
  ri_type (replicaCountAlternativeFrom alternativeFetch) <> "".
Proof.
  destruct alternativeFetch as [e | cpuMetrics]; [discriminate|].
  unfold replicaCountAlternativeFrom.
  pose proof (scan_pods_type controller_type_alternative cpuMetrics
                (fun series s H => first_truthy_nonempty _ s H)) as Hp.
  destruct (scan_pods controller_type_alternative cpuMetrics) as [u t]. exact Hp.
Qed.

(** X12. When the first query finds fewer than three pods and the
    alternative finds more, the reported type is the alternative's, also
    when the alternative found no type ('Unknown') and the first query had
    found one. *)
Theorem running_replica_type_from_alternative (replicaMetrics : list PodSeries)
    (alternativeFetch : Result (list PodSeries)) :
  (distinct_pods replicaMetrics < 3)%nat ->
  (distinct_pods replicaMetrics < alternative_pods alternativeFetch)%nat ->
  ri_type (runningReplicaCountFrom (inr replicaMetrics) alternativeFetch)
  = ri_type (replicaCountAlternativeFrom alternativeFetch).
Proof.
  intros H3 Ha. unfold runningReplicaCountFrom.
  rewrite <- (scan_pods_count controller_type_primary) in H3, Ha.
  destruct (scan_pods controller_type_primary replicaMetrics) as [uniquePods workloadType].
  cbn [fst] in H3, Ha.
  change 3 with (inject_Z (Z.of_nat 3)). rewrite Qltb_nat.
  unfold Qgtb. rewrite alternative_count, Qltb_nat.
  rewrite (proj2 (Nat.ltb_lt _ _) H3), (proj2 (Nat.ltb_lt _ _) Ha).
  cbn [ri_type]. unfold string_or.
  pose proof (alternative_type_nonempty alternativeFetch) as Hne.
  apply String.eqb_neq in Hne. rewrite Hne. reflexivity.
Qed.

(** An instance: the first query finds one pod of a Deployment, the
    alternative two pods and no type: the type reported is 'Unknown'. *)
Lemma running_replica_type_from_alternative_witness :
  ri_type (runningReplicaCountFrom
             (inr [pod_series "web-1" (Some "Deployment")])
             (inr [pod_series "web-1" None; pod_series "web-2" None]))
  = ri_type (replicaCountAlternativeFrom
               (inr [pod_series "web-1" None; pod_series "web-2" None])).
Proof.
  apply (running_replica_type_from_alternative
           [pod_series "web-1" (Some "Deployment")]
           (inr [pod_series "web-1" None; pod_series "web-2" None])).
  - vm_compute. lia.
  - vm_compute. lia.
Defined.

(* ------------------------------------------------------------------ *)
(** ** CacheLayer: keys identify queries *)

Lemma append_assoc_string (a b c : string) :
  ((a ++ b) ++ c)%string = (a ++ (b ++ c))%string.
Proof.
  induction a as [|ch a IH]; cbn [append]; [reflexivity | rewrite IH; reflexivity].
Qed.

Lemma append_prefix_inj (a x y : string) :
  (a ++ x)%string = (a ++ y)%string -> x = y.
Proof.
  induction a as [|ch a IH]; cbn [append]; intro H; [exact H|].
  injection H as H. apply IH. exact H.
Qed.

Lemma underscore_found (a b : string) :
  no_underscore (a ++ String "_" b) = false.
Proof.
  unfold no_underscore. induction a as [|ch a IH]; cbn [append all_chars].
  - reflexivity.
  - rewrite IH. apply andb_false_r.
Qed.

(** Reading a key from the left: a field without underscore ends at the
    first underscore. *)
Lemma split_first (a b x y : string) :
  no_underscore a = true -> no_underscore b = true ->
  (a ++ String "_" x)%string = (b ++ String "_" y)%string -> a = b /\ x = y.
Proof.
  revert b. induction a as [|ch a IH]; intros b Ha Hb H.
  - destruct b as [|ch' b]; cbn [append] in H.
    + injection H as H. split; [reflexivity | exact H].
    + injection H as Hch _. subst ch'. unfold no_underscore in Hb.
      cbn [all_chars] in Hb. discriminate Hb.
  - destruct b as [|ch' b]; cbn [append] in H.
    + injection H as Hch _. subst ch. unfold no_underscore in Ha.
      cbn [all_chars] in Ha. discriminate Ha.
    + injection H as Hch H. subst ch'.
      unfold no_underscore in Ha, Hb. cbn [all_chars] in Ha, Hb.
      apply andb_true_iff in Ha. apply andb_true_iff in Hb.
      destruct (IH b (proj2 Ha) (proj2 Hb) H) as [-> ->]. split; reflexivity.
Qed.

(** Reading a key from the right: a last field without underscore starts
    after the last underscore. *)
Lemma split_last (x x' e e' : string) :
  no_underscore e = true -> no_underscore e' = true ->
  (x ++ String "_" e)%string = (x' ++ String "_" e')%string -> x = x' /\ e = e'.
Proof.
  revert x'. induction x as [|ch x IH]; intros x' He He' H.
  - destruct x' as [|ch' x']; cbn [append] in H.
    + injection H as H. split; [reflexivity | exact H].
    + injection H as _ H. rewrite H, underscore_found in He. discriminate He.
  - destruct x' as [|ch' x']; cbn [append] in H.
    + injection H as _ H. rewrite <- H, underscore_found in He'. discriminate He'.
    + injection H as Hch H. subst ch'.
      destruct (IH x' He He' H) as [-> ->]. split; reflexivity.
Qed.

Lemma digits_no_underscore (d : uint) : no_underscore (NilEmpty.string_of_uint d) = true.
Proof.
  unfold no_underscore. induction d; cbn [NilEmpty.string_of_uint all_chars];
    try reflexivity; rewrite IHd; reflexivity.
Qed.

Lemma decimal_no_underscore (n : N) : no_underscore (decimal n) = true.
Proof.
  unfold decimal, NilZero.string_of_uint.
  destruct (N.to_uint n); try reflexivity; apply digits_no_underscore.
Qed.

Lemma to_uint_not_nil (n : N) : N.to_uint n <> Nil.
Proof.
  destruct n as [|p]; [discriminate|].
  unfold N.to_uint. intro H.
  pose proof (DecimalPos.Unsigned.of_to p) as E. rewrite H in E. discriminate E.
Qed.

Lemma decimal_inj (n m : N) : decimal n = decimal m -> n = m.
Proof.
  unfold decimal. intro H.
  pose proof (NilZero.usu _ (to_uint_not_nil n)) as En.
  pose proof (NilZero.usu _ (to_uint_not_nil m)) as Em.
  rewrite H, Em in En. injection En as En.
  rewrite <- (Unsigned.of_to n), <- (Unsigned.of_to m), En. reflexivity.
Qed.

(** An identifier accepted by the pattern of the endpoint has no underscore. *)
Lemma valid_identifier_no_underscore (s : string) :
  valid_identifier s = true -> no_underscore s = true.
Proof.
  unfold valid_identifier, no_underscore. intro H.
  apply andb_true_iff in H. destruct H as [_ H].
  induction s as [|c s IH]; [reflexivity|].
  cbn [all_chars] in H |- *. apply andb_true_iff in H. destruct H as [Hc Hs].
  rewrite (IH Hs), andb_true_r.
  destruct (Ascii.eqb c "_") eqn:E; [|reflexivity].
  apply Ascii.eqb_eq in E. subst c. discriminate Hc.
Qed.

(** X13. Two queries whose project, cluster, namespace (or 'all') and
    workload (or 'all') hold no underscore get the same metrics cache key
    only if they agree on all of these, on the metric type and on both
    times. *)
Theorem metrics_cache_key_identifies_query
    (p1 c1 : string) (n1 w1 : option string) (m1 : string) (s1 e1 : N)
    (p2 c2 : string) (n2 w2 : option string) (m2 : string) (s2 e2 : N) :
  no_underscore p1 = true -> no_underscore c1 = true ->
  no_underscore (string_or n1 "all") = true -> no_underscore (string_or w1 "all") = true ->
  no_underscore p2 = true -> no_underscore c2 = true ->
  no_underscore (string_or n2 "all") = true -> no_underscore (string_or w2 "all") = true ->
  metricsCacheKey p1 c1 n1 w1 m1 s1 e1 = metricsCacheKey p2 c2 n2 w2 m2 s2 e2 ->
  p1 = p2 /\ c1 = c2
  /\ string_or n1 "all" = string_or n2 "all" /\ string_or w1 "all" = string_or w2 "all"
  /\ m1 = m2 /\ s1 = s2 /\ e1 = e2.
Proof.
  intros Hp1 Hc1 Hn1 Hw1 Hp2 Hc2 Hn2 Hw2 H.
  unfold metricsCacheKey in H. apply append_prefix_inj in H. cbn [append] in H.
  apply split_first in H; [|assumption..]. destruct H as [Ep H].
  apply split_first in H; [|assumption..]. destruct H as [Ec H].
  apply split_first in H; [|assumption..]. destruct H as [En H].
  apply split_first in H; [|assumption..]. destruct H as [Ew H].
  change (String "_" (decimal s1 ++ String "_" (decimal e1)))%string
    with (String "_" (decimal s1) ++ String "_" (decimal e1))%string in H.
  change (String "_" (decimal s2 ++ String "_" (decimal e2)))%string
    with (String "_" (decimal s2) ++ String "_" (decimal e2))%string in H.
  rewrite <- !append_assoc_string in H.
  apply split_last in H; [|apply decimal_no_underscore..]. destruct H as [H Ee].
  apply split_last in H; [|apply decimal_no_underscore..]. destruct H as [Em Es].
  apply decimal_inj in Es. apply decimal_inj in Ee.
  repeat split; assumption.
Qed.

(** An instance: the CPU usage query for "web" in every namespace. *)
Lemma metrics_cache_key_identifies_query_witness :
  "proj" = "proj" /\ "cluster" = "cluster"
  /\ string_or None "all" = string_or (Some "all") "all"
  /\ string_or (Some "web") "all" = string_or (Some "web") "all"
  /\ metric_cpu_usage = metric_cpu_usage
  /\ 1700000000000%N = 1700000000000%N /\ 1700003600000%N = 1700003600000%N.
Proof.
  apply (metrics_cache_key_identifies_query
           "proj" "cluster" None (Some "web") metric_cpu_usage
           1700000000000 1700003600000
           "proj" "cluster" (Some "all") (Some "web") metric_cpu_usage
           1700000000000 1700003600000); reflexivity.
Defined.

(** X14. The same for the key of the cached autoscaler object, which carries
    the start time only. *)
Theorem vpa_cache_key_identifies_query
    (p1 c1 : string) (n1 w1 : option string) (s1 : N)
    (p2 c2 : string) (n2 w2 : option string) (s2 : N) :
  no_underscore p1 = true -> no_underscore c1 = true ->
  no_underscore (string_or n1 "all") = true -> no_underscore (string_or w1 "all") = true ->
  no_underscore p2 = true -> no_underscore c2 = true ->
  no_underscore (string_or n2 "all") = true -> no_underscore (string_or w2 "all") = true ->
  vpaCacheKey p1 c1 n1 w1 s1 = vpaCacheKey p2 c2 n2 w2 s2 ->
  p1 = p2 /\ c1 = c2
  /\ string_or n1 "all" = string_or n2 "all" /\ string_or w1 "all" = string_or w2 "all"
  /\ s1 = s2.
Proof.
  intros Hp1 Hc1 Hn1 Hw1 Hp2 Hc2 Hn2 Hw2 H.
  unfold vpaCacheKey in H. apply append_prefix_inj in H. cbn [append] in H.
  apply split_first in H; [|assumption..]. destruct H as [Ep H].
  apply split_first in H; [|assumption..]. destruct H as [Ec H].
  apply split_first in H; [|assumption..]. destruct H as [En H].
  apply split_first in H; [|assumption..]. destruct H as [Ew Es].
  apply decimal_inj in Es. repeat split; assumption.
Qed.

Lemma vpa_cache_key_identifies_query_witness :
  "proj" = "proj" /\ "cluster" = "cluster"
  /\ string_or (Some "production") "all" = string_or (Some "production") "all"
  /\ string_or (Some "web") "all" = string_or (Some "web") "all"
  /\ 1700000000000%N = 1700000000000%N.
Proof.
  apply (vpa_cache_key_identifies_query
           "proj" "cluster" (Some "production") (Some "web") 1700000000000
           "proj" "cluster" (Some "production") (Some "web") 1700000000000);
    reflexivity.
Defined.

(* ------------------------------------------------------------------ *)
(** ** RatioValidator: the flag and the reason *)

(** X15. For cpuCores > 0 and memoryBytes >= 0 the validator reports
    adjusted = false exactly when the input ratio is within the bound, a
    reason exactly when it reports adjusted = true, and an adjustment raises
    exactly one of the two resources and returns the other as given. *)
Theorem ratio_validator_flag_is_accurate (cpuCores memoryBytes : Q) :
  0 < cpuCores -> 0 <= memoryBytes ->
  let r := validateAndAdjustCPUMemoryRatio cpuCores memoryBytes in
  (rv_adjusted r = false <-> 1 <= memoryGiBPerCpu cpuCores memoryBytes <= 13 # 2)
  /\ (rv_reason r = None <-> rv_adjusted r = false)
  /\ (rv_adjusted r = true ->
      (rv_cpu r = cpuCores /\ memoryBytes < rv_memory r)
      \/ (rv_memory r = memoryBytes /\ cpuCores < rv_cpu r)).
Proof.
  intros Hc Hm. cbv zeta. unfold memoryGiBPerCpu.
  validator_branch cpuCores memoryBytes H.
  - split; [|split].
    + split; [discriminate|]. intros [Hlo _]. exfalso. apply (Qlt_not_le _ _ H Hlo).
    + split; discriminate.
    + intros _. left. split; [reflexivity|].
      apply (Qdiv_lt_iff _ _ _ Hc) in H. apply (Qdiv_lt_iff _ _ _ GiB_pos) in H. lra.
  - split; [|split].
    + split; [discriminate|]. intros [_ Hhi]. exfalso. apply (Qlt_not_le _ _ H Hhi).
    + split; discriminate.
    + intros _. right. split; [reflexivity|].
      apply Qdiv_gt_iff; [reflexivity|]. apply (Qdiv_gt_iff _ _ _ Hc) in H. lra.
  - split; [|split].
    + split; [intros _; exact H | reflexivity].
    + split; reflexivity.
    + discriminate.
Qed.

(** An instance: 1 vCPU with 8 GiB, for which the CPU is raised. *)
Lemma ratio_validator_flag_is_accurate_witness :
  let r := validateAndAdjustCPUMemoryRatio 1 (8 * 1024 * 1024 * 1024) in
  (rv_adjusted r = false <-> 1 <= memoryGiBPerCpu 1 (8 * 1024 * 1024 * 1024) <= 13 # 2)
  /\ (rv_reason r = None <-> rv_adjusted r = false)
  /\ (rv_adjusted r = true ->
      (rv_cpu r = 1 /\ 8 * 1024 * 1024 * 1024 < rv_memory r)
      \/ (rv_memory r = 8 * 1024 * 1024 * 1024 /\ 1 < rv_cpu r)).
Proof.
  apply (ratio_validator_flag_is_accurate 1 (8 * 1024 * 1024 * 1024)).
  - reflexivity.
  - discriminate.
Defined.

(* ------------------------------------------------------------------ *)
(** ** Rounding to practical increments *)

Section RoundUp.

(** The increment: 10 (millicores) or 16 MiB (bytes). *)
Context (u : Q) (Hu : 0 < u) (Hone : inject_Z 1 * u = u).

Lemma round_up_multiple (x : Q) :
  exists k : Z, (1 <= k)%Z /\ Math_max u (Math_ceil (x / u) * u) = inject_Z k * u.
Proof.
  unfold Math_max, Math_ceil.
  destruct (Qle_bool u (inject_Z (Qceiling (x / u)) * u)) eqn:E.
  - exists (Qceiling (x / u)). split; [|reflexivity].
    apply Qle_bool_iff in E.
    assert (H : 1 <= inject_Z (Qceiling (x / u))).
    { apply (Qmult_le_r _ _ u Hu). lra. }
    change 1 with (inject_Z 1) in H. rewrite <- Zle_Qle in H. exact H.
  - exists 1%Z. split; [lia | symmetry; exact Hone].
Qed.

Lemma round_up_fixed (k : Z) :
  (1 <= k)%Z ->
  Math_max u (Math_ceil (inject_Z k * u / u) * u) = inject_Z k * u.
Proof.
  intro Hk. unfold Math_max, Math_ceil.
  assert (E : inject_Z k * u / u == inject_Z k) by (field; lra).
  assert (Ec : Qceiling (inject_Z k * u / u) = k) by (rewrite E; apply Qceiling_Z).
  rewrite Ec.
  assert (Hle : u <= inject_Z k * u).
  { rewrite Zle_Qle in Hk. change (inject_Z 1) with 1 in Hk.
    setoid_replace u with (1 * u) at 1 by ring.
    apply Qmult_le_compat_r; [exact Hk | lra]. }
  apply Qle_bool_iff in Hle. rewrite Hle. reflexivity.
Qed.

Lemma round_up_idempotent (x : Q) :
  Math_max u (Math_ceil (Math_max u (Math_ceil (x / u) * u) / u) * u)
  = Math_max u (Math_ceil (x / u) * u).
Proof.
  destruct (round_up_multiple x) as (k & Hk & ->). apply round_up_fixed. exact Hk.
Qed.

End RoundUp.

Lemma roundUpTo10m_multiple (x : Q) :
  exists k : Z, (1 <= k)%Z /\ roundUpTo10m x = inject_Z k * 10.
Proof. apply (round_up_multiple 10); reflexivity. Qed.

Lemma roundUpTo16Mi_multiple (x : Q) :
  exists k : Z, (1 <= k)%Z /\ roundUpTo16Mi x = inject_Z k * (16 * mebibyte).
Proof. apply (round_up_multiple (16 * mebibyte)); reflexivity. Qed.

(** X16. Rounding a value that is already rounded changes nothing, for the
    10m increment of CPU and for the 16 MiB increment of memory. *)
Theorem rounding_is_idempotent (x : Q) :
  roundUpTo10m (roundUpTo10m x) = roundUpTo10m x
  /\ roundUpTo16Mi (roundUpTo16Mi x) = roundUpTo16Mi x.
Proof.
  split.
  - apply (round_up_idempotent 10); reflexivity.
  - apply (round_up_idempotent (16 * mebibyte)); reflexivity.
Qed.

(* ------------------------------------------------------------------ *)
(** ** RecommendationSynthesizer: the usage fallback, continued *)

Lemma insert_ascending_in (x y : Q) (l : list Q) :
  In x (insert_ascending y l) <-> x = y \/ In x l.
Proof.
  induction l as [|z rest IH]; cbn [insert_ascending In]; [intuition congruence|].
  destruct (Qle_bool y z); cbn [In]; [intuition congruence|].
  rewrite IH. intuition congruence.
Qed.

Lemma sort_ascending_in (x : Q) (l : list Q) : In x (sort_ascending l) <-> In x l.
Proof.
  induction l as [|y rest IH]; [reflexivity|].
  cbn [sort_ascending fold_right]. fold (sort_ascending rest).
  rewrite insert_ascending_in, IH. cbn [In]. intuition congruence.
Qed.

Lemma insert_ascending_perm (x : Q) (l : list Q) :
  Permutation (x :: l) (insert_ascending x l).
Proof.
  induction l as [|y rest IH]; cbn [insert_ascending]; [apply Permutation_refl|].
  destruct (Qle_bool x y); [apply Permutation_refl|].
  apply perm_trans with (y :: x :: rest); [apply perm_swap|].
  apply perm_skip. exact IH.
Qed.

Lemma sort_ascending_perm (l : list Q) : Permutation l (sort_ascending l).
Proof.
  induction l as [|x rest IH]; [apply Permutation_refl|].
  cbn [sort_ascending fold_right]. fold (sort_ascending rest).
  apply perm_trans with (x :: sort_ascending rest);
    [apply perm_skip; exact IH | apply insert_ascending_perm].
Qed.

Lemma insert_ascending_sorted (x : Q) (l : list Q) :
  StronglySorted Qle l -> StronglySorted Qle (insert_ascending x l).
Proof.
  induction l as [|y rest IH]; intro Hs; cbn [insert_ascending].
  - constructor; constructor.
  - inversion Hs as [|? ? Hrest Hall]; subst.
    destruct (Qle_bool x y) eqn:E.
    + apply Qle_bool_iff in E. constructor; [exact Hs|].
      constructor; [exact E|].
      apply (Forall_impl _ (fun z Hz => Qle_trans _ _ _ E Hz) Hall).
    + assert (Hyx : y <= x).
      { destruct (Qlt_le_dec y x) as [H | H]; [apply Qlt_le_weak; exact H|].
        apply Qle_bool_iff in H. congruence. }
      constructor; [apply IH; exact Hrest|].
      apply Forall_forall. intros z Hz. apply insert_ascending_in in Hz.
      destruct Hz as [-> | Hz]; [exact Hyx|].
      rewrite Forall_forall in Hall. apply Hall. exact Hz.
Qed.

Lemma sort_ascending_sorted (l : list Q) : StronglySorted Qle (sort_ascending l).
Proof.
  induction l as [|x rest IH]; [constructor|].
  cbn [sort_ascending fold_right]. fold (sort_ascending rest).
  apply insert_ascending_sorted. exact IH.
Qed.

Lemma sorted_nth_le (l : list Q) (i j : nat) :
  StronglySorted Qle l -> (i <= j)%nat -> (j < List.length l)%nat ->
  nth i l 0 <= nth j l 0.
Proof.
  intro Hs. revert i j. induction Hs as [|x rest Hrest IH Hall]; intros i j Hij Hj.
  - cbn in Hj. lia.
  - destruct j as [|j'].
    + assert (i = 0%nat) by lia. subst i. apply Qle_refl.
    + cbn [List.length] in Hj. destruct i as [|i'].
      * cbn [nth]. rewrite Forall_forall in Hall. apply Hall. apply nth_In. lia.
      * cbn [nth]. apply IH; lia.
Qed.

Lemma fold_max_ge (l : list Q) (a : Q) :
  a <= fold_left Math_max l a /\ forall x, In x l -> x <= fold_left Math_max l a.
Proof.
  revert a. induction l as [|y rest IH]; intro a; cbn [fold_left In].
  - split; [apply Qle_refl | tauto].
  - destruct (IH (Math_max a y)) as [H1 H2]. split.
    + apply Qle_trans with (Math_max a y); [apply Math_max_l | exact H1].
    + intros x [<- | Hx]; [|apply H2; exact Hx].
      apply Qle_trans with (Math_max a y); [apply Math_max_r | exact H1].
Qed.

Lemma max_of_ge (l : list Q) (x : Q) : In x l -> x <= max_of l.
Proof.
  destruct l as [|v vs]; [contradiction|]. unfold max_of.
  destruct (fold_max_ge vs v) as [H1 H2].
  intros [<- | Hx]; [exact H1 | apply H2; exact Hx].
Qed.

(** The fallback when the response carries truthy values. *)
Lemma calculateRecommendation_values (timeSeries : list Series) (metricType : string)
    (currentRequest : num) :
  collect_values timeSeries <> [] ->
  let values := sort_ascending (collect_values timeSeries) in
  calculateRecommendation timeSeries metricType currentRequest
  = if String.eqb metricType "cpu"
    then roundUpTo10m (nth (p90Index values) values 0 * (115 # 100) * 1000)
    else roundUpTo16Mi (max_of values * (12 # 10)).
Proof.
  intro Hne. cbv zeta. unfold calculateRecommendation.
  destruct timeSeries as [|s rest]; [contradiction Hne; reflexivity|].
  destruct (collect_values (s :: rest)) as [|v vs]; [contradiction Hne; reflexivity|].
  reflexivity.
Qed.

Lemma collect_values_in (timeSeries : list Series) (x : Q) :
  In x (collect_values timeSeries) ->
  exists point, In point (all_points timeSeries)
                /\ doubleValue point = Some x /\ Qzerob x = false.
Proof.
  unfold collect_values, all_points. intro H.
  apply in_flat_map in H. destruct H as (s & Hs & H).
  apply in_flat_map in H. destruct H as (p & Hp & H).
  exists p. split; [apply in_flat_map; exists s; split; assumption|].
  destruct (doubleValue p) as [v|]; [|contradiction].
  destruct (Qzerob v) eqn:E; [contradiction|].
  destruct H as [<- | []]. split; [reflexivity | exact E].
Qed.

(** X17. The recommendations that are computed from autoscaler data or from
    usage values, and not passed through from the current request, are
    whole positive multiples of 10 millicores and of 16 MiB. *)
Theorem recommendations_in_practical_increments
    (vpa : VPARecommendations) (cpuTimeSeries memoryTimeSeries : list Series)
    (cpuRequest memoryRequest : num) :
  ((vpa_available vpa = true /\ vpa_cpu vpa <> None) \/ collect_values cpuTimeSeries <> [] ->
   exists k : Z,
     (1 <= k)%Z /\ getRecommendedCPU vpa cpuTimeSeries cpuRequest = inject_Z k * 10)
  /\ ((vpa_available vpa = true /\ vpa_memory vpa <> None)
      \/ collect_values memoryTimeSeries <> [] ->
      exists k : Z,
        (1 <= k)%Z
        /\ getRecommendedMemory vpa memoryTimeSeries memoryRequest
           = inject_Z k * (16 * mebibyte)).
Proof.
  split; intro H.
  - unfold getRecommendedCPU.
    destruct (vpa_available vpa) eqn:Ea, (vpa_cpu vpa) as [cpu|] eqn:Ec;
      try apply roundUpTo10m_multiple;
      (destruct H as [[H1 H2] | H]; [congruence|]);
      rewrite (calculateRecommendation_values _ "cpu" _ H);
      apply roundUpTo10m_multiple.
  - unfold getRecommendedMemory.
    destruct (vpa_available vpa) eqn:Ea, (vpa_memory vpa) as [memory|] eqn:Ec;
      try apply roundUpTo16Mi_multiple;
      (destruct H as [[H1 H2] | H]; [congruence|]);
      rewrite (calculateRecommendation_values _ "memory" _ H);
      apply roundUpTo16Mi_multiple.
Qed.

(** An instance: the usage series of "web", without autoscaler data. *)
Lemma recommendations_in_practical_increments_witness :
  (exists k : Z,
     (1 <= k)%Z
     /\ getRecommendedCPU vpa_unavailable
          [one_point_series "app" 1700000000 (1 # 2)] (Fin 1000) = inject_Z k * 10)
  /\ (exists k : Z,
        (1 <= k)%Z
        /\ getRecommendedMemory vpa_unavailable
             [one_point_series "app" 1700000000 (100 * 1024 * 1024)]
             (Fin (1024 * 1024 * 1024)) = inject_Z k * (16 * mebibyte)).
Proof.
  split.
  - apply (proj1 (recommendations_in_practical_increments vpa_unavailable
                    [one_point_series "app" 1700000000 (1 # 2)]
                    [one_point_series "app" 1700000000 (100 * 1024 * 1024)]
                    (Fin 1000) (Fin (1024 * 1024 * 1024)))).
    right. discriminate.
  - apply (proj2 (recommendations_in_practical_increments vpa_unavailable
                    [one_point_series "app" 1700000000 (1 # 2)]
                    [one_point_series "app" 1700000000 (100 * 1024 * 1024)]
                    (Fin 1000) (Fin (1024 * 1024 * 1024)))).
    right. discriminate.
Defined.

(** X18. The memory fallback never recommends less than 1.2 times any
    observed non-zero usage value. *)
Theorem memory_recommendation_covers_usage
    (timeSeries : list Series) (currentRequest : num) (v : Q) :
  In v (collect_values timeSeries) ->
  v * (12 # 10) <= calculateRecommendation timeSeries "memory" currentRequest.
Proof.
  intro Hin.
  assert (Hne : collect_values timeSeries <> []) by (intro E; rewrite E in Hin; exact Hin).
  rewrite (calculateRecommendation_values _ "memory" _ Hne). cbv zeta.
  change (String.eqb "memory" "cpu") with false. cbv iota.
  apply Qle_trans with (max_of (sort_ascending (collect_values timeSeries)) * (12 # 10));
    [|apply roundUpTo16Mi_lower].
  apply Qmult_le_compat_r; [|discriminate].
  apply max_of_ge. apply sort_ascending_in. exact Hin.
Qed.

(** An instance: 100 MiB in use. *)
Lemma memory_recommendation_covers_usage_witness :
  100 * 1024 * 1024 * (12 # 10)
  <= calculateRecommendation [one_point_series "app" 1700000000 (100 * 1024 * 1024)]
       "memory" (Fin (1024 * 1024 * 1024)).
Proof.
  apply (memory_recommendation_covers_usage
           [one_point_series "app" 1700000000 (100 * 1024 * 1024)]
           (Fin (1024 * 1024 * 1024)) (100 * 1024 * 1024)).
  left. reflexivity.
Defined.

(** X19. With usage values present, the CPU fallback sorts them in ascending
    order, reads the value at index floor(0.9 n), which is inside the
    array, and recommends at least 1150 millicores per core of that value
    and of every smaller one. *)
Theorem cpu_recommendation_covers_p90 (timeSeries : list Series) (currentRequest : num) :
  collect_values timeSeries <> [] ->
  let sorted := sort_ascending (collect_values timeSeries) in
  Permutation (collect_values timeSeries) sorted
  /\ StronglySorted Qle sorted
  /\ (p90Index sorted < List.length sorted)%nat
  /\ forall i, (i <= p90Index sorted)%nat ->
               nth i sorted 0 * (115 # 100) * 1000
               <= calculateRecommendation timeSeries "cpu" currentRequest.
Proof.
  intros Hne sorted.
  assert (Hlen : (p90Index sorted < List.length sorted)%nat).
  { apply p90Index_in_range. subst sorted. intro E.
    apply Hne. apply Permutation_nil. rewrite <- E. apply Permutation_sym.
    apply sort_ascending_perm. }
  split; [apply sort_ascending_perm|]. split; [apply sort_ascending_sorted|].
  split; [exact Hlen|]. intros i Hi.
  rewrite (calculateRecommendation_values _ "cpu" _ Hne). cbv zeta. fold sorted.
  change (String.eqb "cpu" "cpu") with true. cbv iota.
  apply Qle_trans with (nth (p90Index sorted) sorted 0 * (115 # 100) * 1000);
    [|apply roundUpTo10m_lower].
  apply Qmult_le_compat_r; [|discriminate].
  apply Qmult_le_compat_r; [|discriminate].
  apply sorted_nth_le; [apply sort_ascending_sorted | exact Hi | exact Hlen].
Qed.

(** An instance: three usage values in descending order. *)
Lemma cpu_recommendation_covers_p90_witness :
  let timeSeries :=
    [ one_point_series "app" 1700000000 (3 # 10);
      one_point_series "app" 1700000060 (2 # 10);
      one_point_series "app" 1700000120 (1 # 10) ] in
  let sorted := sort_ascending (collect_values timeSeries) in
  Permutation (collect_values timeSeries) sorted
  /\ StronglySorted Qle sorted
  /\ (p90Index sorted < List.length sorted)%nat
  /\ forall i, (i <= p90Index sorted)%nat ->
               nth i sorted 0 * (115 # 100) * 1000
               <= calculateRecommendation timeSeries "cpu" (Fin 1000).
Proof.
  apply (cpu_recommendation_covers_p90
           [ one_point_series "app" 1700000000 (3 # 10);
             one_point_series "app" 1700000060 (2 # 10);
             one_point_series "app" 1700000120 (1 # 10) ] (Fin 1000)).
  discriminate.
Defined.

(** X20. When no point carries a non-zero value (no series, no points, values
    absent or zero), the fallback returns the current request, or the floor
    (10 millicores, 16 MiB) when the request is zero or NaN. *)
Theorem recommendation_without_usage_data
    (timeSeries : list Series) (metricType : string) (currentRequest : num) :
  (forall point v, In point (all_points timeSeries) -> doubleValue point = Some v -> v == 0) ->
  calculateRecommendation timeSeries metricType currentRequest
  = num_or currentRequest (if String.eqb metricType "cpu" then 10 else 16 * 1024 * 1024).
Proof.
  intro Hzero. unfold calculateRecommendation.
  destruct timeSeries as [|s rest]; [reflexivity|].
  destruct (collect_values (s :: rest)) as [|x xs] eqn:E; [reflexivity|].
  exfalso.
  destruct (collect_values_in (s :: rest) x) as (p & Hp & Hv & Hnz);
    [rewrite E; left; reflexivity|].
  apply Qzerob_false in Hnz. apply Hnz. apply (Hzero p x Hp Hv).
Qed.

(** An instance: a single point whose value is 0, and no current request. *)
Lemma recommendation_without_usage_data_witness :
  calculateRecommendation [one_point_series "app" 1700000000 0] "cpu" (Fin 0)
  = num_or (Fin 0) (if String.eqb "cpu" "cpu" then 10 else 16 * 1024 * 1024).
Proof.
  apply (recommendation_without_usage_data
           [one_point_series "app" 1700000000 0] "cpu" (Fin 0)).
  intros point v [<- | []] E. injection E as <-. reflexivity.
Defined.

(* ------------------------------------------------------------------ *)
(** ** CostEstimator: monotonicity *)

Lemma Math_round_mono (x y : Q) : x <= y -> Math_round x <= Math_round y.
Proof.
  intro H. unfold Math_round. rewrite <- Zle_Qle. apply Qfloor_resp_le. lra.
Qed.

Lemma hourly_rate_mono (c1 c2 m1 m2 : Q) :
  0 <= c1 <= c2 -> 0 <= m1 <= m2 ->
  0 <= c1 / 1000 * cpuCostPerHour + m1 / (1024 * 1024 * 1024) * memoryCostPerHour
    <= c2 / 1000 * cpuCostPerHour + m2 / (1024 * 1024 * 1024) * memoryCostPerHour.
Proof.
  intros [Hc1 Hc] [Hm1 Hm]. unfold Qdiv. split.
  - apply Qle_trans with (0 + 0); [discriminate|].
    apply Qplus_le_compat;
      (apply Qmult_le_0_compat; [apply Qmult_le_0_compat|]; try assumption; discriminate).
  - apply Qplus_le_compat;
      (apply Qmult_le_compat_r; [apply Qmult_le_compat_r|]; try assumption; discriminate).
Qed.

(** X21. The monthly cost is never negative and grows (weakly) with the
    effective CPU request, the effective memory request and the number of
    replicas; the effective request is the declared one, or the default
    (100m, 128 MiB) when the declared one is zero or missing. *)
Theorem cost_grows_with_requests_and_replicas
    (r1 r2 : Resources) (replicas1 replicas2 : Q) :
  0 <= num_or (requests_cpu r1) 100 <= num_or (requests_cpu r2) 100 ->
  0 <= num_or (requests_memory r1) (128 * 1024 * 1024)
    <= num_or (requests_memory r2) (128 * 1024 * 1024) ->
  0 <= replicas1 <= replicas2 ->
  0 <= calculateCost r1 replicas1 <= calculateCost r2 replicas2.
Proof.
  intros Hc Hm [Hn1 Hn]. unfold calculateCost. cbv zeta.
  destruct (hourly_rate_mono _ _ _ _ Hc Hm) as [Hh1 Hh].
  set (h1 := num_or (requests_cpu r1) 100 / 1000 * cpuCostPerHour + _) in *.
  set (h2 := num_or (requests_cpu r2) 100 / 1000 * cpuCostPerHour + _) in *.
  clearbody h1 h2.
  assert (H0 : 0 <= h1 * replicas1) by (apply Qmult_le_0_compat; assumption).
  assert (H1 : h1 * replicas1 <= h2 * replicas2).
  { apply Qle_trans with (h1 * replicas2).
    - rewrite (Qmult_comm h1 replicas1), (Qmult_comm h1 replicas2).
      apply Qmult_le_compat_r; assumption.
    - apply Qmult_le_compat_r; [assumption|].
      apply Qle_trans with replicas1; assumption. }
  set (a := h1 * replicas1) in *. set (b := h2 * replicas2) in *. clearbody a b.
  unfold Qdiv. split.
  - apply Qmult_le_0_compat; [|discriminate]. apply Math_round_nonneg. lra.
  - apply Qmult_le_compat_r; [|discriminate]. apply Math_round_mono. lra.
Qed.

(** An instance: one replica of 500m / 512 MiB against two replicas of
    1000m / 1 GiB. *)
Lemma cost_grows_with_requests_and_replicas_witness :
  0 <= calculateCost (requests_of 500 (512 * 1024 * 1024)) 1
    <= calculateCost (requests_of 1000 (1024 * 1024 * 1024)) 2.
Proof.
  apply (cost_grows_with_requests_and_replicas
           (requests_of 500 (512 * 1024 * 1024)) (requests_of 1000 (1024 * 1024 * 1024)) 1 2).
  - split; discriminate.
  - split; discriminate.
  - split; discriminate.
Defined.

(* ------------------------------------------------------------------ *)
(** ** EfficiencyCalculator: the cap *)

Lemma Math_min_cap (hi x : Q) : hi <= x -> Math_min hi x = hi.
Proof.
  intro H. unfold Math_min. apply Qle_bool_iff in H. rewrite H. reflexivity.
Qed.

(** X22. A workload that uses at least its effective CPU request and at
    least its effective memory request scores exactly 100: use above the
    request is capped and does not raise the score further. *)
Theorem efficiency_capped_at_full_use
    (cpuSeries memorySeries : list Series) (resources : Resources) :
  let cpuRequest := num_or (requests_cpu resources) 100 in
  let memoryRequest := num_or (requests_memory resources) (128 * 1024 * 1024) in
  0 < cpuRequest -> 0 < memoryRequest ->
  cpuRequest <= calculateCurrentUsage cpuSeries * 1000 ->
  memoryRequest <= calculateCurrentUsage memorySeries ->
  calculateEfficiency cpuSeries memorySeries resources = 100.
Proof.
  intros cpuRequest memoryRequest Hc Hm Huc Hum. unfold calculateEfficiency.
  fold cpuRequest memoryRequest.
  rewrite (proj2 (Qgtb_gt cpuRequest 0) Hc), (proj2 (Qgtb_gt memoryRequest 0) Hm).
  rewrite !Math_min_cap.
  - change 100 with (inject_Z 100) at 3. rewrite <- (Math_round_Z 100).
    apply Math_round_eq. reflexivity.
  - setoid_replace 100 with (1 * 100) at 1 by reflexivity.
    apply Qmult_le_compat_r; [|discriminate].
    apply Qdiv_ge_iff; [exact Hm|]. lra.
  - setoid_replace 100 with (1 * 100) at 1 by reflexivity.
    apply Qmult_le_compat_r; [|discriminate].
    apply Qdiv_ge_iff; [exact Hc|]. lra.
Qed.

(** An instance: 2 cores and 2 GiB in use against 1000m / 1 GiB. *)
Lemma efficiency_capped_at_full_use_witness :
  calculateEfficiency [one_point_series "app" 1700000000 2]
    [one_point_series "app" 1700000000 (2 * 1024 * 1024 * 1024)]
    (requests_of 1000 (1024 * 1024 * 1024)) = 100.
Proof.
  apply (efficiency_capped_at_full_use
           [one_point_series "app" 1700000000 2]
           [one_point_series "app" 1700000000 (2 * 1024 * 1024 * 1024)]
           (requests_of 1000 (1024 * 1024 * 1024)));
    try reflexivity; discriminate.
Defined.

(* ------------------------------------------------------------------ *)
(** ** WorkloadOrchestrator: which failures reach the caller *)

Lemma getVPARecommendations_failed (up : Upstream)
    (projectId clusterName namespace workloadName : string) :
  (exists message,
      getMetricsFromMonitoring up projectId clusterName namespace workloadName metric_vpa_cpu
      = inl message)
  \/ (exists message,
         getMetricsFromMonitoring up projectId clusterName namespace workloadName
           metric_vpa_memory = inl message) ->
  getVPARecommendations up projectId clusterName namespace workloadName = vpa_unavailable.
Proof.
  unfold getVPARecommendations, bind.
  intros [[message H] | [message H]]; rewrite H.
  - reflexivity.
  - destruct (getMetricsFromMonitoring up projectId clusterName namespace workloadName
                metric_vpa_cpu); reflexivity.
Qed.

Lemma usage_advice_ends_with_enable (vpa : VPARecommendations)
    (cpuSeries memorySeries : list Series) (resources : Resources) :
  vpa_available vpa = false ->
  exists advice,
    generateRecommendationsWithVPA vpa cpuSeries memorySeries resources
    = advice ++ [EnableVpa].
Proof.
  intro Hna. unfold generateRecommendationsWithVPA. rewrite Hna.
  eexists. reflexivity.
Qed.

(** X23. When a query for autoscaler recommendations fails while both usage
    queries succeed, the workload is still processed: the record reports no
    autoscaler, carries no autoscaler details, takes both recommendations
    from the usage data, reports zero savings and ends its advice with the
    hint to enable the autoscaler. *)
Theorem autoscaler_failure_degrades_to_usage
    (up : Upstream) (projectId clusterName : string) (workload : Workload)
    (cpuResponse memoryResponse : list Series) :
  getMetricsFromMonitoring up projectId clusterName
    (w_namespace workload) (w_name workload) metric_cpu_usage = inr cpuResponse ->
  getMetricsFromMonitoring up projectId clusterName
    (w_namespace workload) (w_name workload) metric_memory_usage = inr memoryResponse ->
  (exists message,
      getMetricsFromMonitoring up projectId clusterName
        (w_namespace workload) (w_name workload) metric_vpa_cpu = inl message)
  \/ (exists message,
         getMetricsFromMonitoring up projectId clusterName
           (w_namespace workload) (w_name workload) metric_vpa_memory = inl message) ->
  exists m,
    processWorkload up projectId clusterName workload = inr m
    /\ pm_vpaEnabled m = false
    /\ pm_vpaDetails m = None
    /\ pm_recommendedCPU m = calculateRecommendation cpuResponse "cpu" (pm_cpuRequest m)
    /\ pm_recommendedMemory m
       = calculateRecommendation memoryResponse "memory" (pm_memoryRequest m)
    /\ pm_potentialSavings m == 0
    /\ exists advice, pm_recommendations m = advice ++ [EnableVpa].
Proof.
  intros Hc Hm Hv.
  apply getVPARecommendations_failed in Hv.
  unfold processWorkload, bind. rewrite Hc, Hm, Hv. unfold ret.
  eexists. split; [reflexivity|].
  cbn [pm_vpaEnabled pm_vpaDetails pm_recommendedCPU pm_recommendedMemory
       pm_potentialSavings pm_recommendations pm_cpuRequest pm_memoryRequest
       vpa_available vpa_unavailable].
  repeat split.
  - apply savings_without_autoscaler. reflexivity.
  - apply usage_advice_ends_with_enable. reflexivity.
Qed.

(** An instance: "web" on the cluster whose autoscaler metrics cannot be
    read. *)
Lemma autoscaler_failure_degrades_to_usage_witness :
  exists m,
    processWorkload sample_upstream_without_autoscaler "proj" "cluster"
      (sample_workload "web") = inr m
    /\ pm_vpaEnabled m = false
    /\ pm_vpaDetails m = None
    /\ pm_recommendedCPU m
       = calculateRecommendation [one_point_series "app" 1700000000 (1 # 2)]
           "cpu" (pm_cpuRequest m)
    /\ pm_recommendedMemory m
       = calculateRecommendation [one_point_series "app" 1700000000 (100 * 1024 * 1024)]
           "memory" (pm_memoryRequest m)
    /\ pm_potentialSavings m == 0
    /\ exists advice, pm_recommendations m = advice ++ [EnableVpa].
Proof.
  apply (autoscaler_failure_degrades_to_usage
           sample_upstream_without_autoscaler "proj" "cluster" (sample_workload "web")
           [one_point_series "app" 1700000000 (1 # 2)]
           [one_point_series "app" 1700000000 (100 * 1024 * 1024)]).
  - reflexivity.
  - reflexivity.
  - left. eexists. reflexivity.
Defined.

(* ------------------------------------------------------------------ *)
(** ** WorkloadOrchestrator: request validation *)




(* ------------------------------------------------------------------ *)
(** ** RecommendationSynthesizer: advice without autoscaler data *)

(** X26. Without autoscaler data and with positive effective requests, the
    advice is a CPU hint when CPU utilisation is below 0.3 or above 0.8, a
    memory hint likewise, the well-optimised message exactly when both
    utilisations lie in [0.3, 0.8], and always a final hint to enable the
    autoscaler; it holds nothing else. *)
Theorem usage_advice_follows_utilisation
    (vpa : VPARecommendations) (cpuSeries memorySeries : list Series)
    (resources : Resources) :
  let cpuRequest := num_or (requests_cpu resources) 100 in
  let memoryRequest := num_or (requests_memory resources) (128 * 1024 * 1024) in
  let cpuUtilization := calculateCurrentUsage cpuSeries * 1000 / cpuRequest in
  let memoryUtilization := calculateCurrentUsage memorySeries / memoryRequest in
  vpa_available vpa = false -> 0 < cpuRequest -> 0 < memoryRequest ->
  exists advice,
    generateRecommendationsWithVPA vpa cpuSeries memorySeries resources
    = advice ++ [EnableVpa]
    /\ (In ConsiderReducingCpu advice <-> cpuUtilization < 3 # 10)
    /\ (In ConsiderIncreasingCpu advice <-> 8 # 10 < cpuUtilization)
    /\ (In ConsiderReducingMemory advice <-> memoryUtilization < 3 # 10)
    /\ (In ConsiderIncreasingMemory advice <-> 8 # 10 < memoryUtilization)
    /\ (In WellOptimized advice
        <-> 3 # 10 <= cpuUtilization <= 8 # 10 /\ 3 # 10 <= memoryUtilization <= 8 # 10)
    /\ forall line, In line advice ->
         In line [ConsiderReducingCpu; ConsiderIncreasingCpu; ConsiderReducingMemory;
                  ConsiderIncreasingMemory; WellOptimized].
Proof.
  intros cpuRequest memoryRequest cpuUtilization memoryUtilization Hna Hc Hm.
  unfold generateRecommendationsWithVPA. rewrite Hna.
  fold cpuRequest memoryRequest.
  rewrite (proj2 (Qgtb_gt cpuRequest 0) Hc), (proj2 (Qgtb_gt memoryRequest 0) Hm).
  fold cpuUtilization memoryUtilization.
  clearbody cpuUtilization memoryUtilization.
  destruct (Qltb cpuUtilization (3 # 10)) eqn:C1;
    [apply Qltb_lt in C1 | apply Qltb_ge in C1];
    (destruct (Qgtb cpuUtilization (8 # 10)) eqn:C2;
       [apply Qgtb_gt in C2 | apply Qgtb_le in C2]);
    (destruct (Qltb memoryUtilization (3 # 10)) eqn:M1;
       [apply Qltb_lt in M1 | apply Qltb_ge in M1]);
    (destruct (Qgtb memoryUtilization (8 # 10)) eqn:M2;
       [apply Qgtb_gt in M2 | apply Qgtb_le in M2]);
    try (exfalso; lra);
    (eexists; split; [reflexivity|]);
    simpl;
    (repeat split; intros;
     repeat match goal with
            | H : _ \/ _ |- _ => destruct H
            | H : _ /\ _ |- _ => destruct H
            | H : False |- _ => contradiction
            | H : @eq RecLine _ _ |- _ => first [discriminate H | subst]
            end;
     try lra; try (exfalso; lra); intuition (try reflexivity; try discriminate)).
Qed.

(** An instance: 0.5 cores and 100 MiB in use against 1000m / 1 GiB. *)
Lemma usage_advice_follows_utilisation_witness :
  exists advice,
    generateRecommendationsWithVPA vpa_unavailable
      [one_point_series "app" 1700000000 (1 # 2)]
      [one_point_series "app" 1700000000 (100 * 1024 * 1024)]
      (requests_of 1000 (1024 * 1024 * 1024))
    = advice ++ [EnableVpa]
    /\ In ConsiderReducingMemory advice
    /\ ~ In ConsiderReducingCpu advice.
Proof.
  destruct (usage_advice_follows_utilisation vpa_unavailable
              [one_point_series "app" 1700000000 (1 # 2)]
              [one_point_series "app" 1700000000 (100 * 1024 * 1024)]
              (requests_of 1000 (1024 * 1024 * 1024)))
    as (advice & E & Hrc & _ & Hrm & _); try reflexivity.
  exists advice. split; [exact E|]. split.
  - apply Hrm. reflexivity.
  - intro H. apply Hrc in H. vm_compute in H. discriminate H.
Defined.

(* ------------------------------------------------------------------ *)
(** ** RecommendationSynthesizer: the CPU lines of the autoscaler branch *)

Lemma suggestion_no_cpu_line (mk : string -> Q -> RecLine) (difference : Q) :
  (forall action percent, cpu_line (mk action percent) = false) ->
  Forall (fun line => cpu_line line = false) (suggestion mk difference).
Proof.
  intro Hmk. unfold suggestion.
  destruct (Qgtb (Math_abs difference) 20); repeat constructor. apply Hmk.
Qed.

Lemma no_cpu_line_values (lines : list RecLine) :
  Forall (fun line => cpu_line line = false) lines ->
  cpu_container_values lines = [] /\ cpu_totals lines = [].
Proof.
  unfold cpu_container_values, cpu_totals.
  induction 1 as [|line rest Hline _ [IH1 IH2]]; [split; reflexivity|].
  cbn [flat_map]. rewrite IH1, IH2.
  destruct line; try discriminate Hline; split; reflexivity.
Qed.

Lemma cpu_container_lines_values (rounded : list (string * Q)) :
  cpu_container_values (map (fun entry => CpuContainerLine (fst entry) (snd entry)) rounded)
  = map snd rounded
  /\ cpu_totals (map (fun entry => CpuContainerLine (fst entry) (snd entry)) rounded) = [].
Proof.
  unfold cpu_container_values, cpu_totals.
  induction rounded as [|entry rest [IH1 IH2]]; [split; reflexivity|].
  cbn [map flat_map Datatypes.app]. rewrite IH1, IH2. split; reflexivity.
Qed.

Lemma fold_total_snd (rounded : list (string * Q)) (start : Q) :
  fold_left (fun total entry => total + snd entry) rounded start
  = fold_left Qplus (map snd rounded) start.
Proof.
  revert start. induction rounded as [|entry rest IH]; intro start; [reflexivity|].
  cbn [fold_left map]. apply IH.
Qed.

(** The advice of the autoscaler branch: the CPU block, then lines of other
    kinds. *)
Lemma vpa_advice_cpu_block (vpa : VPARecommendations) (cpuSeries memorySeries : list Series)
    (resources : Resources) :
  vpa_available vpa = true ->
  let rounded :=
    map (fun entry => (fst entry, roundUpTo10m (Math_round (snd entry * 1000))))
        (vpa_cpuPerContainer vpa) in
  exists rest,
    generateRecommendationsWithVPA vpa cpuSeries memorySeries resources
    = match rounded with
      | [] => []
      | _ =>
          CpuHeader
            :: map (fun entry => CpuContainerLine (fst entry) (snd entry)) rounded
            ++ [CpuTotalLine (sum_list (map snd rounded))
                  (num_or (requests_cpu resources) 100)]
      end ++ rest
    /\ Forall (fun line => cpu_line line = false) rest.
Proof.
  intros Hav rounded. unfold generateRecommendationsWithVPA. rewrite Hav. cbv zeta.
  rewrite validateRoundedTotals_inert. cbv beta iota.
  fold rounded. unfold sum_list. rewrite <- fold_total_snd.
  match goal with |- exists rest, _ ++ ?r = _ /\ _ => exists r end.
  split; [reflexivity|].
  apply Forall_app; split; [|apply Forall_app; split; [|apply Forall_app; split;
    [|apply Forall_app; split]]].
  - destruct (map _ (vpa_memoryPerContainer vpa)) as [|entry rest]; [constructor|].
    constructor; [reflexivity|]. apply Forall_app. split.
    + apply Forall_map, Forall_forall. intros x _. reflexivity.
    + repeat constructor.
  - destruct (is_some (vpa_cpu vpa)); [|constructor].
    apply suggestion_no_cpu_line. reflexivity.
  - destruct (is_some (vpa_memory vpa)); [|constructor].
    destruct (fold_left _ _ (Fin 0)); [|constructor].
    apply suggestion_no_cpu_line. reflexivity.
  - destruct (_ || false); repeat constructor.
  - destruct (_ && _); repeat constructor.
Qed.

Lemma cpu_block_values (rounded : list (string * Q)) (total currentCpuRequest : Q) :
  let block :=
    CpuHeader
      :: map (fun entry => CpuContainerLine (fst entry) (snd entry)) rounded
      ++ [CpuTotalLine total currentCpuRequest] in
  cpu_container_values block = map snd rounded /\ cpu_totals block = [total].
Proof.
  cbv zeta. destruct (cpu_container_lines_values rounded) as [H1 H2].
  unfold cpu_container_values, cpu_totals in *.
  cbn [flat_map Datatypes.app]. rewrite !flat_map_app, H1, H2.
  cbn [flat_map Datatypes.app]. rewrite app_nil_r. split; reflexivity.
Qed.

(** X27. With autoscaler data, the advice shows one CPU line per container
    of the autoscaler's CPU map, in its order, each value being the
    container's recommendation in whole millicores rounded up to 10m; when
    the map is non-empty there is exactly one CPU total line and it shows
    the sum of the values on those lines; when it is empty there is none. *)
Theorem cpu_total_line_sums_container_lines
    (vpa : VPARecommendations) (cpuSeries memorySeries : list Series)
    (resources : Resources) :
  vpa_available vpa = true ->
  let lines := generateRecommendationsWithVPA vpa cpuSeries memorySeries resources in
  cpu_container_values lines
  = map (fun entry => roundUpTo10m (Math_round (snd entry * 1000))) (vpa_cpuPerContainer vpa)
  /\ cpu_totals lines
     = match vpa_cpuPerContainer vpa with
       | [] => []
       | _ => [sum_list (cpu_container_values lines)]
       end.
Proof.
  intros Hav lines.
  destruct (vpa_advice_cpu_block vpa cpuSeries memorySeries resources Hav)
    as (rest & E & Hrest).
  cbv zeta in E. fold lines in E.
  destruct (no_cpu_line_values rest Hrest) as [R1 R2].
  set (rounded := map (fun entry => (fst entry, roundUpTo10m (Math_round (snd entry * 1000))))
                      (vpa_cpuPerContainer vpa)) in E.
  assert (Hboth : cpu_container_values lines = map snd rounded
                  /\ cpu_totals lines
                     = match rounded with
                       | [] => []
                       | _ => [sum_list (map snd rounded)]
                       end).
  { rewrite E. unfold cpu_container_values, cpu_totals. rewrite !flat_map_app.
    fold (cpu_container_values rest) (cpu_totals rest). rewrite R1, R2, !app_nil_r.
    destruct rounded as [|entry more] eqn:Er; [split; reflexivity|].
    apply cpu_block_values. }
  destruct Hboth as [H1 H2]. rewrite H2, H1. subst rounded. split.
  - rewrite map_map. reflexivity.
  - destruct (vpa_cpuPerContainer vpa); reflexivity.
Qed.

(** An instance: the autoscaler object of "api". *)
Lemma cpu_total_line_sums_container_lines_witness :
  let lines :=
    generateRecommendationsWithVPA sample_vpa [] [] (requests_of 1000 (1024 * 1024 * 1024)) in
  cpu_container_values lines
  = map (fun entry => roundUpTo10m (Math_round (snd entry * 1000)))
        (vpa_cpuPerContainer sample_vpa)
  /\ cpu_totals lines
     = match vpa_cpuPerContainer sample_vpa with
       | [] => []
       | _ => [sum_list (cpu_container_values lines)]
       end.
Proof.
  apply (cpu_total_line_sums_container_lines sample_vpa [] []
           (requests_of 1000 (1024 * 1024 * 1024))).
  reflexivity.
Defined.

(* ------------------------------------------------------------------ *)
(** ** Dashboard: cost by location *)








